(** * A WooCommerce store console over Telegram (bot.py): model and proofs

    The bot is one Python module.  Its functions are embedded below in the
    order of the source: the store gateway ([fetch_products],
    [search_products], [fetch_variations], [update_product],
    [fetch_orders]), the low-stock monitor ([check_low_stock]), the
    paginated formatters ([format_products], [format_orders]), the settings
    file ([save_settings]), the authorization gate ([check_admin]) and the
    handlers ([button], [handle_text] and the commands).  A second part
    embeds, in the same order, [update_order_status], [fetch_customers],
    [fetch_customer_orders], [notify_api_error], [format_customers],
    [load_settings], the commands [bulkupdate] and [customers], the
    branches customers_ and update_ of [button], and [main].

    Conventions of the embedding:
    - a Python [int] is a [Z]; a Python [str] is a [string] holding its
      UTF-8 bytes; [None] is [option]'s [None];
    - the records of the store (JSON objects read with [d.get(k, default)])
      are Rocq records whose optional keys are [option] fields, typed as the
      store's schema types them;
    - effects are threaded through the monad [M] over [world]: the two
      dictionaries of the framework ([bot_data], [user_data]), the remote
      calls issued, the chat calls issued and the settings file;
    - what the outside answers (environment variables, the store's
      responses, whether a chat call goes through) is read from an
      [environment];
    - [bot_data] holds what the bot itself writes there and saves: values
      of the types of [save_settings];
    - an exception is the [Raise] result; [try]/[except] is
      [try_ValueError] or [try_Exception];
    - numbers with a fraction are out of the model: a price is carried as
      the text [str(price)] gives, [float(s)] as the text of its result,
      and the handler that computes with them (stats) is not embedded;
    - calls to [logger] change nothing that is modelled and are left out. *)

From Stdlib Require Import ZArith String Ascii List Bool Lia.
From stdpp Require Import base option list gmap strings pretty.

Local Open Scope string_scope.
Local Open Scope list_scope.
Local Open Scope Z_scope.

(** ** Python built-ins *)

(** The methods of [str] whose result depends on the Unicode tables, and
    [int()] on text.  The model is parametric in them: every statement below
    holds whatever tables are plugged in. *)
Class PyStr := {
  (** [int(s)]; [None] when it raises [ValueError] *)
  py_int : string -> option Z;
  (** [s.upper()] *)
  py_upper : string -> string;
  (** [s.strip()] *)
  py_strip : string -> string;
  (** [s.capitalize()] *)
  py_capitalize : string -> string;
  (** the code points of [s] *)
  py_chars : string -> list N;
  (** [c.isalpha()] *)
  char_isalpha : N -> bool;
  (** [c.isdecimal() or c.isdigit() or c.isnumeric()] *)
  char_isnumber : N -> bool
}.

(** The newline character of the source's string literals. *)
Definition nl : string := String "010"%char EmptyString.

(** [str(n)] for an [int]. *)
Definition str_of_int (n : Z) : string := pretty n.

(** Truth value of a [str]: the empty string is false. *)
Definition str_truthy (s : string) : bool := negb (String.eqb s EmptyString).

(** Truth value of [os.getenv(..)] and of an optional [str]. *)
Definition opt_truthy (o : option string) : bool :=
  match o with
  | Some s => str_truthy s
  | None => false
  end.

(** [a or b] on strings. *)
Definition str_or (a b : string) : string := if str_truthy a then a else b.

(** [s.startswith(p)] *)
Definition startswith (p s : string) : bool := String.prefix p s.

(** [s.split(sep)] for a one-character separator. *)
Fixpoint split_on (sep : ascii) (s : string) : list string :=
  match s with
  | EmptyString => [EmptyString]
  | String c rest =>
      if Ascii.eqb c sep then EmptyString :: split_on sep rest
      else match split_on sep rest with
           | [] => [String c EmptyString]
           | w :: ws => String c w :: ws
           end
  end.

(** [sep.join(l)] *)
Definition join (sep : string) (l : list string) : string := String.concat sep l.

(** [s * n] *)
Fixpoint str_repeat (s : string) (n : nat) : string :=
  match n with
  | O => EmptyString
  | S k => s +:+ str_repeat s k
  end.

(** An index of a slice brought into [0 .. len], as [l[i:j]] does. *)
Definition slice_index (len i : Z) : Z :=
  if i <? 0 then Z.max (i + len) 0 else Z.min i len.

(** [l[start:stop]] *)
Definition py_slice {A} (l : list A) (start stop : Z) : list A :=
  let len := Z.of_nat (length l) in
  let a := slice_index len start in
  let b := slice_index len stop in
  firstn (Z.to_nat (b - a)) (skipn (Z.to_nat a) l).

Section Text.
Context `{PyStr}.

(** [s.isalpha()]: at least one character, and all of them letters. *)
Definition isalpha (s : string) : bool :=
  match py_chars s with
  | [] => false
  | cs => forallb char_isalpha cs
  end.

(** [s.isalnum()]: at least one character, and each of them a letter or a
    number. *)
Definition isalnum (s : string) : bool :=
  match py_chars s with
  | [] => false
  | cs => forallb (fun c => char_isalpha c || char_isnumber c) cs
  end.

End Text.

(** ** Languages and currencies *)

Inductive lang := En | Fa.

(** [CURRENCY_SYMBOLS], as the list of its items. *)
Definition CURRENCY_SYMBOLS : list (string * string) :=
  [("USD", "$"); ("EUR", "€"); ("IRR", "IRR"); ("IRT", "تومان")].

(** [d.get(k, default)] on a dictionary written as its items. *)
Fixpoint dict_get (d : list (string * string)) (k default : string) : string :=
  match d with
  | [] => default
  | (k', v) :: rest => if String.eqb k k' then v else dict_get rest k default
  end.

(** [k in d] *)
Definition dict_mem (d : list (string * string)) (k : string) : bool :=
  existsb (fun kv => String.eqb k (fst kv)) d.

(** [CURRENCY_SYMBOLS.get(currency, '$')] *)
Definition currency_symbol (currency : string) : string :=
  dict_get CURRENCY_SYMBOLS currency "$".

(** [LANGUAGES[lang][key].format(..)], one function per key. *)
Definition msg_welcome (l : lang) (user : string) : string :=
  match l with
  | En => "Hello " +:+ user +:+ "! 👋" +:+ nl +:+ "I’m your WooCommerce store assistant." +:+ nl +:+ "Use /settings to configure notifications or /help for commands."
  | Fa => "سلام " +:+ user +:+ "! 👋" +:+ nl +:+ "من دستیار فروشگاه ووکامرس شما هستم." +:+ nl +:+ "از /settings برای تنظیم اعلان‌ها یا /help برای دستورات استفاده کنید."
  end.

Definition msg_settings (l : lang) (low_stock_status new_orders_status watched_product threshold lang_display currency : string) : string :=
  match l with
  | En => "⚙️ **Notification Settings**" +:+ nl +:+ nl +:+ "Low Stock Alerts: " +:+ low_stock_status +:+ nl +:+ "New Order Alerts: " +:+ new_orders_status +:+ nl +:+ "Watched Product: " +:+ watched_product +:+ nl +:+ "Low Stock Threshold: " +:+ threshold +:+ " units" +:+ nl +:+ "Language: " +:+ lang_display +:+ nl +:+ "Currency: " +:+ currency
  | Fa => "⚙️ **تنظیمات اعلان‌ها**" +:+ nl +:+ nl +:+ "اعلان‌های کمبود موجودی: " +:+ low_stock_status +:+ nl +:+ "اعلان‌های سفارش جدید: " +:+ new_orders_status +:+ nl +:+ "محصول تحت نظر: " +:+ watched_product +:+ nl +:+ "حد آستانه کمبود موجودی: " +:+ threshold +:+ " واحد" +:+ nl +:+ "زبان: " +:+ lang_display +:+ nl +:+ "ارز: " +:+ currency
  end.

Definition msg_toggle_low_stock (l : lang) (status : string) : string :=
  match l with
  | En => "Low stock notifications set to: " +:+ status
  | Fa => "اعلان‌های کمبود موجودی تنظیم شد به: " +:+ status
  end.

Definition msg_toggle_new_orders (l : lang) (status : string) : string :=
  match l with
  | En => "New order notifications set to: " +:+ status
  | Fa => "اعلان‌های سفارش جدید تنظیم شد به: " +:+ status
  end.

Definition msg_threshold_prompt (l : lang) : string :=
  match l with
  | En => "Please send the new low stock threshold (e.g., 10):"
  | Fa => "لطفاً آستانه جدید کمبود موجودی را ارسال کنید (مثلاً 10):"
  end.

Definition msg_threshold_set (l : lang) (threshold : string) : string :=
  match l with
  | En => "✅ Low stock threshold set to " +:+ threshold +:+ " units."
  | Fa => "✅ آستانه کمبود موجودی تنظیم شد به " +:+ threshold +:+ " واحد."
  end.

Definition msg_threshold_error (l : lang) : string :=
  match l with
  | En => "⚠️ Please enter a valid number (e.g., 10)."
  | Fa => "⚠️ لطفاً یک عدد معتبر وارد کنید (مثلاً 10)."
  end.

Definition msg_watch_prompt (l : lang) : string :=
  match l with
  | En => "Please send the product ID to watch (e.g., 15):"
  | Fa => "لطفاً شناسه محصول را برای نظارت ارسال کنید (مثلاً 15):"
  end.

Definition msg_watch_set (l : lang) (product_id threshold : string) : string :=
  match l with
  | En => "✅ Watching product ID " +:+ product_id +:+ " for stock ≤ " +:+ threshold +:+ "."
  | Fa => "✅ نظارت بر محصول با شناسه " +:+ product_id +:+ " برای موجودی ≤ " +:+ threshold +:+ "."
  end.

Definition msg_watch_error (l : lang) : string :=
  match l with
  | En => "⚠️ Please enter a valid product ID."
  | Fa => "⚠️ لطفاً یک شناسه محصول معتبر وارد کنید."
  end.

Definition msg_lang_set (l : lang) (lang_display : string) : string :=
  match l with
  | En => "✅ Language set to " +:+ lang_display +:+ "."
  | Fa => "✅ زبان تنظیم شد به " +:+ lang_display +:+ "."
  end.

Definition msg_currency_prompt (l : lang) : string :=
  match l with
  | En => "Please send the new currency (e.g., USD, EUR, IRR, IRT):"
  | Fa => "لطفاً ارز جدید را ارسال کنید (مثلاً USD، EUR، IRR، IRT):"
  end.

Definition msg_currency_set (l : lang) (currency : string) : string :=
  match l with
  | En => "✅ Currency set to " +:+ currency +:+ "."
  | Fa => "✅ ارز تنظیم شد به " +:+ currency +:+ "."
  end.

Definition msg_currency_error (l : lang) : string :=
  match l with
  | En => "⚠️ Invalid currency. Use: USD, EUR, IRR, IRT"
  | Fa => "⚠️ ارز نامعتبر. از این‌ها استفاده کنید: USD، EUR، IRR، IRT"
  end.

Definition msg_not_authorized (l : lang) : string :=
  match l with
  | En => "⚠️ You’re not authorized to use this bot!"
  | Fa => "⚠️ شما مجاز به استفاده از این ربات نیستید!"
  end.

Definition msg_api_error (l : lang) (error : string) : string :=
  match l with
  | En => "⚠️ Repeated API failures detected: " +:+ error
  | Fa => "⚠️ خطاهای مکرر API شناسایی شد: " +:+ error
  end.

Definition msg_search_no_query (l : lang) : string :=
  match l with
  | En => "⚠️ Please provide a search term. Usage: /search <name or SKU>"
  | Fa => "⚠️ لطفاً یک عبارت جستجو وارد کنید. استفاده: /search <نام یا SKU>"
  end.

Definition msg_search_no_results (l : lang) : string :=
  match l with
  | En => "No products found matching your search."
  | Fa => "هیچ محصولی با جستجوی شما یافت نشد."
  end.

Definition msg_products_no_results (l : lang) : string :=
  match l with
  | En => "No products found."
  | Fa => "هیچ محصولی یافت نشد."
  end.

(** ** Records of the store *)

(** An entry of a product's [attributes]. *)
Record attribute := {
  attr_name : option string;
  attr_options : option (list string)
}.

(** A product as the store returns it.  [p_stock_quantity] tells a missing
    key ([None]) from a null value ([Some None]) and a number.  [p_rest]
    stands for the keys the bot never reads (each with its value in a
    canonical text), so that two records are equal, as Python compares
    dictionaries, when they agree on every key. *)
Record product := {
  p_id : Z;
  p_name : option string;
  p_sku : option string;
  p_price : option string;
  p_stock_quantity : option (option Z);
  p_type : option string;
  p_attributes : option (list attribute);
  p_rest : list (string * string)
}.

Record variation := { v_id : Z }.

Record billing := {
  first_name : option string;
  last_name : option string
}.

Record order := {
  o_id : Z;
  o_billing : option billing;
  o_total : option string;
  o_status : option string
}.

Global Instance attribute_eq_dec : EqDecision attribute.
Proof. solve_decision. Defined.

Global Instance product_eq_dec : EqDecision product.
Proof. solve_decision. Defined.

(** ** State of the bot *)

(** [context.bot_data]: each key may be missing, and is then read with the
    default of the reading site. *)
Record BotData := {
  is_running : option bool;
  notify_low_stock : option bool;
  notify_new_orders : option bool;
  low_stock_threshold : option Z;
  watched_product_id : option string;
  language : option lang;
  currency : option string
}.

Definition no_settings : BotData :=
  {| is_running := None; notify_low_stock := None; notify_new_orders := None;
     low_stock_threshold := None; watched_product_id := None;
     language := None; currency := None |}.

Definition with_notify_low_stock (b : bool) (s : BotData) : BotData :=
  {| is_running := is_running s; notify_low_stock := Some b;
     notify_new_orders := notify_new_orders s;
     low_stock_threshold := low_stock_threshold s;
     watched_product_id := watched_product_id s;
     language := language s; currency := currency s |}.

Definition with_notify_new_orders (b : bool) (s : BotData) : BotData :=
  {| is_running := is_running s; notify_low_stock := notify_low_stock s;
     notify_new_orders := Some b;
     low_stock_threshold := low_stock_threshold s;
     watched_product_id := watched_product_id s;
     language := language s; currency := currency s |}.

Definition with_low_stock_threshold (t : Z) (s : BotData) : BotData :=
  {| is_running := is_running s; notify_low_stock := notify_low_stock s;
     notify_new_orders := notify_new_orders s;
     low_stock_threshold := Some t;
     watched_product_id := watched_product_id s;
     language := language s; currency := currency s |}.

Definition with_watched_product_id (p : string) (s : BotData) : BotData :=
  {| is_running := is_running s; notify_low_stock := notify_low_stock s;
     notify_new_orders := notify_new_orders s;
     low_stock_threshold := low_stock_threshold s;
     watched_product_id := Some p;
     language := language s; currency := currency s |}.

Definition with_language (l : lang) (s : BotData) : BotData :=
  {| is_running := is_running s; notify_low_stock := notify_low_stock s;
     notify_new_orders := notify_new_orders s;
     low_stock_threshold := low_stock_threshold s;
     watched_product_id := watched_product_id s;
     language := Some l; currency := currency s |}.

Definition with_currency (c : string) (s : BotData) : BotData :=
  {| is_running := is_running s; notify_low_stock := notify_low_stock s;
     notify_new_orders := notify_new_orders s;
     low_stock_threshold := low_stock_threshold s;
     watched_product_id := watched_product_id s;
     language := language s; currency := Some c |}.

(** The readings [context.bot_data.get(key, default)] of the source. *)
Definition get_language (s : BotData) : lang := default En (language s).
Definition get_currency (s : BotData) : string := default "USD" (currency s).
Definition get_threshold (s : BotData) : Z := default 5 (low_stock_threshold s).

(** [context.user_data] of one user: the three keys the source reads with
    [.get(key, False)]. *)
Record flags := {
  awaiting_threshold : bool;
  awaiting_watch_product : bool;
  awaiting_currency : bool
}.

Definition no_flags : flags :=
  {| awaiting_threshold := false; awaiting_watch_product := false;
     awaiting_currency := false |}.

Definition with_awaiting_threshold (b : bool) (f : flags) : flags :=
  {| awaiting_threshold := b;
     awaiting_watch_product := awaiting_watch_product f;
     awaiting_currency := awaiting_currency f |}.

Definition with_awaiting_watch_product (b : bool) (f : flags) : flags :=
  {| awaiting_threshold := awaiting_threshold f;
     awaiting_watch_product := b;
     awaiting_currency := awaiting_currency f |}.

Definition with_awaiting_currency (b : bool) (f : flags) : flags :=
  {| awaiting_threshold := awaiting_threshold f;
     awaiting_watch_product := awaiting_watch_product f;
     awaiting_currency := b |}.

(** What [save_settings] writes to settings.json. *)
Record settings_json := {
  js_is_running : bool;
  js_notify_low_stock : bool;
  js_notify_new_orders : bool;
  js_low_stock_threshold : Z;
  js_watched_product_id : option string;
  js_language : lang;
  js_currency : string
}.

(** A remote call to the store. *)
Inductive verb := GET | PUT.

Inductive param := PInt (n : Z) | PStr (s : string) | PBool (b : bool).

Record request := {
  req_verb : verb;
  req_endpoint : string;
  req_params : list (string * param)
}.

(** [InlineKeyboardButton(text, callback_data=..)] *)
Record InlineKeyboardButton := {
  btn_text : string;
  btn_callback_data : string
}.

(** A call to the chat: [context.bot.send_message], [message.reply_text],
    [query.edit_message_text] and [query.answer].  [markdown] records
    [parse_mode='Markdown']. *)
Inductive chat_call :=
| SendMessage (chat_id text : string) (markdown : bool)
| ReplyText (text : string) (markdown : bool)
    (reply_markup : option (list (list InlineKeyboardButton)))
| EditMessageText (text : string) (markdown : bool)
    (reply_markup : option (list (list InlineKeyboardButton)))
| AnswerCallback.

(** The text a chat call shows, if any. *)
Definition shown_text (c : chat_call) : option string :=
  match c with
  | SendMessage _ t _ => Some t
  | ReplyText t _ _ => Some t
  | EditMessageText t _ _ => Some t
  | AnswerCallback => None
  end.

Record world := {
  bot_data : BotData;
  user_data : gmap Z flags;
  http_log : list request;
  chat_log : list chat_call;
  settings_file : list settings_json
}.

(** The writes to a state. *)
Definition put_bot_data (s : BotData) (w : world) : world :=
  {| bot_data := s; user_data := user_data w; http_log := http_log w;
     chat_log := chat_log w; settings_file := settings_file w |}.

Definition put_user_data (uid : Z) (f : flags) (w : world) : world :=
  {| bot_data := bot_data w; user_data := <[uid := f]> (user_data w);
     http_log := http_log w; chat_log := chat_log w;
     settings_file := settings_file w |}.

Definition log_http (r : request) (w : world) : world :=
  {| bot_data := bot_data w; user_data := user_data w;
     http_log := http_log w ++ [r]; chat_log := chat_log w;
     settings_file := settings_file w |}.

Definition log_chat (c : chat_call) (w : world) : world :=
  {| bot_data := bot_data w; user_data := user_data w;
     http_log := http_log w; chat_log := chat_log w ++ [c];
     settings_file := settings_file w |}.

Definition write_settings_file (j : settings_json) (w : world) : world :=
  {| bot_data := bot_data w; user_data := user_data w;
     http_log := http_log w; chat_log := chat_log w;
     settings_file := settings_file w ++ [j] |}.

(** What the outside answers.  The store's answer to the [n]-th remote call
    of a run is [None] when the call fails in any way the gateway catches
    (transport error, error status, unreadable body); [put_response] gives
    the text of the [RequestException] instead. *)
Record environment := {
  getenv : string -> option string;
  products_response : nat -> option (list product);
  variations_response : nat -> option (list variation);
  orders_response : nat -> option (list order);
  put_response : nat -> option string;
  delivered : nat -> bool
}.

(** An update of the chat: a message (a command with its arguments, or
    free text) or a press on an inline button. *)
Inductive update :=
| Message (from_id : Z) (user_first_name text : string) (args : list string)
| CallbackQuery (from_id : Z) (data : string).

(** [update.message.from_user.id if update.message
     else update.callback_query.from_user.id] *)
Definition sender (u : update) : Z :=
  match u with
  | Message id _ _ _ => id
  | CallbackQuery id _ => id
  end.

(** The commands [main] registers. *)
Inductive command :=
| Start | Settings | Stats | Bulkupdate | Help | Products | Search
| Update | Orders | Order | Customers | Customer.

(** ** The monad of effects *)

Inductive exn :=
| ValueError (msg : string)
| TypeError
| ZeroDivisionError
| AttributeError
| TelegramError.

Inductive result (A : Type) :=
| Ok (a : A)
| Raise (e : exn).
Arguments Ok {A} a.
Arguments Raise {A} e.

(** [str(e)]; only a [ValueError] carries a text in the model. *)
Definition exn_text (e : exn) : string :=
  match e with
  | ValueError msg => msg
  | _ => EmptyString
  end.

Definition M (A : Type) : Type := world -> result A * world.

Global Instance M_ret : MRet M := fun A a w => (Ok a, w).

Global Instance M_bind : MBind M := fun A B k m w =>
  match m w with
  | (Ok a, w') => k a w'
  | (Raise e, w') => (Raise e, w')
  end.

Definition raise {A} (e : exn) : M A := fun w => (Raise e, w).

(** [try: body / except ValueError: handler] *)
Definition try_ValueError {A} (body : M A) (handler : M A) : M A := fun w =>
  match body w with
  | (Raise (ValueError _), w') => handler w'
  | r => r
  end.

(** [try: body / except Exception: handler] *)
Definition try_Exception {A} (body : M A) (handler : M A) : M A := fun w =>
  match body w with
  | (Raise _, w') => handler w'
  | r => r
  end.

(** A pure computation that may raise. *)
Definition lift {A} (r : result A) : M A := fun w => (r, w).

Definition get_bot_data : M BotData := fun w => (Ok (bot_data w), w).

Definition set_bot_data (s : BotData) : M unit := fun w =>
  (Ok tt, put_bot_data s w).

(** The sender's [context.user_data]; the framework creates it empty. *)
Definition get_user_data (uid : Z) : M flags := fun w =>
  (Ok (default no_flags (user_data w !! uid)), w).

Definition set_user_data (uid : Z) (f : flags) : M unit := fun w =>
  (Ok tt, put_user_data uid f w).

(** Issue a remote call; the result is its rank among the calls of the
    run, under which the environment holds the store's answer. *)
Definition http (r : request) : M nat := fun w =>
  (Ok (length (http_log w)), log_http r w).

Fixpoint mapM {A B} (f : A -> M B) (l : list A) : M (list B) :=
  match l with
  | [] => mret []
  | x :: xs => y ← f x; ys ← mapM f xs; mret (y :: ys)
  end.

Section Bot.
Context `{PyStr} (env : environment).

(** The handlers that this section does not embed, from the line after
    their authorization check on: the commands stats, bulkupdate, search,
    update, order, customers and customer, and the branches vars_,
    customers_, update_, status_ and order_ of [button].  They stay
    abstract here: what is proved holds whatever they do.  (Some of them
    are embedded further down and plugged in through [command_body] and
    [callback_body].) *)
Context (unmodelled_command : command -> update -> M unit).
Context (unmodelled_callback : string -> M unit).

(** Issue a chat call; it raises when the chat does not take it. *)
Definition chat (c : chat_call) : M unit := fun w =>
  if delivered env (length (chat_log w)) then (Ok tt, log_chat c w)
  else (Raise TelegramError, log_chat c w).

(** ** Store gateway *)

Definition credentials_error : string :=
  "Please set WOOCOMMERCE_API_KEY, WOOCOMMERCE_API_SECRET, and WOOCOMMERCE_STORE_URL in .env".

(** [get_woocommerce_api]: the client is built when the three variables
    are set and not empty. *)
Definition get_woocommerce_api : result unit :=
  if forallb opt_truthy
       [getenv env "WOOCOMMERCE_API_KEY"; getenv env "WOOCOMMERCE_API_SECRET";
        getenv env "WOOCOMMERCE_STORE_URL"]
  then Ok tt
  else Raise (ValueError credentials_error).

Definition fetch_products : M (option (list product)) :=
  match get_woocommerce_api with
  | Ok _ =>
      n ← http {| req_verb := GET; req_endpoint := "products";
                  req_params := [("per_page", PInt 50)] |};
      mret (products_response env n)
  | Raise _ => mret None
  end.

(** The [params] of [search_products]. *)
Definition search_params (query : string) : list (string * param) :=
  if isalnum query && negb (isalpha query)
  then [("per_page", PInt 50); ("sku", PStr query)]
  else [("per_page", PInt 50); ("search", PStr query)].

Definition search_products (query : string) : M (option (list product)) :=
  match get_woocommerce_api with
  | Ok _ =>
      n ← http {| req_verb := GET; req_endpoint := "products";
                  req_params := search_params query |};
      mret (products_response env n)
  | Raise _ => mret None
  end.

(** [product_id] is the text the f-string puts in the endpoint. *)
Definition fetch_variations (product_id : string) : M (option (list variation)) :=
  match get_woocommerce_api with
  | Ok _ =>
      n ← http {| req_verb := GET;
                  req_endpoint := "products/" +:+ product_id +:+ "/variations";
                  req_params := [("per_page", PInt 50)] |};
      mret (variations_response env n)
  | Raise _ => mret None
  end.

(** The [data] of [update_product].  [price] is carried as the text
    [str(price)] gives for it. *)
Definition update_data (price : option string) (stock : option Z)
  : list (string * param) :=
  match price with Some p => [("regular_price", PStr p)] | None => [] end ++
  match stock with
  | Some s => [("stock_quantity", PInt s); ("manage_stock", PBool true)]
  | None => []
  end.

Definition update_endpoint (product_id : string) (variation_id : option string)
  : string :=
  match variation_id with
  | Some v => if str_truthy v then "products/" +:+ product_id +:+ "/variations/" +:+ v
              else "products/" +:+ product_id
  | None => "products/" +:+ product_id
  end.

Definition update_product (product_id : string) (price : option string)
    (stock : option Z) (variation_id : option string) : M (bool * string) :=
  match get_woocommerce_api with
  | Ok _ =>
      let data := update_data price stock in
      match data with
      | [] => mret (false, "No updates provided.")
      | _ =>
          n ← http {| req_verb := PUT;
                      req_endpoint := update_endpoint product_id variation_id;
                      req_params := data |};
          match put_response env n with
          | None => mret (true, "Update successful!")
          | Some e => mret (false, "Update failed: " +:+ e)
          end
      end
  | Raise e => mret (false, "Unexpected error: " +:+ exn_text e)
  end.

Definition fetch_orders (limit : Z) : M (option (list order)) :=
  match get_woocommerce_api with
  | Ok _ =>
      n ← http {| req_verb := GET; req_endpoint := "orders";
                  req_params := [("per_page", PInt limit); ("orderby", PStr "date");
                                 ("order", PStr "desc")] |};
      mret (orders_response env n)
  | Raise _ => mret None
  end.

(** ** Low-stock monitor *)

(** The loop [while products is None and attempts < 3] of
    [check_low_stock]; [remaining] counts [3 - attempts]. *)
Fixpoint retry_fetch (remaining : nat) (products : option (list product))
  : M (option (list product)) :=
  match products, remaining with
  | None, S k => p ← fetch_products; retry_fetch k p
  | _, _ => mret products
  end.

(** [p.get('stock_quantity') is not None and
     p.get('stock_quantity') <= low_stock_threshold] *)
Definition stock_known_le (threshold : Z) (p : product) : bool :=
  match p_stock_quantity p with
  | Some (Some q) => q <=? threshold
  | _ => false
  end.

(** The list comprehension that starts [low_stock_products]. *)
Definition low_stock_products (threshold : Z) (products : list product)
  : list product :=
  List.filter (stock_known_le threshold) products.

(** [next((p for p in products
           if str(p['id']) == str(watched_product_id)), None)] *)
Definition find_watched (watched_product_id : string) (products : list product)
  : option product :=
  List.find (fun p => String.eqb (str_of_int (p_id p)) watched_product_id) products.

(** [watched_product.get('stock_quantity', float('inf'))
     <= low_stock_threshold]: infinity is above every threshold, and
    comparing [None] with a number raises. *)
Definition watched_stock_le (threshold : Z) (p : product) : result bool :=
  match p_stock_quantity p with
  | None => Ok false
  | Some None => Raise TypeError
  | Some (Some q) => Ok (q <=? threshold)
  end.

(** The block under [if watched_product_id:], from the list [low] the
    comprehension gave. *)
Definition add_watched (threshold : Z) (watched_product_id : option string)
    (products low : list product) : result (list product) :=
  match watched_product_id with
  | Some wid =>
      if str_truthy wid then
        match find_watched wid products with
        | Some watched_product =>
            match watched_stock_le threshold watched_product with
            | Ok true =>
                Ok (if bool_decide (watched_product ∈ low) then low
                    else low ++ [watched_product])
            | Ok false => Ok low
            | Raise e => Raise e
            end
        | None => Ok low
        end
      else Ok low
  | None => Ok low
  end.

(** The low-stock list of a cycle: the comprehension, then the watched
    product. *)
Definition low_stock_of_cycle (threshold : Z) (watched_product_id : option string)
    (products : list product) : result (list product) :=
  add_watched threshold watched_product_id products
    (low_stock_products threshold products).

(** [product.get('stock_quantity', 0)] as the f-string prints it. *)
Definition alert_stock_text (p : product) : string :=
  match p_stock_quantity p with
  | None => "0"
  | Some None => "None"
  | Some (Some q) => str_of_int q
  end.

(** One product of the alert. *)
Definition alert_item (symbol : string) (p : product) : string :=
  "ID: " +:+ str_of_int (p_id p) +:+ " | " +:+ default "Unnamed Product" (p_name p)
  +:+ nl +:+ "Price: " +:+ symbol +:+ default "N/A" (p_price p)
  +:+ " | Stock: " +:+ alert_stock_text p +:+ nl +:+ nl.

Definition alert_message (symbol : string) (low : list product) : string :=
  "⚠️ **Low Stock Alert**" +:+ nl +:+ nl +:+ String.concat EmptyString (map (alert_item symbol) low).

Definition check_low_stock : M unit :=
  bd ← get_bot_data;
  if negb (default false (is_running bd)) || negb (default true (notify_low_stock bd))
  then mret tt
  else
    match getenv env "TELEGRAM_CHAT_ID" with
    | None => mret tt
    | Some chat_id =>
        if negb (str_truthy chat_id) then mret tt
        else
          let lang := get_language bd in
          let symbol := currency_symbol (get_currency bd) in
          first ← fetch_products;
          products ← retry_fetch 3 first;
          match products with
          | None =>
              chat (SendMessage chat_id
                      (msg_api_error lang "Failed to fetch products after 3 attempts")
                      false)
          | Some products =>
              low ← lift (low_stock_of_cycle (get_threshold bd)
                            (watched_product_id bd) products);
              match low with
              | [] => mret tt
              | _ =>
                  try_Exception
                    (chat (SendMessage chat_id (alert_message symbol low) true))
                    (mret tt)
              end
          end
    end.

(** ** Presentation formatter *)

Definition attribute_text (a : attribute) : string :=
  default "Attr" (attr_name a) +:+ ": " +:+ join ", " (default [] (attr_options a)).

Definition attributes_text (attributes : option (list attribute)) : string :=
  str_or (join " / " (map attribute_text (default [] attributes))) "N/A".

(** [d.get('stock_quantity', 'N/A') if d.get('stock_quantity') is not None
     else 'N/A'] *)
Definition stock_text (stock_quantity : option (option Z)) : string :=
  match stock_quantity with
  | Some (Some q) => str_of_int q
  | _ => "N/A"
  end.

(** What one turn of the loop of [format_products] appends to the message;
    a variable product costs a remote call. *)
Definition product_entry (symbol : string) (p : product) : M string :=
  let product_type := default "Simple" (p_type p) in
  let text :=
    "**ID: " +:+ str_of_int (p_id p) +:+ " | " +:+ default "Unnamed Product" (p_name p)
    +:+ "**" +:+ nl
    +:+ "Type: " +:+ product_type +:+ nl
    +:+ "SKU: " +:+ default "N/A" (p_sku p) +:+ nl
    +:+ "Price: " +:+ symbol +:+ default "N/A" (p_price p) +:+ nl
    +:+ "Stock: " +:+ stock_text (p_stock_quantity p) +:+ nl
    +:+ "Attributes: " +:+ attributes_text (p_attributes p) +:+ nl in
  variations_text ←
    (if String.eqb product_type "variable" then
       variations ← fetch_variations (str_of_int (p_id p));
       match variations with
       | Some (v :: vs) =>
           mret ("Variations: "
                 +:+ join ", " (map (fun v => str_of_int (v_id v)) (v :: vs)) +:+ nl
                 +:+ "[Click to view variation details]" +:+ nl)
       | _ => mret ("Variations: None" +:+ nl)
       end
     else mret EmptyString);
  mret (text +:+ variations_text +:+ str_repeat "─" 20 +:+ nl +:+ nl).

(** The footer [f"Page {page + 1} of {total_pages}"]. *)
Definition page_footer (page total_pages : Z) : string :=
  "Page " +:+ str_of_int (page + 1) +:+ " of " +:+ str_of_int total_pages.

(** [(n + per_page - 1) // per_page] *)
Definition total_pages_of (n per_page : Z) : Z := (n + per_page - 1) `div` per_page.

(** [InlineKeyboardMarkup(keyboard) if keyboard else None] *)
Definition markup_of {A} (keyboard : list A) (rows : list (list InlineKeyboardButton))
  : option (list (list InlineKeyboardButton)) :=
  match keyboard with
  | [] => None
  | _ => Some rows
  end.

(** The [Previous] and [Next] buttons of a page. *)
Definition pagination_row (prefix : string) (page end_idx len : Z)
  : list InlineKeyboardButton :=
  (if 0 <? page
   then [{| btn_text := "⏮ Previous";
            btn_callback_data := prefix +:+ str_of_int (page - 1) |}]
   else []) ++
  (if end_idx <? len
   then [{| btn_text := "Next ⏭";
            btn_callback_data := prefix +:+ str_of_int (page + 1) |}]
   else []).

Definition variation_rows (subset : list product) : list (list InlineKeyboardButton) :=
  map (fun p => [{| btn_text := "Variations for " +:+ str_of_int (p_id p);
                    btn_callback_data := "vars_" +:+ str_of_int (p_id p) |}])
      (List.filter (fun p => bool_decide (p_type p = Some "variable")) subset).

Definition format_products (products : list product) (page per_page : Z)
    (currency : string) : M (string * option (list (list InlineKeyboardButton))) :=
  match products with
  | [] => mret (msg_products_no_results En, None)
  | _ =>
      let symbol := currency_symbol currency in
      let len := Z.of_nat (length products) in
      let start_idx := page * per_page in
      let end_idx := start_idx + per_page in
      if per_page =? 0 then raise ZeroDivisionError
      else
        let total_pages := total_pages_of len per_page in
        if start_idx >=? len then mret ("No more products to show.", None)
        else
          let product_subset := py_slice products start_idx end_idx in
          entries ← mapM (product_entry symbol) product_subset;
          let message :=
            "🛍️ **Product List**" +:+ nl +:+ nl
            +:+ String.concat EmptyString entries
            +:+ page_footer page total_pages in
          let row := pagination_row "products_" page end_idx len in
          let keyboard :=
            variation_rows product_subset
            ++ match row with [] => [] | _ => [row] end in
          mret (message, markup_of keyboard keyboard)
  end.

(** What one turn of the loop of [format_orders] appends to the message. *)
Definition order_entry (symbol : string) (o : order) : string :=
  let b := default {| first_name := None; last_name := None |} (o_billing o) in
  let customer :=
    str_or (py_strip (default EmptyString (first_name b) +:+ " "
                      +:+ default EmptyString (last_name b)))
           "Unknown" in
  "ID: " +:+ str_of_int (o_id o) +:+ " | Customer: " +:+ customer +:+ nl
  +:+ "Total: " +:+ symbol +:+ default "N/A" (o_total o)
  +:+ " | Status: " +:+ py_capitalize (default "N/A" (o_status o)) +:+ nl +:+ nl.

Definition format_orders (orders : list order) (page per_page : Z)
    (currency : string) : result (string * option (list (list InlineKeyboardButton))) :=
  match orders with
  | [] => Ok ("No recent orders found.", None)
  | _ =>
      let symbol := currency_symbol currency in
      let len := Z.of_nat (length orders) in
      let start_idx := page * per_page in
      let end_idx := start_idx + per_page in
      if per_page =? 0 then Raise ZeroDivisionError
      else
        let total_pages := total_pages_of len per_page in
        if start_idx >=? len then Ok ("No more orders to show.", None)
        else
          let order_subset := py_slice orders start_idx end_idx in
          let message :=
            "📦 **Recent Orders**" +:+ nl +:+ nl
            +:+ String.concat EmptyString (map (order_entry symbol) order_subset)
            +:+ page_footer page total_pages in
          let keyboard := pagination_row "orders_" page end_idx len in
          Ok (message, markup_of keyboard [keyboard])
  end.

(** ** Settings file *)

(** [save_settings]: the dictionary it dumps, defaults filled in. *)
Definition settings_dump (s : BotData) : settings_json :=
  {| js_is_running := default false (is_running s);
     js_notify_low_stock := default true (notify_low_stock s);
     js_notify_new_orders := default true (notify_new_orders s);
     js_low_stock_threshold := default 5 (low_stock_threshold s);
     js_watched_product_id := watched_product_id s;
     js_language := default En (language s);
     js_currency := default "USD" (currency s) |}.

Definition save_settings : M unit := fun w =>
  (Ok tt, write_settings_file (settings_dump (bot_data w)) w).

(** ** Authorization *)

(** The text of the [ValueError] that [int()] raises; no handler reads it. *)
Definition int_error : string := "invalid literal for int()".

(** [int(s)] as a step of a handler. *)
Definition int_of (s : string) : M Z :=
  match py_int s with
  | Some n => mret n
  | None => raise (ValueError int_error)
  end.

(** [[int(id.strip()) for id in parts if id.strip()]] *)
Fixpoint parse_ids (parts : list string) : result (list Z) :=
  match parts with
  | [] => Ok []
  | id :: rest =>
      if str_truthy (py_strip id) then
        match py_int (py_strip id) with
        | Some n =>
            match parse_ids rest with
            | Ok ns => Ok (n :: ns)
            | Raise e => Raise e
            end
        | None => Raise (ValueError int_error)
        end
      else parse_ids rest
  end.

(** The allow-list read from [ADMIN_IDS]. *)
Definition admin_ids : result (list Z) :=
  parse_ids (split_on "," (default EmptyString (getenv env "ADMIN_IDS"))).

Definition check_admin (u : update) : M bool :=
  ids ← lift admin_ids;
  bd ← get_bot_data;
  let lang := get_language bd in
  if match ids with [] => true | _ => false end
     || negb (bool_decide (sender u ∈ ids))
  then
    match u with
    | Message _ _ _ _ => chat (ReplyText (msg_not_authorized lang) false None)
    | CallbackQuery _ _ => chat (EditMessageText (msg_not_authorized lang) false None)
    end;;
    mret false
  else mret true.

(** ** Command handlers *)

Definition start (u : update) : M unit :=
  ok ← check_admin u;
  if negb ok then mret tt
  else
    match u with
    | Message _ user _ _ =>
        bd ← get_bot_data;
        chat (ReplyText (msg_welcome (get_language bd) user) false None)
    | CallbackQuery _ _ => raise AttributeError
    end.

Definition enabled_text (b : bool) : string := if b then "Enabled" else "Disabled".

Definition settings_keyboard (l : lang) : list (list InlineKeyboardButton) :=
  [[{| btn_text := "Toggle Low Stock"; btn_callback_data := "toggle_low_stock" |};
    {| btn_text := "Toggle New Orders"; btn_callback_data := "toggle_new_orders" |}];
   [{| btn_text := "Set Threshold"; btn_callback_data := "set_threshold" |};
    {| btn_text := "Watch Product"; btn_callback_data := "watch_product" |}];
   [{| btn_text := "Set Currency"; btn_callback_data := "set_currency" |};
    {| btn_text := match l with Fa => "Language: English" | En => "زبان: فارسی" end;
       btn_callback_data := "toggle_lang" |}]].

Definition settings (u : update) : M unit :=
  ok ← check_admin u;
  if negb ok then mret tt
  else
    bd ← get_bot_data;
    let lang := get_language bd in
    let message :=
      msg_settings lang
        (enabled_text (default true (notify_low_stock bd)))
        (enabled_text (default true (notify_new_orders bd)))
        (default "None" (watched_product_id bd))
        (str_of_int (get_threshold bd))
        (match lang with En => "English" | Fa => "Farsi" end)
        (get_currency bd) in
    chat (ReplyText message true (Some (settings_keyboard lang))).

Definition help_text : string :=
  "Available commands:" +:+ nl
  +:+ "/start - Welcome message" +:+ nl
  +:+ "/settings - Configure notifications and currency" +:+ nl
  +:+ "/help - Show this message" +:+ nl
  +:+ "/products - List all products with details" +:+ nl
  +:+ "/search <query> - Search products by name or SKU" +:+ nl
  +:+ "/update <product_id> <price> <stock> - Update product price and stock" +:+ nl
  +:+ "/orders - View recent orders" +:+ nl
  +:+ "/order <order_id> - View order details" +:+ nl
  +:+ "/customers - List all customers" +:+ nl
  +:+ "/customer <customer_id> - View customer details and order history" +:+ nl
  +:+ "/stats - Show store statistics" +:+ nl
  +:+ "/bulkupdate <type> <new_value> <id1> <id2> ... - Bulk update orders or products (type: order_status, product_price, product_stock)".

Definition help_command (u : update) : M unit :=
  ok ← check_admin u;
  if negb ok then mret tt
  else chat (ReplyText help_text false None).

Definition products (u : update) : M unit :=
  ok ← check_admin u;
  if negb ok then mret tt
  else
    bd ← get_bot_data;
    products_list ← fetch_products;
    match products_list with
    | None =>
        chat (ReplyText "⚠️ Failed to fetch products. Check your store connection."
                false None)
    | Some [] => chat (ReplyText (msg_products_no_results (get_language bd)) false None)
    | Some ps =>
        r ← format_products ps 0 5 (get_currency bd);
        chat (ReplyText (fst r) true (snd r))
    end.

Definition orders (u : update) : M unit :=
  ok ← check_admin u;
  if negb ok then mret tt
  else
    bd ← get_bot_data;
    orders_list ← fetch_orders 10;
    match orders_list with
    | None =>
        chat (ReplyText "⚠️ Failed to fetch orders. Check your store connection."
                false None)
    | Some os =>
        r ← lift (format_orders os 0 5 (get_currency bd));
        chat (ReplyText (fst r) true (snd r))
    end.

(** The handler [main] registers for a command. *)
Definition command_handler (c : command) (u : update) : M unit :=
  match c with
  | Start => start u
  | Settings => settings u
  | Help => help_command u
  | Products => products u
  | Orders => orders u
  | _ =>
      ok ← check_admin u;
      if negb ok then mret tt else unmodelled_command c u
  end.

(** ** Button presses *)

(** [int(callback_data.split("_")[1])] *)
Definition page_of (callback_data : string) : M Z :=
  int_of (nth 1 (split_on "_" callback_data) EmptyString).

Definition button (u : update) : M unit :=
  match u with
  | Message _ _ _ _ => raise AttributeError
  | CallbackQuery uid callback_data =>
      chat AnswerCallback;;
      ok ← check_admin u;
      if negb ok then mret tt
      else
        bd ← get_bot_data;
        let lang := get_language bd in
        let currency := get_currency bd in
        if String.eqb callback_data "toggle_low_stock" then
          let v := negb (default true (notify_low_stock bd)) in
          set_bot_data (with_notify_low_stock v bd);;
          chat (EditMessageText (msg_toggle_low_stock lang (enabled_text v)) false None);;
          save_settings
        else if String.eqb callback_data "toggle_new_orders" then
          let v := negb (default true (notify_new_orders bd)) in
          set_bot_data (with_notify_new_orders v bd);;
          chat (EditMessageText (msg_toggle_new_orders lang (enabled_text v)) false None);;
          save_settings
        else if String.eqb callback_data "set_threshold" then
          chat (EditMessageText (msg_threshold_prompt lang) false None);;
          f ← get_user_data uid;
          set_user_data uid (with_awaiting_threshold true f)
        else if String.eqb callback_data "watch_product" then
          chat (EditMessageText (msg_watch_prompt lang) false None);;
          f ← get_user_data uid;
          set_user_data uid (with_awaiting_watch_product true f)
        else if String.eqb callback_data "set_currency" then
          chat (EditMessageText (msg_currency_prompt lang) false None);;
          f ← get_user_data uid;
          set_user_data uid (with_awaiting_currency true f)
        else if String.eqb callback_data "toggle_lang" then
          let new_lang := match lang with En => Fa | Fa => En end in
          set_bot_data (with_language new_lang bd);;
          chat (EditMessageText
                  (msg_lang_set new_lang
                     (match new_lang with Fa => "Farsi" | En => "English" end))
                  false None);;
          save_settings
        else if startswith "products_" callback_data then
          page ← page_of callback_data;
          products_list ← fetch_products;
          match products_list with
          | None => chat (EditMessageText "⚠️ Failed to fetch products." false None)
          | Some ps =>
              r ← format_products ps page 5 currency;
              chat (EditMessageText (fst r) true (snd r))
          end
        else if startswith "vars_" callback_data then
          unmodelled_callback callback_data
        else if startswith "orders_" callback_data then
          page ← page_of callback_data;
          orders_list ← fetch_orders 10;
          match orders_list with
          | None => chat (EditMessageText "⚠️ Failed to fetch orders." false None)
          | Some os =>
              r ← lift (format_orders os page 5 currency);
              chat (EditMessageText (fst r) true (snd r))
          end
        else if startswith "customers_" callback_data
                || startswith "update_" callback_data
                || startswith "status_" callback_data
                || startswith "order_" callback_data then
          unmodelled_callback callback_data
        else mret tt
  end.

(** ** Free text *)

(** [products and any(p['id'] == product_id for p in products)] *)
Definition has_product (products : option (list product)) (product_id : Z) : bool :=
  match products with
  | Some ps => existsb (fun p => p_id p =? product_id) ps
  | None => false
  end.

Definition handle_text (u : update) : M unit :=
  ok ← check_admin u;
  if negb ok then mret tt
  else
    match u with
    | CallbackQuery _ _ => raise AttributeError
    | Message uid _ text _ =>
        bd ← get_bot_data;
        let lang := get_language bd in
        f ← get_user_data uid;
        if awaiting_threshold f then
          try_ValueError
            (threshold ← int_of text;
             if threshold <? 0
             then raise (ValueError "Threshold must be non-negative.")
             else
               bd ← get_bot_data;
               set_bot_data (with_low_stock_threshold threshold bd);;
               chat (ReplyText (msg_threshold_set lang (str_of_int threshold)) false None);;
               save_settings;;
               f ← get_user_data uid;
               set_user_data uid (with_awaiting_threshold false f))
            (chat (ReplyText (msg_threshold_error lang) false None))
        else if awaiting_watch_product f then
          try_ValueError
            (product_id ← int_of text;
             products ← fetch_products;
             (if has_product products product_id then
                bd ← get_bot_data;
                set_bot_data (with_watched_product_id (str_of_int product_id) bd);;
                chat (ReplyText
                        (msg_watch_set lang (str_of_int product_id)
                           (str_of_int (get_threshold bd)))
                        false None);;
                save_settings
              else raise (ValueError "Product not found."));;
             f ← get_user_data uid;
             set_user_data uid (with_awaiting_watch_product false f))
            (chat (ReplyText (msg_watch_error lang) false None))
        else if awaiting_currency f then
          let currency := py_upper text in
          if dict_mem CURRENCY_SYMBOLS currency then
            bd ← get_bot_data;
            set_bot_data (with_currency currency bd);;
            chat (ReplyText (msg_currency_set lang currency) false None);;
            save_settings;;
            f ← get_user_data uid;
            set_user_data uid (with_awaiting_currency false f)
          else chat (ReplyText (msg_currency_error lang) false None)
        else mret tt
    end.

(** ** Dispatch *)

(** What the application hands to the handlers [main] registers: a command
    to its [CommandHandler], a press on an inline button to [button], any
    other text to [handle_text]. *)
Inductive event :=
| OnCommand (c : command) (from_id : Z) (user_first_name text : string)
    (args : list string)
| OnText (from_id : Z) (user_first_name text : string)
| OnButton (from_id : Z) (data : string).

Definition event_sender (e : event) : Z :=
  match e with
  | OnCommand _ id _ _ _ => id
  | OnText id _ _ => id
  | OnButton id _ => id
  end.

Definition dispatch (e : event) : M unit :=
  match e with
  | OnCommand c id name text args => command_handler c (Message id name text args)
  | OnText id name text => handle_text (Message id name text [])
  | OnButton id data => button (CallbackQuery id data)
  end.

(** The state after a handler has run; when it raises, the application
    logs the exception and keeps what the handler had done. *)
Definition after (e : event) (w : world) : world := snd (dispatch e w).

(** The state after a sequence of events. *)
Fixpoint run_events (es : list event) (w : world) : world :=
  match es with
  | [] => w
  | e :: rest => run_events rest (after e w)
  end.

End Bot.

(** The [user_data] of a user in a state. *)
Definition flags_of (w : world) (uid : Z) : flags :=
  default no_flags (user_data w !! uid).

(** The state of a freshly started bot: [main] sets [is_running]. *)
Definition initial_world : world :=
  {| bot_data :=
       {| is_running := Some true; notify_low_stock := None;
          notify_new_orders := None; low_stock_threshold := None;
          watched_product_id := None; language := None; currency := None |};
     user_data := ∅; http_log := []; chat_log := []; settings_file := [] |}.

(** The bot of the example of the specification: threshold 5. *)
Definition world_threshold_5 : world :=
  put_bot_data (with_low_stock_threshold 5 (bot_data initial_world)) initial_world.

(** A bot that watches product 1. *)
Definition world_watching_1 : world :=
  put_bot_data (with_watched_product_id "1" (bot_data initial_world)) initial_world.

(** ** Notions of the specification *)

(** The input modes of a conversation. *)
Inductive mode := NoMode | AwaitingThreshold | AwaitingWatch | AwaitingCurrency.

(** The mode a free-text reply is served under: [handle_text] asks the
    flags in this order. *)
Definition active_mode (f : flags) : mode :=
  if awaiting_threshold f then AwaitingThreshold
  else if awaiting_watch_product f then AwaitingWatch
  else if awaiting_currency f then AwaitingCurrency
  else NoMode.

(** The callback token of the prompt of a mode. *)
Definition prompt_token (m : mode) : string :=
  match m with
  | AwaitingThreshold => "set_threshold"
  | AwaitingWatch => "watch_product"
  | AwaitingCurrency => "set_currency"
  | NoMode => EmptyString
  end.

Definition set_flag (m : mode) (b : bool) (f : flags) : flags :=
  match m with
  | AwaitingThreshold => with_awaiting_threshold b f
  | AwaitingWatch => with_awaiting_watch_product b f
  | AwaitingCurrency => with_awaiting_currency b f
  | NoMode => f
  end.

(** How many of the three flags are true. *)
Definition flags_set (f : flags) : nat :=
  (if awaiting_threshold f then 1 else 0)
  + (if awaiting_watch_product f then 1 else 0)
  + (if awaiting_currency f then 1 else 0).

(** The remote call of [fetch_products]. *)
Definition products_request : request :=
  {| req_verb := GET; req_endpoint := "products";
     req_params := [("per_page", PInt 50)] |}.

(** A monitor that is switched on, with a chat to write to. *)
Definition monitoring (env : environment) (w : world) (chat_id : string) : Prop :=
  default false (is_running (bot_data w)) = true
  ∧ default true (notify_low_stock (bot_data w)) = true
  ∧ getenv env "TELEGRAM_CHAT_ID" = Some chat_id
  ∧ str_truthy chat_id = true.

(** The store credentials are set: [get_woocommerce_api] builds a client. *)
Definition configured (env : environment) : Prop := get_woocommerce_api env = Ok tt.

(** The denial a sender outside the allow-list is answered with. *)
Definition denial_call (u : update) (l : lang) : chat_call :=
  match u with
  | Message _ _ _ _ => ReplyText (msg_not_authorized l) false None
  | CallbackQuery _ _ => EditMessageText (msg_not_authorized l) false None
  end.

(** At most one of the three flags is true. *)
Definition at_most_one (f : flags) : Prop := (flags_set f <= 1)%nat.

(** [t] is the ceiling of [n / 5]. *)
Definition is_ceil_div5 (n t : Z) : Prop := 5 * (t - 1) < n <= 5 * t.

(** The records of page [p] (from 0), five to a page. *)
Definition page_records {A} (l : list A) (p : Z) : list A :=
  firstn 5 (skipn (Z.to_nat (5 * p)) l).

Section Access.
Context `{PyStr} (env : environment).

(** The sender is in the allow-list read from [ADMIN_IDS]. *)
Definition authorized (uid : Z) : Prop :=
  ∃ ids, admin_ids env = Ok ids ∧ uid ∈ ids.

End Access.

Section Tokens.
Context `{PyStr}.

(** A numeric-looking alphanumeric token: it has a character, all its
    characters are letters or numbers, and one of them is no letter. *)
Definition numeric_looking_token (s : string) : Prop :=
  py_chars s ≠ []
  ∧ (∀ c, c ∈ py_chars s → char_isalpha c = true ∨ char_isnumber c = true)
  ∧ (∃ c, c ∈ py_chars s ∧ char_isalpha c = false).

End Tokens.

(** ** A concrete setting for examples *)

(** The built-ins as they are on plain ASCII text, for the examples:
    decimal numerals with an optional sign and blanks around them for
    [int] (no digit separators), blanks stripped at both ends, letters
    [a-z] and [A-Z], digits [0-9]. *)
Definition ascii_code (c : ascii) : Z := Z.of_nat (nat_of_ascii c).

Definition is_digit (c : ascii) : bool := (48 <=? ascii_code c) && (ascii_code c <=? 57).
Definition is_lower (c : ascii) : bool := (97 <=? ascii_code c) && (ascii_code c <=? 122).
Definition is_upper (c : ascii) : bool := (65 <=? ascii_code c) && (ascii_code c <=? 90).
Definition is_blank (c : ascii) : bool :=
  (ascii_code c =? 32) || ((9 <=? ascii_code c) && (ascii_code c <=? 13)).

Fixpoint digits_value (s : string) (acc : Z) : option Z :=
  match s with
  | EmptyString => Some acc
  | String c rest =>
      if is_digit c then digits_value rest (10 * acc + (ascii_code c - 48)) else None
  end.

Definition to_upper (c : ascii) : ascii :=
  if is_lower c then ascii_of_nat (nat_of_ascii c - 32) else c.

Definition to_lower (c : ascii) : ascii :=
  if is_upper c then ascii_of_nat (nat_of_ascii c + 32) else c.

Fixpoint map_string (f : ascii -> ascii) (s : string) : string :=
  match s with
  | EmptyString => EmptyString
  | String c rest => String (f c) (map_string f rest)
  end.

Fixpoint lstrip (s : string) : string :=
  match s with
  | String c rest => if is_blank c then lstrip rest else s
  | EmptyString => EmptyString
  end.

Definition ascii_strip (s : string) : string :=
  String.rev (lstrip (String.rev (lstrip s))).

Definition ascii_int (s : string) : option Z :=
  match ascii_strip s with
  | EmptyString => None
  | String c rest =>
      if Ascii.eqb c "-" then
        match rest with
        | EmptyString => None
        | _ => Z.opp <$> digits_value rest 0
        end
      else if Ascii.eqb c "+" then
        match rest with
        | EmptyString => None
        | _ => digits_value rest 0
        end
      else digits_value (String c rest) 0
  end.

Definition ascii_capitalize (s : string) : string :=
  match s with
  | EmptyString => EmptyString
  | String c rest => String (to_upper c) (map_string to_lower rest)
  end.

Definition ascii_text : PyStr :=
  {| py_int := ascii_int;
     py_upper := map_string to_upper;
     py_strip := ascii_strip;
     py_capitalize := ascii_capitalize;
     py_chars := fun s => map (fun c => N.of_nat (nat_of_ascii c)) (list_ascii_of_string s);
     char_isalpha := fun n => ((65 <=? Z.of_N n) && (Z.of_N n <=? 90))
                              || ((97 <=? Z.of_N n) && (Z.of_N n <=? 122));
     char_isnumber := fun n => (48 <=? Z.of_N n) && (Z.of_N n <=? 57) |}.

(** Two products of a store: one low on stock, one not. *)
Definition product_1 : product :=
  {| p_id := 1; p_name := Some "Mug"; p_sku := Some "MUG1"; p_price := Some "4.50";
     p_stock_quantity := Some (Some 3); p_type := Some "simple";
     p_attributes := Some []; p_rest := [] |}.

Definition product_2 : product :=
  {| p_id := 2; p_name := Some "Cap"; p_sku := Some "CAP2"; p_price := Some "9.00";
     p_stock_quantity := Some (Some 10); p_type := Some "simple";
     p_attributes := Some []; p_rest := [] |}.

(** A product whose stock the store does not manage: its quantity is null. *)
Definition product_unmanaged : product :=
  {| p_id := 1; p_name := Some "Mug"; p_sku := Some "MUG1"; p_price := Some "4.50";
     p_stock_quantity := Some None; p_type := Some "simple";
     p_attributes := Some []; p_rest := [] |}.

(** A configured deployment: credentials set, admin 1, alerts to chat 77.
    [answers] gives the store's answer to each fetch of the products. *)
Definition sample_getenv (name : string) : option string :=
  if String.eqb name "WOOCOMMERCE_API_KEY" then Some "ck_key"
  else if String.eqb name "WOOCOMMERCE_API_SECRET" then Some "cs_secret"
  else if String.eqb name "WOOCOMMERCE_STORE_URL" then Some "https://shop.example"
  else if String.eqb name "ADMIN_IDS" then Some "1"
  else if String.eqb name "TELEGRAM_CHAT_ID" then Some "77"
  else None.

Definition sample_env (answers : nat -> option (list product)) : environment :=
  {| getenv := sample_getenv;
     products_response := answers;
     variations_response := fun _ => None;
     orders_response := fun _ => None;
     put_response := fun _ => None;
     delivered := fun _ => true |}.

(** A store that answers every fetch with the same products. *)
Definition store_of (ps : list product) : environment := sample_env (fun _ => Some ps).

(** A store whose first three answers fail and whose later ones succeed. *)
Definition store_failing_thrice (ps : list product) : environment :=
  sample_env (fun n => if (n <? 3)%nat then None else Some ps).

(** A store that never answers. *)
Definition store_down : environment := sample_env (fun _ => None).

(** Seven orders, two pages of them. *)
Definition seven_orders : list order :=
  map (fun i => {| o_id := i;
                   o_billing := Some {| first_name := Some "Ann"; last_name := None |};
                   o_total := Some "12.00"; o_status := Some "pending" |})
      [1; 2; 3; 4; 5; 6; 7].

(** Seven products, two pages of them. *)
Definition seven_products : list product :=
  map (fun i => {| p_id := i; p_name := Some "Mug"; p_sku := None;
                   p_price := Some "4.50"; p_stock_quantity := Some (Some i);
                   p_type := Some "simple"; p_attributes := None;
                   p_rest := [] |})
      [1; 2; 3; 4; 5; 6; 7].

(** The bot after administrator 1 was asked for a currency. *)
Definition world_awaiting_currency : world :=
  put_user_data 1 (with_awaiting_currency true no_flags) initial_world.

(** A deployment whose store credentials were never set. *)
Definition unconfigured_env : environment :=
  {| getenv := fun name => if String.eqb name "ADMIN_IDS" then Some "1" else None;
     products_response := fun _ => None;
     variations_response := fun _ => None;
     orders_response := fun _ => None;
     put_response := fun _ => None;
     delivered := fun _ => true |}.

(** The handlers left abstract, as handlers that do nothing. *)
Definition no_command : command -> update -> M unit := fun _ _ => mret tt.
Definition no_callback : string -> M unit := fun _ => mret tt.

(** ** The remaining gateway calls and handlers *)

(** A customer as the store returns it. *)
Record customer := {
  c_id : Z;
  c_first_name : option string;
  c_last_name : option string;
  c_email : option string;
  c_total_spent : option string
}.

(** The conversions of Python that the handlers below use besides those of
    [PyStr]. *)
Class PyConv := {
  (** [s.lower()] *)
  py_lower : string -> string;
  (** [str(float(s))], the text under which a price travels on; [None]
      when [float(s)] raises [ValueError] *)
  py_float : string -> option string
}.

Definition with_is_running (b : bool) (s : BotData) : BotData :=
  {| is_running := Some b; notify_low_stock := notify_low_stock s;
     notify_new_orders := notify_new_orders s;
     low_stock_threshold := low_stock_threshold s;
     watched_product_id := watched_product_id s;
     language := language s; currency := currency s |}.

(** [for x in l: f(x)] *)
Fixpoint for_each {A} (f : A -> M unit) (l : list A) : M unit :=
  match l with
  | [] => mret tt
  | x :: xs => f x;; for_each f xs
  end.

Section Rest.
Context `{PyStr} `{PyConv} (env : environment).

(** The store's answer to a listing of the customers, by the rank of the
    remote call as in [environment]. *)
Context (customers_response : nat -> option (list customer)).

(** *** Store gateway *)

Definition update_order_status (order_id status : string) : M (bool * string) :=
  match get_woocommerce_api env with
  | Ok _ =>
      n ← http {| req_verb := PUT; req_endpoint := "orders/" +:+ order_id;
                  req_params := [("status", PStr (py_lower status))] |};
      match put_response env n with
      | None => mret (true, "Order status updated to " +:+ status +:+ "!")
      | Some e => mret (false, "Update failed: " +:+ e)
      end
  | Raise e => mret (false, "Unexpected error: " +:+ exn_text e)
  end.

Definition fetch_customers : M (option (list customer)) :=
  match get_woocommerce_api env with
  | Ok _ =>
      n ← http {| req_verb := GET; req_endpoint := "customers";
                  req_params := [("per_page", PInt 50)] |};
      mret (customers_response n)
  | Raise _ => mret None
  end.

Definition fetch_customer_orders (customer_id : Z) : M (option (list order)) :=
  match get_woocommerce_api env with
  | Ok _ =>
      n ← http {| req_verb := GET; req_endpoint := "orders";
                  req_params := [("customer", PInt customer_id); ("per_page", PInt 50);
                                 ("orderby", PStr "date"); ("order", PStr "desc")] |};
      mret (orders_response env n)
  | Raise _ => mret None
  end.

(** *** Low-stock monitor *)

Definition notify_api_error (error_message : string) : M unit :=
  match getenv env "TELEGRAM_CHAT_ID" with
  | None => mret tt
  | Some chat_id =>
      if negb (str_truthy chat_id) then mret tt
      else
        bd ← get_bot_data;
        try_Exception
          (chat env (SendMessage chat_id
                       (msg_api_error (get_language bd) error_message) false))
          (mret tt)
  end.

(** *** Presentation formatter *)

(** What one turn of the loop of [format_customers] appends to the
    message, from the number of orders it found for the customer. *)
Definition customer_lines (symbol : string) (c : customer) (order_count : Z)
  : string :=
  let name :=
    str_or (py_strip (default EmptyString (c_first_name c) +:+ " "
                      +:+ default EmptyString (c_last_name c)))
           "Unknown" in
  "ID: " +:+ str_of_int (c_id c) +:+ " | " +:+ name +:+ nl
  +:+ "Email: " +:+ default "N/A" (c_email c)
  +:+ " | Total Spent: " +:+ symbol +:+ default "0.00" (c_total_spent c)
  +:+ " | Orders: " +:+ str_of_int order_count +:+ nl +:+ nl.

(** [len(orders) if orders is not None else 0] *)
Definition order_count_of (orders : option (list order)) : Z :=
  match orders with
  | Some os => Z.of_nat (length os)
  | None => 0
  end.

(** One turn of that loop; every customer costs a remote call. *)
Definition customer_entry (symbol : string) (c : customer) : M string :=
  orders ← fetch_customer_orders (c_id c);
  mret (customer_lines symbol c (order_count_of orders)).

Definition format_customers (customers : list customer) (page per_page : Z)
    (currency : string) : M (string * option (list (list InlineKeyboardButton))) :=
  match customers with
  | [] => mret ("No customers found.", None)
  | _ =>
      let symbol := currency_symbol currency in
      let len := Z.of_nat (length customers) in
      let start_idx := page * per_page in
      let end_idx := start_idx + per_page in
      if per_page =? 0 then raise ZeroDivisionError
      else
        let total_pages := total_pages_of len per_page in
        if start_idx >=? len then mret ("No more customers to show.", None)
        else
          let customer_subset := py_slice customers start_idx end_idx in
          entries ← mapM (customer_entry symbol) customer_subset;
          let message :=
            "👥 **Customer List**" +:+ nl +:+ nl
            +:+ String.concat EmptyString entries
            +:+ page_footer page total_pages in
          let keyboard := pagination_row "customers_" page end_idx len in
          mret (message, markup_of keyboard [keyboard])
  end.

(** *** Settings file *)

(** [load_settings]: the dictionary read from settings.json, [None] for
    the empty dictionary it returns when there is no file.  The file holds
    what [save_settings] wrote last. *)
Definition load_settings : M (option settings_json) := fun w =>
  (Ok (last (settings_file w)), w).

(** [bot_data.update(saved_settings)] *)
Definition bot_data_update (saved_settings : option settings_json) (s : BotData)
  : BotData :=
  match saved_settings with
  | Some j =>
      {| is_running := Some (js_is_running j);
         notify_low_stock := Some (js_notify_low_stock j);
         notify_new_orders := Some (js_notify_new_orders j);
         low_stock_threshold := Some (js_low_stock_threshold j);
         watched_product_id := js_watched_product_id j;
         language := Some (js_language j);
         currency := Some (js_currency j) |}
  | None => s
  end.

(** *** Command handlers *)

Definition valid_statuses : list string :=
  ["pending"; "processing"; "completed"; "cancelled"].

(** The answers of [bulkupdate] to a command it turns down. *)
Definition bulkupdate_usage : string :=
  "⚠️ Usage: /bulkupdate <type> <new_value> <id1> <id2> ... (type: order_status, product_price, product_stock)".

Definition invalid_status : string :=
  "⚠️ Invalid status. Use: pending, processing, completed, cancelled".

Definition invalid_value : string :=
  "⚠️ Invalid value. Use a number for price or stock.".

Definition invalid_type : string :=
  "⚠️ Invalid type. Use: order_status, product_price, product_stock".

(** The text of the [ValueError] that [float()] raises; no handler reads
    it. *)
Definition float_error : string := "could not convert string to float".

(** [float(s)] as a step of a handler, carried as its text. *)
Definition float_of (s : string) : M string :=
  match py_float s with
  | Some t => mret t
  | None => raise (ValueError float_error)
  end.

(** One turn of the loop of [bulkupdate] over the orders. *)
Definition bulk_order (new_value order_id : string) : M unit :=
  r ← update_order_status order_id new_value;
  chat env (ReplyText ("Order " +:+ order_id +:+ ": " +:+ snd r) false None).

(** [parts[1] if len(parts) > 1 else None] *)
Definition second_part (parts : list string) : option string :=
  match parts with
  | _ :: v :: _ => Some v
  | _ => None
  end.

(** One turn of the loop of [bulkupdate] over the products. *)
Definition bulk_product (price : option string) (stock : option Z) (id_str : string)
  : M unit :=
  let parts := split_on "-" id_str in
  let product_id := nth 0 parts EmptyString in
  let variation_id := second_part parts in
  r ← update_product env product_id price stock variation_id;
  let target :=
    if opt_truthy variation_id
    then "Variation " +:+ default EmptyString variation_id
    else "Product " +:+ product_id in
  chat env (ReplyText (target +:+ ": " +:+ snd r) false None).

(** [bulkupdate] from the line after its authorization check on. *)
Definition bulkupdate_body (u : update) : M unit :=
  match u with
  | CallbackQuery _ _ => raise TypeError
  | Message _ _ _ args =>
      match args with
      | update_type :: new_value :: ((_ :: _) as ids) =>
          if String.eqb update_type "order_status" then
            if negb (bool_decide (py_lower new_value ∈ valid_statuses)) then
              chat env (ReplyText invalid_status false None)
            else for_each (bulk_order new_value) ids
          else if String.eqb update_type "product_price"
                  || String.eqb update_type "product_stock" then
            try_ValueError
              (value ←
                 (if String.eqb update_type "product_price"
                  then price ← float_of new_value; mret (Some price, None)
                  else stock ← int_of new_value; mret (None, Some stock));
               for_each (bulk_product (fst value) (snd value)) ids)
              (chat env (ReplyText invalid_value false None))
          else chat env (ReplyText invalid_type false None)
      | _ => chat env (ReplyText bulkupdate_usage false None)
      end
  end.

Definition bulkupdate (u : update) : M unit :=
  ok ← check_admin env u;
  if negb ok then mret tt else bulkupdate_body u.

(** [customers] from the line after its authorization check on. *)
Definition customers_body (u : update) : M unit :=
  bd ← get_bot_data;
  customers_list ← fetch_customers;
  match customers_list with
  | None =>
      chat env (ReplyText "⚠️ Failed to fetch customers. Check your store connection."
                  false None)
  | Some cs =>
      r ← format_customers cs 0 5 (get_currency bd);
      chat env (ReplyText (fst r) true (snd r))
  end.

Definition customers (u : update) : M unit :=
  ok ← check_admin env u;
  if negb ok then mret tt else customers_body u.

(** *** Button presses *)

(** The branch [customers_] of [button]. *)
Definition customers_callback (callback_data : string) : M unit :=
  bd ← get_bot_data;
  page ← page_of callback_data;
  customers_list ← fetch_customers;
  match customers_list with
  | None => chat env (EditMessageText "⚠️ Failed to fetch customers." false None)
  | Some cs =>
      r ← format_customers cs page 5 (get_currency bd);
      chat env (EditMessageText (fst r) true (snd r))
  end.

(** The text of the [ValueError] of an unpacking whose sides differ in
    length; no handler reads it. *)
Definition unpack_error : string := "not enough or too many values to unpack".

(** [conv(s) if s != "None" else None], as the branch [update_] of [button]
    reads the price and the stock of its token. *)
Definition unless_None {A} (conv : string -> M A) (s : string) : M (option A) :=
  if negb (String.eqb s "None") then a ← conv s; mret (Some a) else mret None.

(** The branch [update_] of [button]. *)
Definition update_callback (callback_data : string) : M unit :=
  match split_on "_" callback_data with
  | [_; product_id; variation_id; price; stock] =>
      price ← unless_None float_of price;
      stock ← unless_None int_of stock;
      r ← update_product env product_id price stock (Some variation_id);
      chat env (EditMessageText
                  ("📦 Variation " +:+ variation_id +:+ ": " +:+ snd r) false None)
  | _ => raise (ValueError unpack_error)
  end.

(** The commands and callbacks above as the bodies [command_handler] and
    [button] dispatch to; [other_command] and [other_callback] stand for
    the handlers that are still not embedded (stats, search, update, order
    and customer; the branches vars_, status_ and order_). *)
Definition command_body (other_command : command -> update -> M unit)
    (c : command) (u : update) : M unit :=
  match c with
  | Bulkupdate => bulkupdate_body u
  | Customers => customers_body u
  | _ => other_command c u
  end.

Definition callback_body (other_callback : string -> M unit) (callback_data : string)
  : M unit :=
  if startswith "vars_" callback_data then other_callback callback_data
  else if startswith "customers_" callback_data then customers_callback callback_data
  else if startswith "update_" callback_data then update_callback callback_data
  else other_callback callback_data.

(** *** Startup *)

(** [main] up to the call that starts polling; its result tells whether it
    scheduled [check_low_stock]. *)
Definition main : M bool :=
  if negb (opt_truthy (getenv env "TELEGRAM_BOT_TOKEN"))
  then raise (ValueError "Please set TELEGRAM_BOT_TOKEN in .env file.")
  else
    saved_settings ← load_settings;
    bd ← get_bot_data;
    set_bot_data (bot_data_update saved_settings bd);;
    bd ← get_bot_data;
    scheduled ←
      (if negb (default false (is_running bd))
       then set_bot_data (with_is_running true bd);; mret true
       else mret false);
    products_data ← fetch_products env;
    mret scheduled.

End Rest.

(** ** Further notions *)

(** The state a process starts in: nothing in memory yet, and the settings
    file as the run before left it. *)
Definition process_start (file : list settings_json) : world :=
  {| bot_data := no_settings; user_data := ∅; http_log := []; chat_log := [];
     settings_file := file |}.

(** The callback tokens of the settings keyboard. *)
Definition settings_tokens : list string :=
  ["toggle_low_stock"; "toggle_new_orders"; "set_threshold"; "watch_product";
   "set_currency"; "toggle_lang"].

(** The events that only reach the settings: free text, and the presses on
    the buttons of the settings keyboard. *)
Definition settings_event (e : event) : Prop :=
  match e with
  | OnText _ _ _ => True
  | OnButton _ data => data ∈ settings_tokens
  | OnCommand _ _ _ _ _ => False
  end.

(** The buttons that lead from page [p] to its neighbours, and the row of
    them under page [p] of [t]: no way back from the first page, no way on
    from the last. *)
Definition previous_button (prefix : string) (p : Z) : InlineKeyboardButton :=
  {| btn_text := "⏮ Previous"; btn_callback_data := prefix +:+ str_of_int (p - 1) |}.

Definition next_button (prefix : string) (p : Z) : InlineKeyboardButton :=
  {| btn_text := "Next ⏭"; btn_callback_data := prefix +:+ str_of_int (p + 1) |}.

Definition neighbours (prefix : string) (p t : Z) : list InlineKeyboardButton :=
  (if 0 <? p then [previous_button prefix p] else [])
  ++ (if p + 1 <? t then [next_button prefix p] else []).

(** The remote call of [fetch_variations] for a product. *)
Definition variations_request (p : product) : request :=
  {| req_verb := GET;
     req_endpoint := "products/" +:+ str_of_int (p_id p) +:+ "/variations";
     req_params := [("per_page", PInt 50)] |}.

(** The products whose type is variable. *)
Definition variable_products (l : list product) : list product :=
  List.filter (fun p => bool_decide (p_type p = Some "variable")) l.

(** A text in which the character [sep] does not occur. *)
Fixpoint without (sep : ascii) (s : string) : Prop :=
  match s with
  | EmptyString => True
  | String c rest => c ≠ sep ∧ without sep rest
  end.

(** The remote call of [update_order_status], and the line [bulkupdate]
    answers for an order once the store has answered the call ([None] when
    it went through, else the text of the failure). *)
Definition status_request `{PyConv} (status order_id : string) : request :=
  {| req_verb := PUT; req_endpoint := "orders/" +:+ order_id;
     req_params := [("status", PStr (py_lower status))] |}.

Definition order_line (status order_id : string) (answer : option string)
  : chat_call :=
  ReplyText
    ("Order " +:+ order_id +:+ ": "
     +:+ match answer with
         | None => "Order status updated to " +:+ status +:+ "!"
         | Some e => "Update failed: " +:+ e
         end)
    false None.





(** The remote call of [fetch_customers]. *)
Definition customers_request : request :=
  {| req_verb := GET; req_endpoint := "customers";
     req_params := [("per_page", PInt 50)] |}.

(** The remote call of [fetch_customer_orders] for a customer. *)
Definition customer_orders_request (c : customer) : request :=
  {| req_verb := GET; req_endpoint := "orders";
     req_params := [("customer", PInt (c_id c)); ("per_page", PInt 50);
                    ("orderby", PStr "date"); ("order", PStr "desc")] |}.

(** What a part of the token of an update button stands for: nothing for
    the text None, else what the conversion reads; [None] when the
    conversion fails. *)
Definition token_value {A} (conv : string -> option A) (s : string)
  : option (option A) :=
  if String.eqb s "None" then Some None else Some <$> conv s.

(** *** What the alert and the pages show *)

(** A product of known stock (the key is there and its value is no null)
    of at most [t]. *)
Definition known_low (t : Z) (p : product) : Prop :=
  ∃ q, p_stock_quantity p = Some (Some q) ∧ q ≤ t.

Global Instance known_low_dec (t : Z) (p : product) : Decision (known_low t p).
Proof.
  unfold known_low. destruct (p_stock_quantity p) as [[q|]|].
  - destruct (decide (q ≤ t)) as [Hq|Hq].
    + left. by exists q.
    + right. intros (q' & Heq & Hle). inversion Heq. by subst.
  - right. intros (q & Heq & _). discriminate.
  - right. intros (q & Heq & _). discriminate.
Defined.

(** The threshold a cycle of the monitor works with: the one that was
    set, and 5 as long as none was. *)
Definition threshold_in_force (s : BotData) (t : Z) : Prop :=
  low_stock_threshold s = Some t ∨ (low_stock_threshold s = None ∧ t = 5).

(** What the alert tells of a product of known stock: its id and name,
    then its price and its stock. *)
Definition alert_shown (symbol : string) (p : product) (text : string) : Prop :=
  ∃ q, p_stock_quantity p = Some (Some q)
       ∧ text = "ID: " +:+ str_of_int (p_id p) +:+ " | "
                +:+ default "Unnamed Product" (p_name p) +:+ nl
                +:+ "Price: " +:+ symbol +:+ default "N/A" (p_price p)
                +:+ " | Stock: " +:+ str_of_int q +:+ nl +:+ nl.

(** The alert that tells [items], one after the other. *)
Definition alert_text (items : list string) : string :=
  "⚠️ **Low Stock Alert**" +:+ nl +:+ nl +:+ String.concat EmptyString items.

(** How often a record stands in a list, records being compared as a
    whole. *)
Definition occurrences (wp : product) (l : list product) : nat :=
  length (filter (λ p, p = wp) l).

Section Shown.
Context `{PyStr}.

(** The name a record is listed under: first and last name with a blank
    between them, stripped, and Unknown when nothing is left. *)
Definition shown_name (first last : option string) : string :=
  let name := py_strip (default EmptyString first +:+ " " +:+ default EmptyString last) in
  if String.eqb name EmptyString then "Unknown" else name.

(** What a page of the orders tells of an order. *)
Definition order_shown (symbol : string) (o : order) : string :=
  "ID: " +:+ str_of_int (o_id o) +:+ " | Customer: "
  +:+ shown_name (o_billing o ≫= first_name) (o_billing o ≫= last_name) +:+ nl
  +:+ "Total: " +:+ symbol +:+ default "N/A" (o_total o)
  +:+ " | Status: " +:+ py_capitalize (default "N/A" (o_status o)) +:+ nl +:+ nl.

(** What a page of the customers tells of a customer, [orders] being the
    store's answer to the listing of that customer's orders. *)
Definition customer_shown (symbol : string) (c : customer)
    (orders : option (list order)) : string :=
  "ID: " +:+ str_of_int (c_id c) +:+ " | "
  +:+ shown_name (c_first_name c) (c_last_name c) +:+ nl
  +:+ "Email: " +:+ default "N/A" (c_email c)
  +:+ " | Total Spent: " +:+ symbol +:+ default "0.00" (c_total_spent c)
  +:+ " | Orders: "
  +:+ str_of_int (match orders with Some os => Z.of_nat (length os) | None => 0 end)
  +:+ nl +:+ nl.

End Shown.

(** The attributes of a product on a page of the products: each with its
    options, N/A when there is none. *)
Definition attributes_shown (attributes : option (list attribute)) : string :=
  match default [] attributes with
  | [] => "N/A"
  | l =>
      String.concat " / "
        (map (λ a, default "Attr" (attr_name a) +:+ ": "
                   +:+ String.concat ", " (default [] (attr_options a))) l)
  end.

(** The lines a page of the products tells of every product. *)
Definition product_shown (symbol : string) (p : product) : string :=
  "**ID: " +:+ str_of_int (p_id p) +:+ " | " +:+ default "Unnamed Product" (p_name p)
  +:+ "**" +:+ nl
  +:+ "Type: " +:+ default "Simple" (p_type p) +:+ nl
  +:+ "SKU: " +:+ default "N/A" (p_sku p) +:+ nl
  +:+ "Price: " +:+ symbol +:+ default "N/A" (p_price p) +:+ nl
  +:+ "Stock: "
  +:+ match p_stock_quantity p with Some (Some q) => str_of_int q | _ => "N/A" end +:+ nl
  +:+ "Attributes: " +:+ attributes_shown (p_attributes p) +:+ nl.

(** The lines it adds for a variable product, [answer] being the store's
    answer to the listing of its variations; none for another product. *)
Definition variations_shown (p : product) (answer : option (list variation)) : string :=
  if bool_decide (p_type p = Some "variable") then
    match answer with
    | Some (v :: vs) =>
        "Variations: "
        +:+ String.concat ", " (map (λ v, str_of_int (v_id v)) (v :: vs)) +:+ nl
        +:+ "[Click to view variation details]" +:+ nl
    | _ => "Variations: None" +:+ nl
    end
  else EmptyString.

(** An entry of a page of the products: those lines and a rule under
    them. *)
Definition product_entry_shown (symbol : string) (p : product) (entry : string) : Prop :=
  ∃ answer,
    entry = product_shown symbol p +:+ variations_shown p answer
            +:+ "────────────────────" +:+ nl +:+ nl.

(** ** Further examples *)

(** [float] on the numerals the examples use: a whole number of at most 15
    digits, without sign, which [str] prints with .0 after it. *)
Definition ascii_float (s : string) : option string :=
  match ascii_strip s with
  | EmptyString => None
  | t =>
      if (String.length t <=? 15)%nat
      then (fun n => str_of_int n +:+ ".0") <$> digits_value t 0
      else None
  end.

Definition ascii_conv : PyConv :=
  {| py_lower := map_string to_lower; py_float := ascii_float |}.

(** The deployment of the examples with other variables, another store or
    another chat. *)
Definition deployment (vars : string -> option string)
    (answers : nat -> option (list product)) (puts : nat -> option string)
    (chat_up : nat -> bool) : environment :=
  {| getenv := vars;
     products_response := answers;
     variations_response := fun _ => None;
     orders_response := fun n => if (n =? 1)%nat then Some seven_orders else None;
     put_response := puts;
     delivered := chat_up |}.

(** The variables of a deployment that was given its bot token. *)
Definition getenv_with_token (name : string) : option string :=
  if String.eqb name "TELEGRAM_BOT_TOKEN" then Some "123:abc" else sample_getenv name.

(** The variables of a deployment whose allow-list holds a typing error. *)
Definition getenv_bad_ids (name : string) : option string :=
  if String.eqb name "ADMIN_IDS" then Some "1,x7" else sample_getenv name.

Definition store_with_token : environment :=
  deployment getenv_with_token (fun _ => None) (fun _ => None) (fun _ => true).

Definition store_bad_ids : environment :=
  deployment getenv_bad_ids (fun _ => None) (fun _ => None) (fun _ => true).

(** A store that is down behind a chat that takes nothing. *)
Definition store_and_chat_down : environment :=
  deployment sample_getenv (fun _ => None) (fun _ => None) (fun _ => false).

(** A store that turns down the second update it is sent. *)
Definition store_refusing_second : environment :=
  deployment sample_getenv (fun _ => None)
    (fun n => if (n =? 1)%nat then Some "404 Client Error" else None)
    (fun _ => true).

(** A store without products. *)
Definition store_empty : environment :=
  deployment sample_getenv (fun _ => Some []) (fun _ => None) (fun _ => true).

(** The bot after administrator 1 was asked for a threshold, and for a
    product to watch. *)
Definition world_awaiting_threshold : world :=
  put_user_data 1 (with_awaiting_threshold true no_flags) initial_world.

Definition world_awaiting_watch : world :=
  put_user_data 1 (with_awaiting_watch_product true no_flags) initial_world.

(** A bot whose low-stock alerts were switched off. *)
Definition world_alerts_off : world :=
  put_bot_data (with_notify_low_stock false (bot_data initial_world)) initial_world.

(** A product with variations. *)
Definition product_variable : product :=
  {| p_id := 3; p_name := Some "Shirt"; p_sku := None; p_price := Some "15.00";
     p_stock_quantity := Some None; p_type := Some "variable";
     p_attributes := Some [{| attr_name := Some "Size";
                              attr_options := Some ["S"; "M"] |}];
     p_rest := [] |}.

(** Two customers. *)
Definition two_customers : list customer :=
  [{| c_id := 8; c_first_name := Some "Ann"; c_last_name := Some "Lee";
      c_email := Some "ann@example.org"; c_total_spent := Some "84.00" |};
   {| c_id := 9; c_first_name := None; c_last_name := None;
      c_email := None; c_total_spent := None |}].

(** A bot whose threshold was set to 10, and the same bot watching
    product 2. *)
Definition world_threshold_10 : world :=
  put_bot_data (with_low_stock_threshold 10 (bot_data initial_world)) initial_world.

Definition world_watching_2 : world :=
  put_bot_data (with_watched_product_id "2" (bot_data world_threshold_10))
    world_threshold_10.

(** A store whose first answer fails and whose later ones succeed. *)
Definition store_failing_once (ps : list product) : environment :=
  sample_env (fun n => if (n <? 1)%nat then None else Some ps).

(** * Proofs *)

(** ** Running the monad *)

Lemma bind_run {A B} (m : M A) (k : A → M B) (w : world) :
  (m ≫= k) w
  = match m w with
    | (Ok a, w') => k a w'
    | (Raise e, w') => (Raise e, w')
    end.
Proof. reflexivity. Qed.

Lemma chat_run (env : environment) (c : chat_call) (w : world) :
  chat env c w
  = (if delivered env (length (chat_log w)) then Ok tt else Raise TelegramError,
     log_chat c w).
Proof. unfold chat. by destruct (delivered env _). Qed.

Lemma get_user_data_run (uid : Z) (w : world) :
  get_user_data uid w = (Ok (flags_of w uid), w).
Proof. reflexivity. Qed.

(** One step of a handler that is run on a state: the first statement of
    the sequence is executed and the match on its result reduced. *)
Ltac step_read := rewrite bind_run; unfold get_bot_data at 1; cbv beta iota.
Ltac step_write := rewrite bind_run; unfold set_bot_data at 1; cbv beta iota.
Ltac step_save := rewrite bind_run; unfold save_settings at 1; cbv beta iota.
Ltac step_flags := rewrite bind_run, get_user_data_run; cbv beta iota.
Ltac step_if_not_ok := cbv beta iota; change (negb true) with false; cbv beta iota.

(** ** The low-stock list *)

Lemma stock_known_le_spec (t : Z) (p : product) :
  stock_known_le t p = true ↔ ∃ q, p_stock_quantity p = Some (Some q) ∧ q ≤ t.
Proof.
  unfold stock_known_le.
  destruct (p_stock_quantity p) as [[q|]|]; split.
  - intros Hq. exists q. split; [reflexivity | lia].
  - intros (q' & Heq & Hle). inversion Heq; subst. lia.
  - discriminate.
  - intros (q & Heq & _). discriminate.
  - discriminate.
  - intros (q & Heq & _). discriminate.
Qed.

Lemma elem_of_low_stock_products (t : Z) (products : list product) (p : product) :
  p ∈ low_stock_products t products ↔ p ∈ products ∧ stock_known_le t p = true.
Proof.
  unfold low_stock_products.
  rewrite !list_elem_of_In, filter_In. reflexivity.
Qed.

Lemma find_watched_elem (wid : string) (products : list product) (wp : product) :
  find_watched wid products = Some wp → wp ∈ products.
Proof.
  unfold find_watched. intros Hf.
  apply find_some in Hf as [Hin _]. by apply list_elem_of_In.
Qed.

(** When the comparison of the watched product succeeds, it agrees with the
    test of the comprehension. *)
Lemma watched_stock_le_ok (t : Z) (wp : product) (b : bool) :
  watched_stock_le t wp = Ok b → stock_known_le t wp = b.
Proof.
  unfold watched_stock_le, stock_known_le.
  destruct (p_stock_quantity wp) as [[q|]|]; intros Hw; by inversion Hw.
Qed.

(** The watched step raises or appends nothing. *)
Lemma add_watched_natural (t : Z) (watched : option string) (products : list product) :
  low_stock_of_cycle t watched products = Ok (low_stock_products t products)
  ∨ low_stock_of_cycle t watched products = Raise TypeError.
Proof.
  unfold low_stock_of_cycle, add_watched.
  destruct watched as [wid|]; [|by left].
  destruct (str_truthy wid); [|by left].
  destruct (find_watched wid products) as [wp|] eqn:Hfind; [|by left].
  destruct (watched_stock_le t wp) as [[|]|e] eqn:Hle.
  - left. apply watched_stock_le_ok in Hle.
    rewrite bool_decide_eq_true_2; [reflexivity|].
    apply elem_of_low_stock_products. split; [|exact Hle].
    by eapply find_watched_elem.
  - by left.
  - right. unfold watched_stock_le in Hle.
    destruct (p_stock_quantity wp) as [[q|]|]; by inversion Hle.
Qed.

Lemma in_low_stock_watched_le (t : Z) (products : list product) (wp : product) :
  wp ∈ low_stock_products t products → watched_stock_le t wp = Ok true.
Proof.
  intros Hin. apply elem_of_low_stock_products in Hin as [_ Hle].
  unfold stock_known_le in Hle. unfold watched_stock_le.
  destruct (p_stock_quantity wp) as [[q|]|]; try discriminate.
  by rewrite Hle.
Qed.

(** A watched product that the comprehension already kept is not appended. *)
Lemma watched_in_low_not_appended
    (t : Z) (wid : string) (products : list product) (wp : product) :
  find_watched wid products = Some wp →
  wp ∈ low_stock_products t products →
  low_stock_of_cycle t (Some wid) products = Ok (low_stock_products t products).
Proof.
  intros Hfind Hin. unfold low_stock_of_cycle, add_watched.
  rewrite Hfind, (in_low_stock_watched_le _ _ _ Hin).
  rewrite bool_decide_eq_true_2 by exact Hin.
  by destruct (str_truthy wid).
Qed.

(** X2: the comparison of the watched product raises as soon as its stock
    is null, whatever else was fetched. *)
Lemma watched_null_stock_raises_always
    (t : Z) (wid : string) (products : list product) (wp : product) :
  str_truthy wid = true →
  find_watched wid products = Some wp →
  p_stock_quantity wp = Some None →
  low_stock_of_cycle t (Some wid) products = Raise TypeError.
Proof.
  intros Hwid Hfind Hnull. unfold low_stock_of_cycle, add_watched.
  rewrite Hwid, Hfind. unfold watched_stock_le. by rewrite Hnull.
Qed.

(** C10 (the code fails it): with product 1 watched and fetched with a null
    stock_quantity, the comparison of the watched product raises TypeError;
    the cycle ends on it after its fetch, and nothing is sent. *)
Theorem watched_null_stock_raises :
  low_stock_of_cycle 5 (Some "1") [product_unmanaged] = Raise TypeError
  ∧ check_low_stock (store_of [product_unmanaged]) world_watching_1
    = (Raise TypeError, log_http products_request world_watching_1).
Proof. split; vm_compute; reflexivity. Qed.

(** C1 (the code fails it): when the store fails the first three fetches of
    a cycle and answers the fourth, the monitor makes that fourth attempt,
    computes the low-stock list and sends the low-stock alert; it sends no
    alert of repeated failure. *)
Theorem three_failures_then_success :
  check_low_stock (store_failing_thrice [product_1; product_2]) initial_world
  = (Ok tt,
     {| bot_data := bot_data initial_world;
        user_data := user_data initial_world;
        http_log := replicate 4 products_request;
        chat_log := [SendMessage "77" (alert_message "$" [product_1]) true];
        settings_file := [] |}).
Proof. vm_compute. reflexivity. Qed.

(** ** The monitor cycle *)

Lemma fetch_products_run (env : environment) (w : world) :
  configured env →
  fetch_products env w
  = (Ok (products_response env (length (http_log w))), log_http products_request w).
Proof. intros Hapi. unfold fetch_products. rewrite Hapi. reflexivity. Qed.

(** The loop of retries when the store keeps failing: each turn is one
    more remote call. *)
Lemma retry_fetch_fails (env : environment) (k : nat) (w : world) :
  configured env →
  (∀ i, (i < k)%nat → products_response env (length (http_log w) + i) = None) →
  retry_fetch env k None w = (Ok None, Nat.iter k (log_http products_request) w).
Proof.
  intros Hapi. revert w. induction k as [|k IH]; intros w Hfail.
  - reflexivity.
  - simpl retry_fetch. rewrite bind_run, fetch_products_run by exact Hapi.
    rewrite <- (Nat.add_0_r (length (http_log w))), Hfail by lia.
    cbv beta iota. rewrite IH.
    + by rewrite Nat.iter_succ_r.
    + intros i Hi. simpl. rewrite length_app. simpl.
      rewrite <- Nat.add_assoc. apply Hfail. simpl. lia.
Qed.

(** X1: when the store fails four fetches in a row, the cycle makes exactly
    those four attempts and then sends the alert of repeated failure,
    once, and nothing else. *)
Lemma four_failures_one_alert (env : environment) (w : world) (chat_id : string) :
  monitoring env w chat_id →
  configured env →
  (∀ i, (i < 4)%nat → products_response env (length (http_log w) + i) = None) →
  snd (check_low_stock env w)
  = log_chat
      (SendMessage chat_id
         (msg_api_error (get_language (bot_data w))
            "Failed to fetch products after 3 attempts") false)
      (Nat.iter 4 (log_http products_request) w).
Proof.
  intros (Hrun & Hnotify & Hchat & Hid) Hapi Hfail.
  unfold check_low_stock. step_read.
  rewrite Hrun, Hnotify, Hchat, Hid. cbn [negb orb]. cbv beta iota.
  rewrite bind_run, fetch_products_run by exact Hapi.
  rewrite <- (Nat.add_0_r (length (http_log w))), Hfail by lia.
  cbv beta iota.
  rewrite bind_run, retry_fetch_fails; [|exact Hapi|].
  - cbv beta iota. rewrite chat_run.
    rewrite <- Nat.iter_succ_r. by destruct (delivered env _).
  - intros i Hi. simpl. rewrite length_app. simpl.
    rewrite <- Nat.add_assoc. apply Hfail. simpl. lia.
Qed.

(** A cycle whose first fetch succeeds: it ends on the exception of the
    low-stock computation, or sends nothing for an empty list, or sends one
    alert written from the list (a failure to deliver it is swallowed). *)
Lemma cycle_alert (env : environment) (w : world) (chat_id : string)
    (products : list product) :
  monitoring env w chat_id →
  configured env →
  products_response env (length (http_log w)) = Some products →
  check_low_stock env w
  = match low_stock_of_cycle (get_threshold (bot_data w))
            (watched_product_id (bot_data w)) products with
    | Ok [] => (Ok tt, log_http products_request w)
    | Ok low =>
        (Ok tt,
         log_chat
           (SendMessage chat_id
              (alert_message (currency_symbol (get_currency (bot_data w))) low) true)
           (log_http products_request w))
    | Raise e => (Raise e, log_http products_request w)
    end.
Proof.
  intros (Hrun & Hnotify & Hchat & Hid) Hapi Hfetch.
  unfold check_low_stock. step_read.
  rewrite Hrun, Hnotify, Hchat, Hid. cbn [negb orb]. cbv beta iota.
  rewrite bind_run, fetch_products_run by exact Hapi.
  rewrite Hfetch. cbv beta iota.
  rewrite bind_run. simpl retry_fetch. unfold mret at 1, M_ret at 1. cbv beta iota.
  rewrite bind_run. unfold lift at 1.
  destruct (low_stock_of_cycle _ _ products) as [[|p low]|e]; cbv beta iota;
    [reflexivity| |reflexivity].
  unfold try_Exception. rewrite chat_run.
  by destruct (delivered env _).
Qed.

(** A fetch that was answered is not tried again. *)
Lemma retry_fetch_answered (env : environment) (n : nat) (products : list product)
    (w : world) :
  retry_fetch env n (Some products) w = (Ok (Some products), w).
Proof. by destruct n. Qed.

(** The loop of retries when the store answers after [k] more failures. *)
Lemma retry_fetch_answers (env : environment) (n k : nat) (products : list product)
    (w : world) :
  configured env →
  (k < n)%nat →
  (∀ i, (i < k)%nat → products_response env (length (http_log w) + i) = None) →
  products_response env (length (http_log w) + k) = Some products →
  retry_fetch env n None w
  = (Ok (Some products), Nat.iter (S k) (log_http products_request) w).
Proof.
  intros Hapi. revert k w. induction n as [|n IH]; intros k w Hk Hfail Hanswer; [lia|].
  simpl retry_fetch. rewrite bind_run, fetch_products_run by exact Hapi.
  destruct k as [|k].
  - rewrite Nat.add_0_r in Hanswer. rewrite Hanswer. cbv beta iota.
    by rewrite retry_fetch_answered.
  - rewrite <- (Nat.add_0_r (length (http_log w))), Hfail by lia. cbv beta iota.
    rewrite (IH k); [by rewrite <- Nat.iter_succ_r | lia | |].
    + intros i Hi. simpl. rewrite length_app. simpl.
      rewrite <- Nat.add_assoc. apply Hfail. simpl. lia.
    + simpl. rewrite length_app. simpl. rewrite <- Nat.add_assoc. exact Hanswer.
Qed.

(** A cycle whose fetch is answered at last, after [k] failures, [k] at
    most 3: it has made [k + 1] remote calls, and ends as the cycle whose
    first fetch succeeds. *)
Lemma cycle_after_retries (env : environment) (w : world) (chat_id : string)
    (products : list product) (k : nat) :
  monitoring env w chat_id →
  configured env →
  (k ≤ 3)%nat →
  (∀ i, (i < k)%nat → products_response env (length (http_log w) + i) = None) →
  products_response env (length (http_log w) + k) = Some products →
  check_low_stock env w
  = match low_stock_of_cycle (get_threshold (bot_data w))
            (watched_product_id (bot_data w)) products with
    | Ok [] => (Ok tt, Nat.iter (S k) (log_http products_request) w)
    | Ok low =>
        (Ok tt,
         log_chat
           (SendMessage chat_id
              (alert_message (currency_symbol (get_currency (bot_data w))) low) true)
           (Nat.iter (S k) (log_http products_request) w))
    | Raise e => (Raise e, Nat.iter (S k) (log_http products_request) w)
    end.
Proof.
  intros (Hrun & Hnotify & Hchat & Hid) Hapi Hk Hfail Hanswer.
  unfold check_low_stock. step_read.
  rewrite Hrun, Hnotify, Hchat, Hid. cbn [negb orb]. cbv beta iota.
  rewrite bind_run, fetch_products_run by exact Hapi.
  assert (retry_fetch env 3 (products_response env (length (http_log w)))
            (log_http products_request w)
          = (Ok (Some products), Nat.iter (S k) (log_http products_request) w))
    as Hretry.
  { destruct k as [|k].
    - rewrite Nat.add_0_r in Hanswer. rewrite Hanswer. apply retry_fetch_answered.
    - rewrite <- (Nat.add_0_r (length (http_log w))), Hfail by lia.
      rewrite (retry_fetch_answers env 3 k products); [by rewrite <- Nat.iter_succ_r | | | |].
      + exact Hapi.
      + lia.
      + intros i Hi. simpl. rewrite length_app. simpl.
        rewrite <- Nat.add_assoc. apply Hfail. simpl. lia.
      + simpl. rewrite length_app. simpl. rewrite <- Nat.add_assoc. exact Hanswer. }
  cbv beta iota. rewrite bind_run, Hretry. cbv beta iota.
  rewrite bind_run. unfold lift at 1.
  destruct (low_stock_of_cycle _ _ products) as [[|p low]|e]; cbv beta iota;
    [reflexivity| |reflexivity].
  unfold try_Exception. rewrite chat_run.
  by destruct (delivered env _).
Qed.

(** The remote calls of a cycle write nothing to the chat. *)
Lemma retries_keep_chat_log (k : nat) (w : world) :
  chat_log (Nat.iter k (log_http products_request) w) = chat_log w.
Proof. induction k as [|k IH]; [reflexivity | exact IH]. Qed.

(** The threshold a cycle reads is the one in force. *)
Lemma get_threshold_in_force (s : BotData) (t : Z) :
  threshold_in_force s t → get_threshold s = t.
Proof. unfold get_threshold. by intros [-> | [-> ->]]. Qed.

(** The comprehension keeps the products of known stock at most the
    threshold, in the order of the fetched list and each as often as it
    stands there. *)
Lemma low_stock_products_known (t : Z) (products : list product) :
  low_stock_products t products = filter (known_low t) products.
Proof.
  unfold low_stock_products.
  induction products as [|p l IH]; [reflexivity|].
  simpl List.filter. rewrite filter_cons, IH.
  destruct (stock_known_le t p) eqn:Hle; destruct (decide (known_low t p)) as [Hp|Hp].
  - reflexivity.
  - by apply stock_known_le_spec in Hle.
  - apply stock_known_le_spec in Hp. congruence.
  - reflexivity.
Qed.

(** The alert is written product by product. *)
Lemma alert_message_shown (symbol : string) (t : Z) (low : list product) :
  (∀ p, p ∈ low → known_low t p) →
  ∃ items,
    Forall2 (alert_shown symbol) low items
    ∧ alert_message symbol low = alert_text items.
Proof.
  intros Hlow. exists (map (alert_item symbol) low). split; [|reflexivity].
  induction low as [|p l IH]; simpl; constructor.
  - destruct (Hlow p) as (q & Hq & _); [left|].
    exists q. split; [exact Hq|].
    unfold alert_item, alert_stock_text. by rewrite Hq.
  - apply IH. intros p' Hp'. apply Hlow. by right.
Qed.

Lemma known_low_filtered (t : Z) (products : list product) (p : product) :
  p ∈ filter (known_low t) products → known_low t p.
Proof. intros Hp. by apply list_elem_of_filter in Hp as [Hp _]. Qed.

(** Filtering keeps every occurrence of a record it keeps. *)
Lemma occurrences_filter (P : product → Prop) `{∀ p, Decision (P p)}
    (wp : product) (l : list product) :
  P wp → occurrences wp (filter P l) = occurrences wp l.
Proof.
  intros Hwp. unfold occurrences. induction l as [|p l IH]; [reflexivity|].
  rewrite !filter_cons. destruct (decide (P p)) as [Hp|Hp].
  - rewrite filter_cons. destruct (decide (p = wp)); simpl; by rewrite IH.
  - destruct (decide (p = wp)) as [->|_]; [done | exact IH].
Qed.

Lemma occurrences_NoDup (wp : product) (l : list product) :
  NoDup l → wp ∈ l → occurrences wp l = 1%nat.
Proof.
  unfold occurrences. intros Hnd Hin.
  induction Hnd as [|p l Hp Hnd IH]; [by apply elem_of_nil in Hin|].
  rewrite filter_cons. destruct (decide (p = wp)) as [->|Hne].
  - destruct (filter (λ p, p = wp) l) as [|x l'] eqn:Hrest; [reflexivity|].
    assert (x ∈ filter (λ p, p = wp) l) as Hx by (rewrite Hrest; left).
    apply list_elem_of_filter in Hx as [-> Hx]. contradiction.
  - apply elem_of_cons in Hin as [->|Hin]; [done | by apply IH].
Qed.

(** C4: the list comprehension of a cycle keeps exactly the fetched products
    whose stock is known (key present, value not null) and at most the
    threshold, in their order; the watched-product step that follows
    either raises or leaves that list as it is.  So a cycle that goes
    through, whether its list was fetched at once or on a retry, and
    whatever threshold was set (5 when none was), alerts on exactly these
    products, each told with its id, name, price and stock (and sends
    nothing when there is none); and for threshold 5 and the products with
    stocks 3 (id 1) and 10 (id 2) the alert sent lists product 1 only. *)
Theorem low_stock_set_exact :
  ∀ (t : Z) (products : list product),
    (∀ p, p ∈ low_stock_products t products
          ↔ p ∈ products ∧ ∃ q, p_stock_quantity p = Some (Some q) ∧ q ≤ t)
    ∧ low_stock_products t products = filter (known_low t) products
    ∧ (∀ watched,
         low_stock_of_cycle t watched products = Ok (filter (known_low t) products)
         ∨ low_stock_of_cycle t watched products = Raise TypeError)
    ∧ (∀ (env : environment) (w : world) (chat_id : string) (k : nat),
         monitoring env w chat_id →
         configured env →
         (k ≤ 3)%nat →
         (∀ i, (i < k)%nat →
               products_response env (length (http_log w) + i) = None) →
         products_response env (length (http_log w) + k) = Some products →
         threshold_in_force (bot_data w) t →
         fst (check_low_stock env w) = Ok tt →
         ∃ items,
           Forall2 (alert_shown (currency_symbol (get_currency (bot_data w))))
             (filter (known_low t) products) items
           ∧ chat_log (snd (check_low_stock env w))
             = chat_log w
               ++ match items with
                  | [] => []
                  | _ => [SendMessage chat_id (alert_text items) true]
                  end)
    ∧ chat_log (snd (check_low_stock (store_of [product_1; product_2]) world_threshold_5))
      = [SendMessage "77"
           ("⚠️ **Low Stock Alert**" +:+ nl +:+ nl
            +:+ "ID: 1 | Mug" +:+ nl +:+ "Price: $4.50 | Stock: 3" +:+ nl +:+ nl)
           true].
Proof.
  intros t products. split; [|split; [|split; [|split]]].
  - intros p. rewrite elem_of_low_stock_products, stock_known_le_spec. reflexivity.
  - apply low_stock_products_known.
  - intros watched. rewrite <- low_stock_products_known. apply add_watched_natural.
  - intros env w chat_id k Hmon Hapi Hk Hfail Hanswer Ht.
    rewrite (cycle_after_retries env w chat_id products k Hmon Hapi Hk Hfail Hanswer).
    rewrite (get_threshold_in_force _ _ Ht).
    pose proof (retries_keep_chat_log (S k) w) as Hlog.
    destruct (add_watched_natural t (watched_product_id (bot_data w)) products)
      as [-> | ->]; [|discriminate].
    intros _. rewrite low_stock_products_known.
    destruct (alert_message_shown (currency_symbol (get_currency (bot_data w))) t
                (filter (known_low t) products)) as (items & Hitems & Htext).
    { apply known_low_filtered. }
    exists items. split; [exact Hitems|].
    destruct Hitems as [|p item low items Hp Hitems];
      cbv beta iota; cbn [snd chat_log log_chat].
    + by rewrite Hlog, app_nil_r.
    + by rewrite Hlog, Htext.
  - vm_compute. reflexivity.
Qed.

(** C5 (as amended): in a monitor cycle whose watched product is already in
    the list the comprehension computed (membership being equality of the
    whole records), the watched-product step appends nothing: the one
    alert of the cycle tells the products of that list, one after the
    other, and the watched record stands among them as often as the store
    returned it, which is exactly once when the records the store returned
    are pairwise distinct. *)
Theorem watched_not_duplicated :
  ∀ (env : environment) (w : world) (chat_id wid : string)
    (products : list product) (wp : product) (t : Z) (k : nat),
    monitoring env w chat_id →
    configured env →
    (k ≤ 3)%nat →
    (∀ i, (i < k)%nat → products_response env (length (http_log w) + i) = None) →
    products_response env (length (http_log w) + k) = Some products →
    threshold_in_force (bot_data w) t →
    watched_product_id (bot_data w) = Some wid →
    find_watched wid products = Some wp →
    wp ∈ filter (known_low t) products →
    let listed := filter (known_low t) products in
    low_stock_of_cycle t (Some wid) products = Ok listed
    ∧ (∃ items,
         Forall2 (alert_shown (currency_symbol (get_currency (bot_data w))))
           listed items
         ∧ check_low_stock env w
           = (Ok tt,
              log_chat (SendMessage chat_id (alert_text items) true)
                (Nat.iter (S k) (log_http products_request) w)))
    ∧ occurrences wp listed = occurrences wp products
    ∧ (NoDup products → occurrences wp listed = 1%nat).
Proof.
  intros env w chat_id wid products wp t k Hmon Hapi Hk Hfail Hanswer Ht Hwid Hfind
         Hin listed.
  assert (low_stock_of_cycle t (Some wid) products = Ok listed) as Hlow.
  { subst listed. rewrite <- low_stock_products_known.
    apply (watched_in_low_not_appended t wid products wp Hfind).
    by rewrite low_stock_products_known. }
  assert (occurrences wp listed = occurrences wp products) as Hocc.
  { apply occurrences_filter. by apply (known_low_filtered t products). }
  split; [exact Hlow|]. split; [|split; [exact Hocc|]].
  - destruct (alert_message_shown (currency_symbol (get_currency (bot_data w))) t
                listed) as (items & Hitems & Htext).
    { apply known_low_filtered. }
    exists items. split; [exact Hitems|].
    rewrite (cycle_after_retries env w chat_id products k Hmon Hapi Hk Hfail Hanswer).
    rewrite (get_threshold_in_force _ _ Ht), Hwid, Hlow, <- Htext.
    subst listed. revert Hin.
    destruct (filter (known_low t) products) as [|p l]; intros Hin;
      [by apply elem_of_nil in Hin | reflexivity].
  - intros Hnd. rewrite Hocc. apply occurrences_NoDup; [exact Hnd|].
    by apply list_elem_of_filter in Hin as [_ Hin].
Qed.

(** C5 as the specification states it fails: when the store returns the
    record of the watched product twice, the watched product is in the
    computed list, and the alert of the cycle tells it twice. *)
Lemma duplicate_record_listed_twice :
  watched_product_id (bot_data world_watching_1) = Some "1"
  ∧ find_watched "1" [product_1; product_1] = Some product_1
  ∧ product_1 ∈ low_stock_products 5 [product_1; product_1]
  ∧ low_stock_of_cycle 5 (Some "1") [product_1; product_1]
    = Ok [product_1; product_1]
  ∧ occurrences product_1 (low_stock_products 5 [product_1; product_1]) = 2%nat
  ∧ check_low_stock (store_of [product_1; product_1]) world_watching_1
    = (Ok tt,
       log_chat
         (SendMessage "77"
            ("⚠️ **Low Stock Alert**" +:+ nl +:+ nl
             +:+ "ID: 1 | Mug" +:+ nl +:+ "Price: $4.50 | Stock: 3" +:+ nl +:+ nl
             +:+ "ID: 1 | Mug" +:+ nl +:+ "Price: $4.50 | Stock: 3" +:+ nl +:+ nl)
            true)
         (log_http products_request world_watching_1)).
Proof.
  split; [reflexivity|]. split; [reflexivity|]. split; [left|].
  split; [by vm_compute|]. split; [by vm_compute|]. by vm_compute.
Qed.

(** ** Updates without values *)

(** C6: an update call with neither a price nor a stock value issues no
    remote call (it leaves the whole state as it was) and returns the
    failure flag, in every deployment; on a bot whose store credentials are
    set, the message with the flag is No updates provided.  *)
Theorem update_without_values :
  ∀ (env : environment) (product_id : string) (variation_id : option string)
    (w : world),
    snd (update_product env product_id None None variation_id w) = w
    ∧ http_log (snd (update_product env product_id None None variation_id w))
      = http_log w
    ∧ (∃ message,
         fst (update_product env product_id None None variation_id w)
         = Ok (false, message))
    ∧ (configured env →
       update_product env product_id None None variation_id w
       = (Ok (false, "No updates provided."), w)).
Proof.
  intros env product_id variation_id w.
  unfold update_product, configured.
  destruct (get_woocommerce_api env) as [[]|e]; simpl.
  - split; [reflexivity|]. split; [reflexivity|]. split; [by eexists | done].
  - split; [reflexivity|]. split; [reflexivity|]. split; [by eexists | done].
Qed.

(** X3: without the credentials the call fails before it looks at its
    values: still no remote call and the failure flag, with the text of the
    credentials error. *)
Lemma update_without_credentials
    (env : environment) (product_id : string) (price : option string)
    (stock : option Z) (variation_id : option string) (w : world) :
  get_woocommerce_api env ≠ Ok tt →
  update_product env product_id price stock variation_id w
  = (Ok (false, "Unexpected error: " +:+ credentials_error), w).
Proof.
  intros Hapi. unfold update_product, get_woocommerce_api in *.
  destruct (forallb _ _); [by destruct Hapi | reflexivity].
Qed.

(** ** Search by name or SKU *)

Lemma forallb_false_elem {A} (f : A → bool) (l : list A) :
  forallb f l = false ↔ ∃ x, x ∈ l ∧ f x = false.
Proof.
  induction l as [|a l IH]; simpl.
  - split; [discriminate | intros (x & Hx & _); inversion Hx].
  - rewrite andb_false_iff, IH. split.
    + intros [Ha | (x & Hx & Hf)].
      * exists a. split; [left | exact Ha].
      * exists x. split; [by right | exact Hf].
    + intros (x & Hx & Hf). apply elem_of_cons in Hx as [-> | Hx].
      * by left.
      * right. by exists x.
Qed.

Lemma forallb_true_elem {A} (f : A → bool) (l : list A) :
  forallb f l = true ↔ ∀ x, x ∈ l → f x = true.
Proof.
  rewrite forallb_forall. split; intros Hf x Hx; apply Hf; by apply list_elem_of_In.
Qed.

(** The test of [search_products], in the words of the specification. *)
Lemma sku_test_spec `{PyStr} (query : string) :
  isalnum query && negb (isalpha query) = true ↔ numeric_looking_token query.
Proof.
  unfold isalnum, isalpha, numeric_looking_token.
  destruct (py_chars query) as [|c cs] eqn:Hcs.
  - simpl. split; [discriminate | intros (Hne & _); by destruct Hne].
  - rewrite andb_true_iff, negb_true_iff, forallb_true_elem, forallb_false_elem.
    split.
    + intros (Hall & Hex). split; [discriminate|]. split; [|exact Hex].
      intros x Hx. apply orb_true_iff. by apply Hall.
    + intros (_ & Hall & Hex). split; [|exact Hex].
      intros x Hx. apply orb_true_iff. by apply Hall.
Qed.

(** C9: on a bot whose store credentials are set, a search issues one
    remote call, a listing of the products (50 to the page): filtered by
    SKU when the query is a numeric-looking alphanumeric token, and by free
    text for every other query.  (Without the credentials it issues none.) *)
Theorem search_by_sku_or_text :
  ∀ `{PyStr} (env : environment) (query : string) (w : world),
    (configured env →
     (numeric_looking_token query →
      http_log (snd (search_products env query w))
      = http_log w ++ [{| req_verb := GET; req_endpoint := "products";
                          req_params := [("per_page", PInt 50);
                                         ("sku", PStr query)] |}])
     ∧ (¬ numeric_looking_token query →
        http_log (snd (search_products env query w))
        = http_log w ++ [{| req_verb := GET; req_endpoint := "products";
                            req_params := [("per_page", PInt 50);
                                           ("search", PStr query)] |}]))
    ∧ (¬ configured env →
       http_log (snd (search_products env query w)) = http_log w).
Proof.
  intros ? env query w. split.
  - intros Hapi. unfold search_products. rewrite Hapi. simpl. unfold search_params.
    destruct (isalnum query && negb (isalpha query)) eqn:Htest.
    + apply sku_test_spec in Htest. split; [reflexivity | by intros []].
    + split; [|reflexivity].
      intros Htok. apply sku_test_spec in Htok. congruence.
  - intros Hapi. unfold search_products, configured in *.
    destruct (get_woocommerce_api env) as [[]|e]; [by destruct Hapi | reflexivity].
Qed.

(** ** Pages *)

Lemma total_pages_ceiling (n t : Z) :
  is_ceil_div5 n t → total_pages_of n 5 = t.
Proof.
  unfold is_ceil_div5, total_pages_of. intros Ht.
  symmetry. apply (Z.div_unique _ _ _ (n + 5 - 1 - 5 * t)); lia.
Qed.

Lemma py_slice_page {A} (l : list A) (p : Z) :
  0 ≤ p → p * 5 < Z.of_nat (length l) →
  py_slice l (p * 5) (p * 5 + 5) = page_records l p.
Proof.
  intros Hp Hlt. unfold py_slice, page_records, slice_index.
  destruct (Z.ltb_spec (p * 5) 0) as [?|_]; [lia|].
  destruct (Z.ltb_spec (p * 5 + 5) 0) as [?|_]; [lia|].
  replace (Z.min (p * 5) (Z.of_nat (length l))) with (5 * p) by lia.
  destruct (Z.le_gt_cases (p * 5 + 5) (Z.of_nat (length l))) as [Hfull|Hlast].
  - f_equal. lia.
  - rewrite !take_ge; [reflexivity| |]; rewrite length_drop; lia.
Qed.

Lemma length_page_records {A} (l : list A) (p : Z) :
  0 ≤ p → p * 5 < Z.of_nat (length l) →
  Z.of_nat (length (page_records l p)) = Z.min 5 (Z.of_nat (length l) - 5 * p).
Proof.
  intros Hp Hlt. unfold page_records. rewrite length_take, length_drop. lia.
Qed.

Lemma fetch_variations_ok (env : environment) (product_id : string) (w : world) :
  ∃ r w', fetch_variations env product_id w = (Ok r, w').
Proof.
  unfold fetch_variations. destruct (get_woocommerce_api env); by eexists _, _.
Qed.

(** *** What an entry shows *)

Lemma str_or_keeps (s d : string) : s ≠ EmptyString → str_or s d = s.
Proof. intros Hs. unfold str_or, str_truthy. by destruct s. Qed.

Lemma append_nonempty_l (a b : string) : a ≠ EmptyString → a +:+ b ≠ EmptyString.
Proof. by destruct a. Qed.

Lemma append_nonempty_r (a b : string) : b ≠ EmptyString → a +:+ b ≠ EmptyString.
Proof. by destruct a. Qed.

Lemma shown_name_code `{PyStr} (first last : option string) :
  str_or (py_strip (default EmptyString first +:+ " " +:+ default EmptyString last))
    "Unknown"
  = shown_name first last.
Proof. unfold str_or, str_truthy, shown_name. by destruct (String.eqb _ _). Qed.

(** The entry the loop of [format_orders] writes for an order. *)
Lemma order_entry_shown `{PyStr} (symbol : string) (o : order) :
  order_entry symbol o = order_shown symbol o.
Proof.
  unfold order_entry, order_shown. cbv zeta. rewrite shown_name_code.
  by destruct (o_billing o).
Qed.

(** The attributes the loop of [format_products] writes: the text it joins
    is empty for an empty list only. *)
Lemma attributes_text_shown (attributes : option (list attribute)) :
  attributes_text attributes = attributes_shown attributes.
Proof.
  unfold attributes_text, attributes_shown, join.
  destruct (default [] attributes) as [|a l]; [reflexivity|].
  apply str_or_keeps. cbn [map].
  assert (attribute_text a ≠ EmptyString) as Ha.
  { unfold attribute_text. by apply append_nonempty_r. }
  destruct l as [|b l]; cbn [map String.concat]; [exact Ha|].
  by apply append_nonempty_l.
Qed.

Lemma type_variable (p : product) :
  String.eqb (default "Simple" (p_type p)) "variable"
  = bool_decide (p_type p = Some "variable").
Proof.
  symmetry. destruct (p_type p) as [ty|].
  - change (default "Simple" (Some ty)) with ty.
    destruct (String.eqb_spec ty "variable") as [->|Hne].
    + by apply bool_decide_eq_true_2.
    + apply bool_decide_eq_false_2. congruence.
  - by apply bool_decide_eq_false_2.
Qed.

(** The entry the loop of [format_products] writes for a product. *)
Lemma product_entry_run (env : environment) (symbol : string) (p : product)
    (w : world) :
  ∃ entry w',
    product_entry env symbol p w = (Ok entry, w')
    ∧ product_entry_shown symbol p entry.
Proof.
  unfold product_entry, product_entry_shown, product_shown, variations_shown.
  cbv zeta. rewrite attributes_text_shown, type_variable, bind_run.
  destruct (bool_decide (p_type p = Some "variable")).
  - rewrite bind_run.
    destruct (fetch_variations_ok env (str_of_int (p_id p)) w) as (r & w' & ->).
    cbv beta iota.
    destruct r as [[|v vs]|].
    + eexists _, w'. split; [reflexivity|]. by exists (Some []).
    + eexists _, w'. split; [reflexivity|]. by exists (Some (v :: vs)).
    + eexists _, w'. split; [reflexivity|]. by exists None.
  - eexists _, w. split; [reflexivity|]. by exists None.
Qed.

Lemma mapM_product_entry_run
    (env : environment) (symbol : string) (l : list product) (w : world) :
  ∃ entries w',
    mapM (product_entry env symbol) l w = (Ok entries, w')
    ∧ Forall2 (product_entry_shown symbol) l entries.
Proof.
  revert w. induction l as [|p l IH]; intros w.
  - exists [], w. split; [reflexivity | constructor].
  - destruct (product_entry_run env symbol p w) as (s & w1 & Hs & Hshown).
    destruct (IH w1) as (entries & w2 & Hentries & Hall).
    exists (s :: entries), w2. simpl. unfold mbind, M_bind.
    rewrite Hs, Hentries. split; [reflexivity | by constructor].
Qed.

(** C2: of a list of n records, n at least 1, with t the ceiling of n / 5,
    page p with 0 <= p < t is written from min(5, n - 5p) entries, one for
    each record of that page, in their order, each telling its record (a
    product with its id, name, type, SKU, price, stock, attributes and,
    when it is variable, its variations, over a rule; an order with its
    id, customer, total and status), and ends with the footer Page p+1 of
    t; a page p with p >= t is the no-more sentence, for the products and
    for the orders. *)
Theorem pages_of_five :
  ∀ `{PyStr} (env : environment) (currency : string),
    (∀ (products : list product) (p t : Z) (w : world),
       products ≠ [] →
       is_ceil_div5 (Z.of_nat (length products)) t →
       (0 ≤ p < t →
        ∃ entries markup w',
          format_products env products p 5 currency w
          = (Ok ("🛍️ **Product List**" +:+ nl +:+ nl
                 +:+ String.concat EmptyString entries
                 +:+ "Page " +:+ str_of_int (p + 1) +:+ " of " +:+ str_of_int t,
                 markup), w')
          ∧ Z.of_nat (length entries)
            = Z.min 5 (Z.of_nat (length products) - 5 * p)
          ∧ Forall2 (product_entry_shown (currency_symbol currency))
              (page_records products p) entries)
       ∧ (t ≤ p →
          format_products env products p 5 currency w
          = (Ok ("No more products to show.", None), w)))
    ∧ (∀ (orders : list order) (p t : Z),
         orders ≠ [] →
         is_ceil_div5 (Z.of_nat (length orders)) t →
         (0 ≤ p < t →
          ∃ entries markup,
            format_orders orders p 5 currency
            = Ok ("📦 **Recent Orders**" +:+ nl +:+ nl
                  +:+ String.concat EmptyString entries
                  +:+ "Page " +:+ str_of_int (p + 1) +:+ " of " +:+ str_of_int t,
                  markup)
            ∧ Z.of_nat (length entries)
              = Z.min 5 (Z.of_nat (length orders) - 5 * p)
            ∧ entries
              = map (order_shown (currency_symbol currency)) (page_records orders p))
         ∧ (t ≤ p →
            format_orders orders p 5 currency
            = Ok ("No more orders to show.", None))).
Proof.
  intros ? env currency. split.
  - intros products p t w Hne Ht.
    pose proof (total_pages_ceiling _ _ Ht) as Htotal.
    unfold is_ceil_div5 in Ht.
    destruct products as [|p0 ps]; [done|].
    unfold format_products. cbv beta iota.
    remember (p0 :: ps) as products eqn:Hps.
    change (5 =? 0) with false. cbv iota.
    split.
    + intros Hp.
      assert (p * 5 < Z.of_nat (length products)) as Hlt by lia.
      destruct (mapM_product_entry_run env (currency_symbol currency)
                  (page_records products p) w) as (entries & w' & Hrun & Hall).
      eexists entries, _, w'. split; [|split; [|exact Hall]].
      * destruct (Z.geb_spec (p * 5) (Z.of_nat (length products))) as [?|_]; [lia|].
        rewrite py_slice_page by lia.
        unfold mbind, M_bind. rewrite Hrun.
        unfold page_footer. rewrite Htotal. reflexivity.
      * rewrite <- (Forall2_length _ _ _ Hall). apply length_page_records; lia.
    + intros Hp.
      destruct (Z.geb_spec (p * 5) (Z.of_nat (length products))) as [_|?]; [|lia].
      reflexivity.
  - intros orders p t Hne Ht.
    pose proof (total_pages_ceiling _ _ Ht) as Htotal.
    unfold is_ceil_div5 in Ht.
    destruct orders as [|o0 os]; [done|].
    unfold format_orders. cbv beta iota.
    remember (o0 :: os) as orders eqn:Hos.
    change (5 =? 0) with false. cbv iota.
    split.
    + intros Hp.
      assert (p * 5 < Z.of_nat (length orders)) as Hlt by lia.
      eexists _, _. split; [|split; [|reflexivity]].
      * destruct (Z.geb_spec (p * 5) (Z.of_nat (length orders))) as [?|_]; [lia|].
        rewrite py_slice_page by lia.
        unfold page_footer. rewrite Htotal.
        rewrite (map_ext _ _ (order_entry_shown (currency_symbol currency))).
        reflexivity.
      * rewrite length_map. apply length_page_records; lia.
    + intros Hp.
      destruct (Z.geb_spec (p * 5) (Z.of_nat (length orders))) as [_|?]; [|lia].
      reflexivity.
Qed.

(** ** The authorization gate *)

Section Gate.
Context `{PyStr} (env : environment).

Lemma check_admin_invalid (u : update) (w : world) (e : exn) :
  admin_ids env = Raise e → check_admin env u w = (Raise e, w).
Proof. intros Hids. unfold check_admin, mbind, M_bind, lift. by rewrite Hids. Qed.

Lemma check_admin_allowed (u : update) (w : world) :
  authorized env (sender u) → check_admin env u w = (Ok true, w).
Proof.
  intros (ids & Hids & Hin).
  unfold check_admin, mbind, M_bind, lift, get_bot_data. rewrite Hids.
  rewrite bool_decide_eq_true_2 by exact Hin.
  destruct ids; [inversion Hin | reflexivity].
Qed.

Lemma check_admin_denied (u : update) (w : world) (ids : list Z) :
  admin_ids env = Ok ids → sender u ∉ ids →
  check_admin env u w
  = (if delivered env (length (chat_log w)) then Ok false else Raise TelegramError,
     log_chat (denial_call u (get_language (bot_data w))) w).
Proof.
  intros Hids Hout.
  unfold check_admin, mbind, M_bind, lift, get_bot_data. rewrite Hids.
  rewrite bool_decide_eq_false_2 by exact Hout.
  rewrite orb_true_r. unfold chat, denial_call.
  destruct u; by destruct (delivered env _).
Qed.

(** A handler that starts with the check does nothing more for a sender
    outside the allow-list. *)
Lemma guarded_denied (u : update) (body : M unit) (w : world) (ids : list Z) :
  admin_ids env = Ok ids → sender u ∉ ids →
  snd ((ok ← check_admin env u; if negb ok then mret tt else body) w)
  = log_chat (denial_call u (get_language (bot_data w))) w.
Proof.
  intros Hids Hout. unfold mbind, M_bind.
  rewrite (check_admin_denied _ _ _ Hids Hout).
  by destruct (delivered env _).
Qed.

End Gate.

(** C7: for a sender outside the allow-list read from the configuration
    (the empty list included), whatever the command, button or text, the
    handler leaves the settings, the input flags of every conversation and
    the settings file as they were, issues no remote call, and the only
    text it shows is the not-authorized message (the chat calls it issues
    are the denial, after the acknowledgement of the press for a button;
    when that acknowledgement does not go through, nothing is shown). *)
Theorem unauthorized_is_denied :
  ∀ `{PyStr} (env : environment)
    (unmodelled_command : command → update → M unit)
    (unmodelled_callback : string → M unit)
    (ids : list Z) (e : event) (w : world),
    admin_ids env = Ok ids →
    event_sender e ∉ ids →
    let w' := after env unmodelled_command unmodelled_callback e w in
    bot_data w' = bot_data w
    ∧ user_data w' = user_data w
    ∧ settings_file w' = settings_file w
    ∧ http_log w' = http_log w
    ∧ ∃ calls,
        chat_log w' = chat_log w ++ calls
        ∧ (omap shown_text calls = [msg_not_authorized (get_language (bot_data w))]
           ∨ (calls = [AnswerCallback]
              ∧ delivered env (length (chat_log w)) = false)).
Proof.
  intros ? env ucmd ucb ids e w Hids Hout. unfold after, dispatch.
  destruct e as [c uid name text args | uid name text | uid data];
    unfold event_sender in Hout.
  - assert (snd (command_handler env ucmd c (Message uid name text args) w)
            = log_chat (denial_call (Message uid name text args)
                          (get_language (bot_data w))) w) as ->.
    { destruct c;
        unfold command_handler, start, settings, help_command,
          products, orders;
        by apply (guarded_denied env _ _ _ ids). }
    repeat split. eexists. split; [reflexivity|]. by left.
  - unfold handle_text.
    rewrite (guarded_denied env _ _ _ ids) by assumption.
    repeat split. eexists. split; [reflexivity|]. by left.
  - unfold button. rewrite bind_run, chat_run.
    destruct (delivered env (length (chat_log w))) eqn:Hack; cbv beta iota.
    + rewrite (guarded_denied env _ _ _ ids) by assumption.
      repeat split. eexists. split; [apply eq_sym, app_assoc|]. by left.
    + repeat split. eexists. split; [reflexivity|]. by right.
Qed.

(** ** Input flags *)

Lemma flags_of_put_user_data (uid : Z) (f : flags) (w : world) :
  flags_of (put_user_data uid f w) uid = f.
Proof. unfold flags_of, put_user_data. simpl. by rewrite lookup_insert_eq. Qed.

Lemma active_currency (f : flags) :
  active_mode f = AwaitingCurrency →
  awaiting_threshold f = false ∧ awaiting_watch_product f = false
  ∧ awaiting_currency f = true.
Proof.
  unfold active_mode.
  destruct (awaiting_threshold f), (awaiting_watch_product f), (awaiting_currency f);
    by intros.
Qed.

Lemma active_threshold (f : flags) :
  active_mode f = AwaitingThreshold → awaiting_threshold f = true.
Proof.
  unfold active_mode.
  destruct (awaiting_threshold f), (awaiting_watch_product f), (awaiting_currency f);
    by intros.
Qed.

Lemma currency_known (c : string) :
  dict_mem CURRENCY_SYMBOLS c = true → c ∈ ["USD"; "EUR"; "IRR"; "IRT"].
Proof.
  unfold dict_mem, CURRENCY_SYMBOLS. simpl.
  rewrite !orb_true_iff, !String.eqb_eq.
  intros [->|[->|[->|[->|?]]]]; [set_solver..|discriminate].
Qed.

Lemma fetch_products_frame (env : environment) (w : world) :
  ∃ r w', fetch_products env w = (Ok r, w')
          ∧ user_data w' = user_data w ∧ chat_log w' = chat_log w
          ∧ bot_data w' = bot_data w.
Proof.
  unfold fetch_products. destruct (get_woocommerce_api env); by eexists _, _.
Qed.

Section Flags.
Context `{PyStr} (env : environment).
Context (ucmd : command → update → M unit) (ucb : string → M unit).

(** The check shows at most the denial: it never touches the flags, and it
    leaves the state as it was when it lets the sender in. *)
Lemma check_admin_cases (u : update) (w : world) :
  check_admin env u w = (Ok true, w)
  ∨ ∃ r w', check_admin env u w = (r, w') ∧ r ≠ Ok true
            ∧ user_data w' = user_data w ∧ bot_data w' = bot_data w.
Proof.
  destruct (admin_ids env) as [ids|e] eqn:Hids.
  - destruct (decide (sender u ∈ ids)) as [Hin|Hout].
    + left. apply check_admin_allowed. by exists ids.
    + right. rewrite (check_admin_denied env _ _ _ Hids Hout).
      eexists _, _. split; [reflexivity|]. split; [|by split].
      by destruct (delivered env _).
  - right. rewrite (check_admin_invalid env _ _ _ Hids).
    eexists _, _. split; [reflexivity|]. by split.
Qed.

Lemma flags_of_frame (w w' : world) (uid : Z) :
  user_data w' = user_data w → flags_of w' uid = flags_of w uid.
Proof. unfold flags_of. by intros ->. Qed.

(** A prompt keeps the flags or sets its own. *)
Lemma prompt_flags (uid : Z) (m : mode) (w : world) (Q : world → Prop) :
  (∀ w', flags_of w' uid = flags_of w uid → Q w') →
  (∀ w', flags_of w' uid = set_flag m true (flags_of w uid) → Q w') →
  Q (after env ucmd ucb (OnButton uid (prompt_token m)) w).
Proof.
  intros Hkeep Hset. unfold after, dispatch, button.
  rewrite bind_run, chat_run.
  destruct (delivered env (length (chat_log w))); cbv beta iota;
    [|by apply Hkeep].
  rewrite bind_run.
  destruct (check_admin_cases (CallbackQuery uid (prompt_token m))
              (log_chat AnswerCallback w)) as [-> | (r & w' & -> & Hr & Hud & Hbd)].
  2: { apply Hkeep. destruct r as [[|]|e]; try done; by apply flags_of_frame. }
  step_if_not_ok.
  step_read.
  destruct m; unfold prompt_token, startswith;
    simpl (String.eqb _ _); simpl (String.prefix _ _); cbv beta iota.
  - by apply Hkeep.
  - rewrite bind_run, chat_run.
    destruct (delivered env _); cbv beta iota; [|by apply Hkeep].
    step_flags.
    apply Hset. unfold set_user_data, snd. by rewrite flags_of_put_user_data.
  - rewrite bind_run, chat_run.
    destruct (delivered env _); cbv beta iota; [|by apply Hkeep].
    step_flags.
    apply Hset. unfold set_user_data, snd. by rewrite flags_of_put_user_data.
  - rewrite bind_run, chat_run.
    destruct (delivered env _); cbv beta iota; [|by apply Hkeep].
    step_flags.
    apply Hset. unfold set_user_data, snd. by rewrite flags_of_put_user_data.
Qed.

(** A reply keeps the flags or clears the one it is served under. *)
Lemma reply_flags (uid : Z) (name text : string) (w : world) (Q : world → Prop) :
  (∀ w', flags_of w' uid = flags_of w uid → Q w') →
  (∀ w', flags_of w' uid
         = set_flag (active_mode (flags_of w uid)) false (flags_of w uid) → Q w') →
  Q (after env ucmd ucb (OnText uid name text) w).
Proof.
  intros Hkeep Hclear. unfold after, dispatch, handle_text.
  rewrite bind_run.
  destruct (check_admin_cases (Message uid name text []) w)
    as [-> | (r & w' & -> & Hr & Hud & Hbd)].
  2: { apply Hkeep. destruct r as [[|]|e]; try done; by apply flags_of_frame. }
  step_if_not_ok.
  step_read.
  step_flags.
  unfold active_mode in Hclear.
  destruct (awaiting_threshold (flags_of w uid)) eqn:Ht.
  { unfold try_ValueError. rewrite bind_run. unfold int_of.
    destruct (py_int text) as [n|]; unfold mret, M_ret, raise; cbv beta iota.
    2: { rewrite chat_run. by apply Hkeep. }
    destruct (n <? 0); cbv beta iota.
    { rewrite chat_run. by apply Hkeep. }
    step_read.
    step_write.
    rewrite bind_run, chat_run.
    destruct (delivered env _); cbv beta iota; [|by apply Hkeep].
    step_save.
    step_flags.
    apply Hclear. unfold set_user_data, snd. by rewrite flags_of_put_user_data. }
  destruct (awaiting_watch_product (flags_of w uid)) eqn:Hw.
  { unfold try_ValueError. rewrite bind_run. unfold int_of.
    destruct (py_int text) as [n|]; unfold mret, M_ret, raise; cbv beta iota.
    2: { rewrite chat_run. by apply Hkeep. }
    rewrite bind_run.
    destruct (fetch_products_frame env w) as (ps & w1 & -> & Hud & Hcl & _).
    cbv beta iota. rewrite bind_run.
    destruct (has_product ps n); cbv beta iota.
    2: { rewrite chat_run. apply Hkeep. by apply flags_of_frame. }
    step_read.
    step_write.
    rewrite bind_run, chat_run.
    destruct (delivered env _); cbv beta iota;
      [|apply Hkeep; by apply flags_of_frame].
    unfold save_settings at 1. cbv beta iota.
    step_flags.
    apply Hclear. unfold set_user_data, snd. rewrite flags_of_put_user_data.
    f_equal. by apply flags_of_frame. }
  destruct (awaiting_currency (flags_of w uid)) eqn:Hc.
  { destruct (dict_mem CURRENCY_SYMBOLS (py_upper text)).
    2: { rewrite chat_run. by apply Hkeep. }
    step_read.
    step_write.
    rewrite bind_run, chat_run.
    destruct (delivered env _); cbv beta iota; [|by apply Hkeep].
    step_save.
    step_flags.
    apply Hclear. unfold set_user_data, snd. by rewrite flags_of_put_user_data. }
  by apply Hkeep.
Qed.

(** An authorized prompt that is delivered sets its flag. *)
Lemma prompt_sets (uid : Z) (m : mode) (w : world) :
  authorized env uid → (∀ n, delivered env n = true) → m ≠ NoMode →
  flags_of (after env ucmd ucb (OnButton uid (prompt_token m)) w) uid
  = set_flag m true (flags_of w uid).
Proof.
  intros Hauth Hdel Hm. unfold after, dispatch, button.
  rewrite bind_run, chat_run, Hdel. cbv beta iota.
  rewrite bind_run, check_admin_allowed by exact Hauth.
  step_if_not_ok.
  step_read.
  destruct m; [done|..]; unfold prompt_token;
    simpl (String.eqb _ _); cbv beta iota;
    rewrite bind_run, chat_run, Hdel; cbv beta iota;
    step_flags;
    unfold set_user_data, snd; by rewrite flags_of_put_user_data.
Qed.

(** An authorized reply with a threshold that parses clears the flag. *)
Lemma threshold_reply_clears (uid : Z) (name text : string) (n : Z) (w : world) :
  authorized env uid → (∀ n, delivered env n = true) →
  active_mode (flags_of w uid) = AwaitingThreshold →
  py_int text = Some n → 0 ≤ n →
  flags_of (after env ucmd ucb (OnText uid name text) w) uid
  = set_flag AwaitingThreshold false (flags_of w uid).
Proof.
  intros Hauth Hdel Hmode Hint Hn.
  pose proof (active_threshold _ Hmode) as Ht.
  unfold after, dispatch, handle_text.
  rewrite bind_run, check_admin_allowed by exact Hauth.
  step_if_not_ok.
  step_read.
  step_flags. rewrite Ht.
  unfold try_ValueError. rewrite bind_run. unfold int_of. rewrite Hint.
  unfold mret, M_ret. cbv beta iota.
  destruct (Z.ltb_spec n 0) as [?|_]; [lia|].
  step_read.
  step_write.
  rewrite bind_run, chat_run, Hdel. cbv beta iota.
  step_save.
  step_flags.
  unfold set_user_data, snd. by rewrite flags_of_put_user_data.
Qed.

Lemma active_watch (f : flags) :
  active_mode f = AwaitingWatch →
  awaiting_threshold f = false ∧ awaiting_watch_product f = true.
Proof.
  unfold active_mode.
  destruct (awaiting_threshold f), (awaiting_watch_product f), (awaiting_currency f);
    by intros.
Qed.

(** An authorized reply with the id of a product of the store clears the
    flag. *)
Lemma watch_reply_clears (uid : Z) (name text : string) (n : Z)
    (products : list product) (w : world) :
  authorized env uid → (∀ n, delivered env n = true) →
  active_mode (flags_of w uid) = AwaitingWatch →
  py_int text = Some n →
  configured env →
  products_response env (length (http_log w)) = Some products →
  (∃ p, p ∈ products ∧ p_id p = n) →
  flags_of (after env ucmd ucb (OnText uid name text) w) uid
  = set_flag AwaitingWatch false (flags_of w uid).
Proof.
  intros Hauth Hdel Hmode Hint Hapi Hfetch (p & Hp & Hid).
  destruct (active_watch _ Hmode) as (Ht & Hw).
  assert (has_product (Some products) n = true) as Hhas.
  { simpl. apply existsb_exists. exists p.
    split; [by apply list_elem_of_In | by apply Z.eqb_eq]. }
  unfold after, dispatch, handle_text.
  rewrite bind_run, check_admin_allowed by exact Hauth.
  step_if_not_ok. step_read. step_flags. rewrite Ht, Hw.
  unfold try_ValueError. rewrite bind_run. unfold int_of. rewrite Hint.
  unfold mret at 1, M_ret at 1. cbv beta iota.
  rewrite bind_run, fetch_products_run by exact Hapi.
  rewrite Hfetch. cbv beta iota. rewrite Hhas.
  rewrite bind_run. step_read. step_write.
  rewrite bind_run, chat_run, Hdel. cbv beta iota.
  unfold save_settings at 1. cbv beta iota.
  step_flags.
  unfold set_user_data, snd. by rewrite flags_of_put_user_data.
Qed.

(** An authorized reply with one of the four currency codes clears the
    flag. *)
Lemma currency_reply_clears (uid : Z) (name text : string) (w : world) :
  authorized env uid → (∀ n, delivered env n = true) →
  active_mode (flags_of w uid) = AwaitingCurrency →
  py_upper text ∈ ["USD"; "EUR"; "IRR"; "IRT"] →
  flags_of (after env ucmd ucb (OnText uid name text) w) uid
  = set_flag AwaitingCurrency false (flags_of w uid).
Proof.
  intros Hauth Hdel Hmode Hcode.
  assert (dict_mem CURRENCY_SYMBOLS (py_upper text) = true) as Hmem.
  { repeat (apply elem_of_cons in Hcode as [->|Hcode]; [reflexivity|]).
    inversion Hcode. }
  destruct (active_currency _ Hmode) as (Ht & Hw & Hc).
  unfold after, dispatch, handle_text.
  rewrite bind_run, check_admin_allowed by exact Hauth.
  step_if_not_ok.
  step_read.
  step_flags. rewrite Ht, Hw, Hc, Hmem.
  step_read.
  step_write.
  rewrite bind_run, chat_run, Hdel. cbv beta iota.
  step_save.
  step_flags.
  unfold set_user_data, snd. by rewrite flags_of_put_user_data.
Qed.

(** A reply that is no currency code, to a conversation whose
    awaiting-currency flag is set: whoever sends it and whatever else is
    pending, the currency stays and so does the flag. *)
Lemma reply_unknown_currency (uid : Z) (name text : string) (w : world)
    (Q : world → Prop) :
  awaiting_currency (flags_of w uid) = true →
  dict_mem CURRENCY_SYMBOLS (py_upper text) = false →
  (∀ w', currency (bot_data w') = currency (bot_data w) →
         awaiting_currency (flags_of w' uid) = true → Q w') →
  Q (after env ucmd ucb (OnText uid name text) w).
Proof.
  intros Hc Hmem Hkeep. unfold after, dispatch, handle_text.
  rewrite bind_run.
  destruct (check_admin_cases (Message uid name text []) w)
    as [-> | (r & w' & -> & Hr & Hud & Hbd)].
  2: { destruct r as [[|]|e]; try done;
         (apply (Hkeep w'); [by rewrite Hbd | by rewrite (flags_of_frame w w')]). }
  step_if_not_ok. step_read. step_flags.
  destruct (awaiting_threshold (flags_of w uid)) eqn:Ht.
  { unfold try_ValueError. rewrite bind_run. unfold int_of.
    destruct (py_int text) as [n|]; unfold mret, M_ret, raise; cbv beta iota.
    2: { rewrite chat_run. by apply Hkeep. }
    destruct (n <? 0); cbv beta iota.
    { rewrite chat_run. by apply Hkeep. }
    step_read. step_write.
    rewrite bind_run, chat_run.
    destruct (delivered env _); cbv beta iota; [|by apply Hkeep].
    step_save. step_flags.
    apply Hkeep; [reflexivity|].
    unfold set_user_data, snd. by rewrite flags_of_put_user_data. }
  destruct (awaiting_watch_product (flags_of w uid)) eqn:Hw.
  { unfold try_ValueError. rewrite bind_run. unfold int_of.
    destruct (py_int text) as [n|]; unfold mret, M_ret, raise; cbv beta iota.
    2: { rewrite chat_run. by apply Hkeep. }
    rewrite bind_run.
    destruct (fetch_products_frame env w) as (ps & w1 & -> & Hud & Hcl & Hbd).
    cbv beta iota. rewrite bind_run.
    destruct (has_product ps n); cbv beta iota.
    2: { rewrite chat_run. apply Hkeep; simpl; [by rewrite Hbd|].
         by rewrite (flags_of_frame w). }
    step_read. step_write.
    rewrite bind_run, chat_run.
    destruct (delivered env _); cbv beta iota;
      [|apply Hkeep; simpl; [by rewrite Hbd | by rewrite (flags_of_frame w)]].
    unfold save_settings at 1. cbv beta iota.
    step_flags.
    apply Hkeep; simpl; [by rewrite Hbd|].
    unfold set_user_data, snd. rewrite flags_of_put_user_data. simpl.
    by rewrite (flags_of_frame w). }
  rewrite Hc, Hmem. rewrite chat_run. by apply Hkeep.
Qed.

End Flags.

Lemma flags_set_clear (m : mode) (f : flags) :
  (flags_set (set_flag m false f) ≤ flags_set f)%nat.
Proof.
  unfold flags_set. destruct m; simpl;
    destruct (awaiting_threshold f), (awaiting_watch_product f),
      (awaiting_currency f); simpl; lia.
Qed.

Lemma flags_set_first (m : mode) (f : flags) :
  flags_set f = 0%nat → (flags_set (set_flag m true f) ≤ 1)%nat.
Proof.
  unfold flags_set. destruct m; simpl;
    destruct (awaiting_threshold f), (awaiting_watch_product f),
      (awaiting_currency f); simpl; lia.
Qed.

(** C3 as the specification states it fails: an administrator who presses
    Set Threshold and then Watch Product is left with two flags true. *)
Lemma two_prompts_two_flags :
  ¬ at_most_one
      (flags_of
         (run_events (H := ascii_text) store_down no_command no_callback
            [OnButton 1 "set_threshold"; OnButton 1 "watch_product"]
            initial_world) 1).
Proof. unfold at_most_one. vm_compute. lia. Qed.

(** C3, amended: the three flags are independent.  A prompt changes the
    flags of the conversation at most by setting its own, and sets it when
    the sender is authorized and the chat calls go through; the other two
    stay as they were, so several can be true at once.  A free-text reply
    changes at most the flag it is served under, the first set one in the
    order threshold, watch-product, currency, which it clears (it does for
    a threshold that parses to a number from 0 on, for the id of a product
    of the store, and for one of the four currency codes); so a reply never
    adds a set flag, and at most one flag is true after a prompt issued
    while none was pending. *)
Theorem awaiting_flags_steps :
  ∀ `{PyStr} (env : environment)
    (unmodelled_command : command → update → M unit)
    (unmodelled_callback : string → M unit)
    (uid : Z) (w : world),
    let f := flags_of w uid in
    let after_prompt m :=
      flags_of (after env unmodelled_command unmodelled_callback
                  (OnButton uid (prompt_token m)) w) uid in
    let after_reply name text :=
      flags_of (after env unmodelled_command unmodelled_callback
                  (OnText uid name text) w) uid in
    (∀ m, after_prompt m = f ∨ after_prompt m = set_flag m true f)
    ∧ (∀ m, flags_set f = 0%nat → at_most_one (after_prompt m))
    ∧ (∀ name text,
         (after_reply name text = f
          ∨ after_reply name text = set_flag (active_mode f) false f)
         ∧ (flags_set (after_reply name text) ≤ flags_set f)%nat)
    ∧ (authorized env uid → (∀ n, delivered env n = true) →
       (∀ m, m ≠ NoMode → after_prompt m = set_flag m true f)
       ∧ (∀ name text n,
            active_mode f = AwaitingThreshold → py_int text = Some n → 0 ≤ n →
            after_reply name text = set_flag AwaitingThreshold false f)
       ∧ (∀ name text n products,
            active_mode f = AwaitingWatch → py_int text = Some n →
            configured env →
            products_response env (length (http_log w)) = Some products →
            (∃ p, p ∈ products ∧ p_id p = n) →
            after_reply name text = set_flag AwaitingWatch false f)
       ∧ (∀ name text,
            active_mode f = AwaitingCurrency →
            py_upper text ∈ ["USD"; "EUR"; "IRR"; "IRT"] →
            after_reply name text = set_flag AwaitingCurrency false f)).
Proof.
  intros ? env ucmd ucb uid w f after_prompt after_reply.
  subst f after_prompt after_reply. cbv beta.
  split; [|split; [|split]].
  - intros m. apply (prompt_flags env ucmd ucb uid m w); intros w' Hw'; auto.
  - intros m Hzero. unfold at_most_one.
    apply (prompt_flags env ucmd ucb uid m w); intros w' ->.
    + lia.
    + by apply flags_set_first.
  - intros name text.
    apply (reply_flags env ucmd ucb uid name text w); intros w' ->.
    + split; [by left | lia].
    + split; [by right | apply flags_set_clear].
  - intros Hauth Hdel. split; [|split; [|split]].
    + intros m Hm. by apply prompt_sets.
    + intros name text n Hmode Hint Hn. by eapply threshold_reply_clears.
    + intros name text n products Hmode Hint Hapi Hfetch Hp.
      by eapply watch_reply_clears.
    + intros name text Hmode Hcode. by apply currency_reply_clears.
Qed.

Lemma currency_unknown (c : string) :
  c ∉ ["USD"; "EUR"; "IRR"; "IRT"] → dict_mem CURRENCY_SYMBOLS c = false.
Proof.
  intros Hc. destruct (dict_mem CURRENCY_SYMBOLS c) eqn:Hmem; [|reflexivity].
  apply currency_known in Hmem. by destruct Hc.
Qed.

(** C8: a free-text reply whose uppercased text is none of USD, EUR, IRR
    and IRT, sent while the awaiting-currency flag of the conversation is
    set, leaves the currency setting as it was and the flag set, whoever
    sends it and whatever else is pending; when it is served in the
    awaiting-currency mode (the sender an administrator, no flag of higher
    rank set) it changes nothing in the settings and the flags, saves
    nothing, and shows the invalid-currency message. *)
Theorem unknown_currency_keeps_mode :
  ∀ `{PyStr} (env : environment)
    (unmodelled_command : command → update → M unit)
    (unmodelled_callback : string → M unit)
    (uid : Z) (name text : string) (w : world),
    awaiting_currency (flags_of w uid) = true →
    py_upper text ∉ ["USD"; "EUR"; "IRR"; "IRT"] →
    let w' := after env unmodelled_command unmodelled_callback
                (OnText uid name text) w in
    currency (bot_data w') = currency (bot_data w)
    ∧ awaiting_currency (flags_of w' uid) = true
    ∧ (authorized env uid →
       active_mode (flags_of w uid) = AwaitingCurrency →
       bot_data w' = bot_data w
       ∧ user_data w' = user_data w
       ∧ settings_file w' = settings_file w
       ∧ chat_log w'
         = chat_log w
           ++ [ReplyText (msg_currency_error (get_language (bot_data w)))
                 false None]).
Proof.
  intros ? env ucmd ucb uid name text w Hflag Hcode w'.
  pose proof (currency_unknown _ Hcode) as Hmem.
  split; [|split].
  - subst w'. by apply (reply_unknown_currency env ucmd ucb uid name text w).
  - subst w'. by apply (reply_unknown_currency env ucmd ucb uid name text w).
  - intros Hauth Hmode.
    assert (w' = log_chat (ReplyText (msg_currency_error (get_language (bot_data w)))
                             false None) w) as ->; [|done].
    subst w'. unfold after, dispatch, handle_text.
    rewrite bind_run, check_admin_allowed by exact Hauth.
    step_if_not_ok. step_read. step_flags.
    destruct (active_currency _ Hmode) as (Ht & Hw & Hc).
    rewrite Ht, Hw, Hc, Hmem. cbv beta iota.
    rewrite chat_run. reflexivity.
Qed.

(** ** Toggles *)

Section Toggles.
Context `{PyStr} (env : environment).
Context (ucmd : command → update → M unit) (ucb : string → M unit).

(** The state after an authorized, delivered press on Toggle Low Stock. *)
Lemma toggle_low_stock_run (uid : Z) (w : world) :
  authorized env uid → (∀ n, delivered env n = true) →
  after env ucmd ucb (OnButton uid "toggle_low_stock") w
  = let v := negb (default true (notify_low_stock (bot_data w))) in
    let bd := with_notify_low_stock v (bot_data w) in
    write_settings_file (settings_dump bd)
      (log_chat
         (EditMessageText
            (msg_toggle_low_stock (get_language (bot_data w)) (enabled_text v))
            false None)
         (put_bot_data bd (log_chat AnswerCallback w))).
Proof.
  intros Hauth Hdel. unfold after, dispatch, button.
  rewrite bind_run, chat_run, Hdel. cbv beta iota.
  rewrite bind_run, check_admin_allowed by exact Hauth.
  step_if_not_ok. step_read.
  simpl (String.eqb _ _). cbv beta iota zeta.
  step_write.
  rewrite bind_run, chat_run, Hdel. cbv beta iota.
  reflexivity.
Qed.

(** X4: two presses on Toggle Low Stock give the setting its first value
    back and write the settings file twice. *)
Lemma toggle_twice (uid : Z) (w : world) :
  authorized env uid → (∀ n, delivered env n = true) →
  let w2 := run_events env ucmd ucb
              [OnButton uid "toggle_low_stock"; OnButton uid "toggle_low_stock"] w in
  default true (notify_low_stock (bot_data w2))
  = default true (notify_low_stock (bot_data w))
  ∧ length (settings_file w2) = S (S (length (settings_file w))).
Proof.
  intros Hauth Hdel w2. subst w2. unfold run_events.
  rewrite !toggle_low_stock_run by assumption.
  simpl. split.
  - apply negb_involutive.
  - rewrite !length_app. simpl. lia.
Qed.

End Toggles.

(** ** The statements at concrete inputs *)

Lemma authorized_sample (answers : nat → option (list product)) :
  authorized (H := ascii_text) (sample_env answers) 1.
Proof. exists [1]. split; [reflexivity | apply list_elem_of_here]. Defined.

Lemma watched_not_duplicated_witness :
  check_low_stock (store_of [product_1; product_2]) world_watching_2
  = (Ok tt,
     log_chat
       (SendMessage "77"
          ("⚠️ **Low Stock Alert**" +:+ nl +:+ nl
           +:+ "ID: 1 | Mug" +:+ nl +:+ "Price: $4.50 | Stock: 3" +:+ nl +:+ nl
           +:+ "ID: 2 | Cap" +:+ nl +:+ "Price: $9.00 | Stock: 10" +:+ nl +:+ nl)
          true)
       (log_http products_request world_watching_2))
  ∧ occurrences product_2 (filter (known_low 10) [product_1; product_2]) = 1%nat.
Proof.
  destruct (watched_not_duplicated (store_of [product_1; product_2]) world_watching_2
              "77" "2" [product_1; product_2] product_2 10 0%nat)
    as (_ & (items & Hitems & Hrun) & _ & Honce).
  - repeat split; reflexivity.
  - reflexivity.
  - lia.
  - intros i Hi. lia.
  - reflexivity.
  - by left.
  - reflexivity.
  - reflexivity.
  - apply (bool_decide_unpack _). vm_compute. exact I.
  - split.
    + rewrite Hrun.
      change (filter (known_low 10) [product_1; product_2])
        with [product_1; product_2] in Hitems.
      apply Forall2_cons_inv_l in Hitems as (i1 & rest1 & (q1 & Hq1 & ->) & Hitems & ->).
      apply Forall2_cons_inv_l in Hitems as (i2 & rest2 & (q2 & Hq2 & ->) & Hitems & ->).
      apply Forall2_nil_inv_l in Hitems as ->.
      injection Hq1 as <-. injection Hq2 as <-. reflexivity.
    + apply Honce. apply (bool_decide_unpack _). vm_compute. exact I.
Defined.

Lemma update_without_values_witness :
  update_product store_down "42" None None None initial_world
  = (Ok (false, "No updates provided."), initial_world).
Proof.
  apply (update_without_values store_down "42" None initial_world).
  reflexivity.
Defined.

Lemma unknown_currency_keeps_mode_witness :
  let w' := after (H := ascii_text) store_down no_command no_callback
              (OnText 1 "Ann" "usdx") world_awaiting_currency in
  currency (bot_data w') = currency (bot_data world_awaiting_currency)
  ∧ awaiting_currency (flags_of w' 1) = true
  ∧ chat_log w'
    = chat_log world_awaiting_currency
      ++ [ReplyText
            (msg_currency_error (get_language (bot_data world_awaiting_currency)))
            false None].
Proof.
  destruct (unknown_currency_keeps_mode (H := ascii_text) store_down no_command
              no_callback 1 "Ann" "usdx" world_awaiting_currency)
    as (Hcurrency & Hflag & Hserved).
  - reflexivity.
  - apply (bool_decide_unpack _). vm_compute. exact I.
  - destruct Hserved as (_ & _ & _ & Hshown).
    + apply authorized_sample.
    + reflexivity.
    + split; [exact Hcurrency|]. split; [exact Hflag | exact Hshown].
Defined.

Lemma unauthorized_is_denied_witness :
  let e := OnCommand Products 2 "Eve" "/products" [] in
  let w' := after (H := ascii_text) store_down no_command no_callback e initial_world in
  bot_data w' = bot_data initial_world
  ∧ user_data w' = user_data initial_world
  ∧ settings_file w' = settings_file initial_world
  ∧ http_log w' = http_log initial_world
  ∧ ∃ calls,
      chat_log w' = chat_log initial_world ++ calls
      ∧ (omap shown_text calls
         = [msg_not_authorized (get_language (bot_data initial_world))]
         ∨ (calls = [AnswerCallback]
            ∧ delivered store_down (length (chat_log initial_world)) = false)).
Proof.
  apply (unauthorized_is_denied (H := ascii_text) store_down no_command no_callback
           [1] (OnCommand Products 2 "Eve" "/products" []) initial_world).
  - reflexivity.
  - apply (bool_decide_unpack _). vm_compute. exact I.
Defined.

Lemma search_by_sku_or_text_witness :
  http_log (snd (search_products (H := ascii_text) store_down "abc123" initial_world))
  = http_log initial_world
    ++ [{| req_verb := GET; req_endpoint := "products";
           req_params := [("per_page", PInt 50); ("sku", PStr "abc123")] |}].
Proof.
  apply (search_by_sku_or_text (H := ascii_text) store_down "abc123" initial_world).
  - reflexivity.
  - apply sku_test_spec. reflexivity.
Defined.

Lemma pages_of_five_witness :
  (∃ markup,
     format_orders (H := ascii_text) seven_orders 1 5 "USD"
     = Ok ("📦 **Recent Orders**" +:+ nl +:+ nl
           +:+ "ID: 6 | Customer: Ann" +:+ nl
           +:+ "Total: $12.00 | Status: Pending" +:+ nl +:+ nl
           +:+ "ID: 7 | Customer: Ann" +:+ nl
           +:+ "Total: $12.00 | Status: Pending" +:+ nl +:+ nl
           +:+ "Page 2 of 2",
           markup))
  ∧ (∃ markup w',
       format_products store_down seven_products 1 5 "USD" initial_world
       = (Ok ("🛍️ **Product List**" +:+ nl +:+ nl
              +:+ "**ID: 6 | Mug**" +:+ nl +:+ "Type: simple" +:+ nl
              +:+ "SKU: N/A" +:+ nl +:+ "Price: $4.50" +:+ nl +:+ "Stock: 6" +:+ nl
              +:+ "Attributes: N/A" +:+ nl +:+ "────────────────────" +:+ nl +:+ nl
              +:+ "**ID: 7 | Mug**" +:+ nl +:+ "Type: simple" +:+ nl
              +:+ "SKU: N/A" +:+ nl +:+ "Price: $4.50" +:+ nl +:+ "Stock: 7" +:+ nl
              +:+ "Attributes: N/A" +:+ nl +:+ "────────────────────" +:+ nl +:+ nl
              +:+ "Page 2 of 2",
              markup), w'))
  ∧ format_orders (H := ascii_text) seven_orders 2 5 "USD"
    = Ok ("No more orders to show.", None).
Proof.
  destruct (pages_of_five (H := ascii_text) store_down "USD") as [Hproducts Horders].
  assert (is_ceil_div5 7 2) as Hpages by (unfold is_ceil_div5; lia).
  split; [|split].
  - destruct (Horders seven_orders 1 2) as [Hpage _]; [discriminate | exact Hpages |].
    destruct Hpage as (entries & markup & Hrun & _ & ->); [lia|].
    exists markup. exact Hrun.
  - destruct (Hproducts seven_products 1 2 initial_world) as [Hpage _];
      [discriminate | exact Hpages |].
    destruct Hpage as (entries & markup & w' & Hrun & _ & Hall); [lia|].
    exists markup, w'. rewrite Hrun.
    change (page_records seven_products 1)
      with (skipn 5 seven_products) in Hall. cbn [skipn seven_products map] in Hall.
    apply Forall2_cons_inv_l in Hall as (e1 & rest1 & (a1 & ->) & Hall & ->).
    apply Forall2_cons_inv_l in Hall as (e2 & rest2 & (a2 & ->) & Hall & ->).
    apply Forall2_nil_inv_l in Hall as ->.
    reflexivity.
  - destruct (Horders seven_orders 2 2) as [_ Hbeyond]; [discriminate | exact Hpages |].
    apply Hbeyond. lia.
Defined.

Lemma awaiting_flags_steps_witness :
  flags_of (after (H := ascii_text) store_down no_command no_callback
              (OnButton 1 (prompt_token AwaitingCurrency)) initial_world) 1
  = set_flag AwaitingCurrency true (flags_of initial_world 1).
Proof.
  destruct (awaiting_flags_steps (H := ascii_text) store_down no_command no_callback
              1 initial_world) as (_ & _ & _ & Hsets).
  destruct Hsets as (Hprompt & _ & _ & _).
  - apply authorized_sample.
  - reflexivity.
  - by apply Hprompt.
Defined.

Lemma four_failures_one_alert_witness :
  snd (check_low_stock store_down initial_world)
  = log_chat
      (SendMessage "77"
         (msg_api_error (get_language (bot_data initial_world))
            "Failed to fetch products after 3 attempts") false)
      (Nat.iter 4 (log_http products_request) initial_world).
Proof.
  apply (four_failures_one_alert store_down initial_world "77").
  - repeat split; reflexivity.
  - reflexivity.
  - intros i _. reflexivity.
Defined.

Lemma watched_null_stock_raises_always_witness :
  low_stock_of_cycle 5 (Some "1") [product_unmanaged; product_2] = Raise TypeError.
Proof.
  apply (watched_null_stock_raises_always 5 "1" [product_unmanaged; product_2]
           product_unmanaged); reflexivity.
Defined.

Lemma update_without_credentials_witness :
  update_product unconfigured_env "42" (Some "19.99") None None initial_world
  = (Ok (false, "Unexpected error: " +:+ credentials_error), initial_world).
Proof.
  apply (update_without_credentials unconfigured_env "42" (Some "19.99") None None
           initial_world).
  discriminate.
Defined.

Lemma toggle_twice_witness :
  let w2 := run_events (H := ascii_text) store_down no_command no_callback
              [OnButton 1 "toggle_low_stock"; OnButton 1 "toggle_low_stock"]
              initial_world in
  default true (notify_low_stock (bot_data w2))
  = default true (notify_low_stock (bot_data initial_world))
  ∧ length (settings_file w2) = S (S (length (settings_file initial_world))).
Proof.
  apply (toggle_twice (H := ascii_text) store_down no_command no_callback 1
           initial_world).
  - apply authorized_sample.
  - reflexivity.
Defined.

Lemma low_stock_set_exact_witness :
  chat_log (snd (check_low_stock (store_failing_once [product_1; product_2])
                   world_threshold_10))
  = [SendMessage "77"
       ("⚠️ **Low Stock Alert**" +:+ nl +:+ nl
        +:+ "ID: 1 | Mug" +:+ nl +:+ "Price: $4.50 | Stock: 3" +:+ nl +:+ nl
        +:+ "ID: 2 | Cap" +:+ nl +:+ "Price: $9.00 | Stock: 10" +:+ nl +:+ nl)
       true].
Proof.
  destruct (low_stock_set_exact 10 [product_1; product_2]) as (_ & _ & _ & Hcycle & _).
  destruct (Hcycle (store_failing_once [product_1; product_2]) world_threshold_10
              "77" 1%nat) as (items & Hitems & Hlog).
  - repeat split; reflexivity.
  - reflexivity.
  - lia.
  - intros i Hi. assert (i = 0%nat) as -> by lia. reflexivity.
  - reflexivity.
  - by left.
  - reflexivity.
  - rewrite Hlog.
    change (filter (known_low 10) [product_1; product_2])
      with [product_1; product_2] in Hitems.
    apply Forall2_cons_inv_l in Hitems as (i1 & rest1 & (q1 & Hq1 & ->) & Hitems & ->).
    apply Forall2_cons_inv_l in Hitems as (i2 & rest2 & (q2 & Hq2 & ->) & Hitems & ->).
    apply Forall2_nil_inv_l in Hitems as ->.
    injection Hq1 as <-. injection Hq2 as <-. reflexivity.
Defined.

(** ** The monitor, whatever the store does *)

(** The state after [k] remote calls to the listing of the products. *)
Lemma iter_log_http_fields (r : request) (k : nat) (w : world) :
  let w' := Nat.iter k (log_http r) w in
  bot_data w' = bot_data w ∧ user_data w' = user_data w
  ∧ chat_log w' = chat_log w ∧ settings_file w' = settings_file w
  ∧ http_log w' = http_log w ++ replicate k r.
Proof.
  induction k as [|k IH]; simpl.
  - by rewrite app_nil_r.
  - destruct IH as (-> & -> & -> & -> & ->). repeat split.
    rewrite <- app_assoc. f_equal.
    change (replicate k r ++ [r] = replicate (S k) r).
    by rewrite replicate_S_end.
Qed.

Lemma fetch_products_any (env : environment) (w : world) :
  ∃ r k, (k ≤ 1)%nat
         ∧ fetch_products env w = (Ok r, Nat.iter k (log_http products_request) w).
Proof.
  unfold fetch_products. destruct (get_woocommerce_api env).
  - eexists _, 1%nat. split; [lia | reflexivity].
  - eexists _, 0%nat. split; [lia | reflexivity].
Qed.

Lemma retry_fetch_any (env : environment) (n : nat) (p : option (list product))
    (w : world) :
  ∃ r k, (k ≤ n)%nat
         ∧ retry_fetch env n p w = (Ok r, Nat.iter k (log_http products_request) w).
Proof.
  revert p w. induction n as [|n IH]; intros p w.
  - exists p, 0%nat. split; [lia|]. by destruct p.
  - destruct p as [ps|].
    + exists (Some ps), 0%nat. split; [lia | reflexivity].
    + simpl retry_fetch. rewrite bind_run.
      destruct (fetch_products_any env w) as (r1 & k1 & Hk1 & ->).
      cbv beta iota.
      destruct (IH r1 (Nat.iter k1 (log_http products_request) w))
        as (r2 & k2 & Hk2 & ->).
      exists r2, (k2 + k1)%nat. split; [lia|]. by rewrite Nat.iter_add.
Qed.

(** X5: a monitor that is switched off, paused, or has no chat to write to
    does nothing at all in its cycle: no remote call, no message. *)
Lemma monitor_switched_off (env : environment) (w : world) :
  default false (is_running (bot_data w)) = false
  ∨ default true (notify_low_stock (bot_data w)) = false
  ∨ opt_truthy (getenv env "TELEGRAM_CHAT_ID") = false →
  check_low_stock env w = (Ok tt, w).
Proof.
  intros Hoff. unfold check_low_stock. step_read.
  destruct (default false (is_running (bot_data w)));
    destruct (default true (notify_low_stock (bot_data w)));
    cbn [negb orb]; cbv beta iota; try reflexivity.
  destruct Hoff as [?|[?|Hchat]]; try discriminate.
  destruct (getenv env "TELEGRAM_CHAT_ID") as [chat_id|]; [|reflexivity].
  simpl in Hchat. by rewrite Hchat.
Qed.

(** X6: whatever the store and the chat do, a cycle of the monitor leaves
    the settings, the input flags and the settings file alone, issues at
    most four remote calls, each the listing of the products, and at most
    one chat call, a message to the configured chat. *)
Lemma monitor_effects_bounded (env : environment) (w : world) :
  let w' := snd (check_low_stock env w) in
  bot_data w' = bot_data w
  ∧ user_data w' = user_data w
  ∧ settings_file w' = settings_file w
  ∧ (∃ k, (k ≤ 4)%nat ∧ http_log w' = http_log w ++ replicate k products_request)
  ∧ (chat_log w' = chat_log w
     ∨ ∃ chat_id text markdown,
         getenv env "TELEGRAM_CHAT_ID" = Some chat_id
         ∧ chat_log w' = chat_log w ++ [SendMessage chat_id text markdown]).
Proof.
  set (bounded := λ w2 : world,
         bot_data w2 = bot_data w ∧ user_data w2 = user_data w
         ∧ settings_file w2 = settings_file w
         ∧ (∃ k, (k ≤ 4)%nat
                 ∧ http_log w2 = http_log w ++ replicate k products_request)
         ∧ (chat_log w2 = chat_log w
            ∨ ∃ chat_id text markdown,
                getenv env "TELEGRAM_CHAT_ID" = Some chat_id
                ∧ chat_log w2 = chat_log w ++ [SendMessage chat_id text markdown])).
  change (bounded (snd (check_low_stock env w))).
  assert (∀ k, (k ≤ 4)%nat → bounded (Nat.iter k (log_http products_request) w))
    as Hquiet.
  { intros k Hk.
    destruct (iter_log_http_fields products_request k w) as (? & ? & ? & ? & ?).
    repeat split; try done; [by exists k | by left]. }
  assert (∀ k chat_id text markdown, (k ≤ 4)%nat →
            getenv env "TELEGRAM_CHAT_ID" = Some chat_id →
            bounded (log_chat (SendMessage chat_id text markdown)
                       (Nat.iter k (log_http products_request) w)))
    as Hsent.
  { intros k chat_id text markdown Hk Hchat.
    destruct (iter_log_http_fields products_request k w) as (? & ? & Hlog & ? & ?).
    repeat split; try done; [by exists k|].
    right. exists chat_id, text, markdown. split; [exact Hchat|].
    simpl. by rewrite Hlog. }
  clearbody bounded.
  unfold check_low_stock. step_read.
  destruct (negb _ || negb _); [exact (Hquiet 0%nat ltac:(lia))|].
  destruct (getenv env "TELEGRAM_CHAT_ID") as [chat_id|] eqn:Hchat;
    [|exact (Hquiet 0%nat ltac:(lia))].
  destruct (negb (str_truthy chat_id)); [exact (Hquiet 0%nat ltac:(lia))|].
  rewrite bind_run.
  destruct (fetch_products_any env w) as (r1 & k1 & Hk1 & ->). cbv beta iota.
  rewrite bind_run.
  destruct (retry_fetch_any env 3 r1 (Nat.iter k1 (log_http products_request) w))
    as (r2 & k2 & Hk2 & ->).
  cbv beta iota. rewrite <- Nat.iter_add.
  destruct r2 as [products|].
  - rewrite bind_run. unfold lift at 1.
    destruct (low_stock_of_cycle _ _ products) as [[|p low]|e]; cbv beta iota.
    + apply Hquiet. lia.
    + unfold try_Exception. rewrite chat_run.
      destruct (delivered env _); apply Hsent; (lia || done).
    + apply Hquiet. lia.
  - rewrite chat_run. apply Hsent; (lia || done).
Qed.
(** X7: an alert that the chat does not take.  A cycle that got the
    products ends normally whether or not its low-stock alert is delivered;
    the alert of repeated failure is sent outside any handler, so a cycle
    that could not deliver it ends on the exception of the chat; and
    [notify_api_error], which sends the same text, never raises. *)
Lemma undelivered_alerts (env : environment) (w : world) (chat_id : string) :
  monitoring env w chat_id →
  configured env →
  (∀ products low,
     products_response env (length (http_log w)) = Some products →
     low_stock_of_cycle (get_threshold (bot_data w))
       (watched_product_id (bot_data w)) products = Ok low →
     fst (check_low_stock env w) = Ok tt)
  ∧ ((∀ i, (i < 4)%nat → products_response env (length (http_log w) + i) = None) →
     delivered env (length (chat_log w)) = false →
     fst (check_low_stock env w) = Raise TelegramError)
  ∧ (∀ error_message w0, fst (notify_api_error env error_message w0) = Ok tt).
Proof.
  intros Hmon Hapi. split; [|split].
  - intros products low Hfetch Hlow.
    rewrite (cycle_alert env w chat_id products Hmon Hapi Hfetch), Hlow.
    by destruct low.
  - intros Hfail Hdel. destruct Hmon as (Hrun & Hnotify & Hchat & Hid).
    unfold check_low_stock. step_read.
    rewrite Hrun, Hnotify, Hchat, Hid. cbn [negb orb]. cbv beta iota.
    rewrite bind_run, fetch_products_run by exact Hapi.
    rewrite <- (Nat.add_0_r (length (http_log w))), Hfail by lia.
    cbv beta iota.
    rewrite bind_run, retry_fetch_fails; [|exact Hapi|].
    + cbv beta iota. rewrite chat_run. rewrite <- Nat.iter_succ_r.
      destruct (iter_log_http_fields products_request 4 w) as (_ & _ & -> & _).
      by rewrite Hdel.
    + intros i Hi. simpl. rewrite length_app. simpl.
      rewrite <- Nat.add_assoc. apply Hfail. simpl. lia.
  - intros error_message w0. unfold notify_api_error.
    destruct (getenv env "TELEGRAM_CHAT_ID") as [c|]; [|reflexivity].
    destruct (negb (str_truthy c)); [reflexivity|].
    step_read. unfold try_Exception. rewrite chat_run.
    by destruct (delivered env _).
Qed.

(** ** From the chat to the monitor *)

(** [str(n)] is never the empty text. *)
Lemma pretty_N_go_nonempty (x : N) (s : string) :
  s ≠ EmptyString → pretty_N_go x s ≠ EmptyString.
Proof.
  revert s. induction (N.lt_wf_0 x) as [x _ IH]; intros s Hs.
  destruct (decide (0 < x)%N) as [Hx|Hx].
  - rewrite pretty_N_go_step by done. apply IH; [|done].
    apply N.div_lt; lia.
  - assert (x = 0%N) as -> by lia. by rewrite pretty_N_go_0.
Qed.

Lemma pretty_N_nonempty (x : N) : pretty x ≠ EmptyString.
Proof.
  unfold pretty, pretty_N. case_decide; [done|].
  rewrite pretty_N_go_step by lia. by apply pretty_N_go_nonempty.
Qed.

Lemma str_of_int_truthy (n : Z) : str_truthy (str_of_int n) = true.
Proof.
  unfold str_truthy, str_of_int. apply negb_true_iff, String.eqb_neq.
  destruct n as [|p|p]; [done| |done].
  apply (pretty_N_nonempty (Npos p)).
Qed.

(** Looking a product up by the text of its id finds the first product
    with that id. *)
Lemma find_watched_by_id (n : Z) (products : list product) :
  (∃ p, p ∈ products ∧ p_id p = n) →
  ∃ wp, find_watched (str_of_int n) products = Some wp
        ∧ wp ∈ products ∧ p_id wp = n.
Proof.
  intros (p & Hp & Hid). unfold find_watched.
  destruct (find _ products) as [wp|] eqn:Hfind.
  - apply find_some in Hfind as [Hin Heq].
    exists wp. split; [reflexivity|]. split; [by apply list_elem_of_In|].
    apply String.eqb_eq in Heq. by apply (inj pretty) in Heq.
  - apply list_elem_of_In in Hp. apply (find_none _ _ Hfind p) in Hp.
    rewrite Hid, String.eqb_refl in Hp. discriminate.
Qed.
(** ** Replies to the prompts *)

Section Replies.
Context `{PyStr} (env : environment).
Context (ucmd : command → update → M unit) (ucb : string → M unit).

(** The first steps of [handle_text] for an administrator. *)
Lemma handle_text_run (uid : Z) (name text : string) (w : world) :
  authorized env uid →
  dispatch env ucmd ucb (OnText uid name text) w
  = (let lang := get_language (bot_data w) in
     let f := flags_of w uid in
     if awaiting_threshold f then
       try_ValueError
         (threshold ← int_of text;
          if threshold <? 0
          then raise (ValueError "Threshold must be non-negative.")
          else
            bd ← get_bot_data;
            set_bot_data (with_low_stock_threshold threshold bd);;
            chat env (ReplyText (msg_threshold_set lang (str_of_int threshold))
                        false None);;
            save_settings;;
            f ← get_user_data uid;
            set_user_data uid (with_awaiting_threshold false f))
         (chat env (ReplyText (msg_threshold_error lang) false None))
     else if awaiting_watch_product f then
       try_ValueError
         (product_id ← int_of text;
          products ← fetch_products env;
          (if has_product products product_id then
             bd ← get_bot_data;
             set_bot_data (with_watched_product_id (str_of_int product_id) bd);;
             chat env (ReplyText
                         (msg_watch_set lang (str_of_int product_id)
                            (str_of_int (get_threshold bd)))
                         false None);;
             save_settings
           else raise (ValueError "Product not found."));;
          f ← get_user_data uid;
          set_user_data uid (with_awaiting_watch_product false f))
         (chat env (ReplyText (msg_watch_error lang) false None))
     else if awaiting_currency f then
       let currency := py_upper text in
       if dict_mem CURRENCY_SYMBOLS currency then
         bd ← get_bot_data;
         set_bot_data (with_currency currency bd);;
         chat env (ReplyText (msg_currency_set lang currency) false None);;
         save_settings;;
         f ← get_user_data uid;
         set_user_data uid (with_awaiting_currency false f)
       else chat env (ReplyText (msg_currency_error lang) false None)
     else mret tt) w.
Proof.
  intros Hauth. unfold dispatch, handle_text.
  rewrite bind_run, check_admin_allowed by exact Hauth.
  step_if_not_ok. step_read. step_flags. reflexivity.
Qed.

(** X8: a threshold that parses to a number from 0 on is in force at once;
    it is saved, confirmed and the prompt closed when the confirmation is
    delivered, and when it is not, the handler ends on the exception of the
    chat with the threshold changed in memory only and the prompt still
    open. *)
Lemma threshold_reply_effects (uid : Z) (name text : string) (n : Z) (w : world) :
  authorized env uid →
  awaiting_threshold (flags_of w uid) = true →
  py_int text = Some n → 0 ≤ n →
  let bd := with_low_stock_threshold n (bot_data w) in
  let confirmed :=
    log_chat (ReplyText (msg_threshold_set (get_language (bot_data w)) (str_of_int n))
                false None)
      (put_bot_data bd w) in
  dispatch env ucmd ucb (OnText uid name text) w
  = if delivered env (length (chat_log w))
    then (Ok tt,
          put_user_data uid (with_awaiting_threshold false (flags_of w uid))
            (write_settings_file (settings_dump bd) confirmed))
    else (Raise TelegramError, confirmed).
Proof.
  intros Hauth Hflag Hint Hn bd confirmed. subst bd confirmed.
  rewrite handle_text_run by exact Hauth. cbv zeta. rewrite Hflag.
  unfold try_ValueError. rewrite bind_run. unfold int_of. rewrite Hint.
  unfold mret at 1, M_ret at 1. cbv beta iota.
  destruct (Z.ltb_spec n 0) as [?|_]; [lia|].
  step_read. step_write. rewrite bind_run, chat_run. simpl chat_log.
  destruct (delivered env (length (chat_log w))); cbv beta iota; [|reflexivity].
  step_save. step_flags. reflexivity.
Qed.

(** X9: a reply to the threshold prompt that is no number, or a number
    below 0, changes nothing: the threshold, the flags and the file stay,
    no remote call is made, and the one thing shown is the error message. *)
Lemma threshold_rejected (uid : Z) (name text : string) (w : world) :
  authorized env uid →
  awaiting_threshold (flags_of w uid) = true →
  py_int text = None ∨ (∃ n, py_int text = Some n ∧ n < 0) →
  after env ucmd ucb (OnText uid name text) w
  = log_chat (ReplyText (msg_threshold_error (get_language (bot_data w))) false None) w.
Proof.
  intros Hauth Hflag Hbad. unfold after.
  rewrite handle_text_run by exact Hauth. cbv zeta. rewrite Hflag.
  unfold try_ValueError. rewrite bind_run. unfold int_of.
  destruct Hbad as [-> | (n & -> & Hn)].
  - unfold raise. cbv beta iota. by rewrite chat_run.
  - unfold mret at 1, M_ret at 1. cbv beta iota.
    destruct (Z.ltb_spec n 0) as [_|?]; [|lia].
    unfold raise. cbv beta iota. by rewrite chat_run.
Qed.


(** The state after a product id that the store knows was sent to the watch
    prompt. *)
Lemma watch_reply_run (uid : Z) (name text : string) (n : Z)
    (products : list product) (w : world) :
  authorized env uid →
  delivered env (length (chat_log w)) = true →
  active_mode (flags_of w uid) = AwaitingWatch →
  py_int text = Some n →
  configured env →
  products_response env (length (http_log w)) = Some products →
  (∃ p, p ∈ products ∧ p_id p = n) →
  let bd := with_watched_product_id (str_of_int n) (bot_data w) in
  dispatch env ucmd ucb (OnText uid name text) w
  = (Ok tt,
     put_user_data uid (with_awaiting_watch_product false (flags_of w uid))
       (write_settings_file (settings_dump bd)
          (log_chat
             (ReplyText (msg_watch_set (get_language (bot_data w)) (str_of_int n)
                           (str_of_int (get_threshold (bot_data w))))
                false None)
             (put_bot_data bd (log_http products_request w))))).
Proof.
  intros Hauth Hdel Hmode Hint Hapi Hfetch (p & Hp & Hid) bd. subst bd.
  destruct (active_watch _ Hmode) as (Ht & Hw).
  assert (has_product (Some products) n = true) as Hhas.
  { simpl. apply existsb_exists. exists p.
    split; [by apply list_elem_of_In | by apply Z.eqb_eq]. }
  rewrite handle_text_run by exact Hauth. cbv zeta. rewrite Ht, Hw.
  unfold try_ValueError. rewrite bind_run. unfold int_of. rewrite Hint.
  unfold mret at 1, M_ret at 1. cbv beta iota.
  rewrite bind_run, fetch_products_run by exact Hapi.
  rewrite Hfetch. cbv beta iota. rewrite Hhas.
  rewrite bind_run. step_read. step_write.
  rewrite bind_run, chat_run. simpl chat_log. rewrite Hdel. cbv beta iota.
  unfold save_settings at 1. cbv beta iota.
  step_flags. reflexivity.
Qed.

(** X11: from the chat to the monitor.  After an administrator answered the
    watch prompt with the id of a product of the store, the id is kept as
    the text [str] gives for it and saved; that text is never empty, so the
    monitor's test of the watched id passes, and in every later listing
    that holds a product of that id the monitor's lookup finds one (the
    first of them). *)
Lemma watched_set_then_found (uid : Z) (name text : string) (n : Z)
    (products : list product) (w : world) :
  authorized env uid →
  delivered env (length (chat_log w)) = true →
  active_mode (flags_of w uid) = AwaitingWatch →
  py_int text = Some n →
  configured env →
  products_response env (length (http_log w)) = Some products →
  (∃ p, p ∈ products ∧ p_id p = n) →
  let w' := after env ucmd ucb (OnText uid name text) w in
  watched_product_id (bot_data w') = Some (str_of_int n)
  ∧ last (settings_file w') = Some (settings_dump (bot_data w'))
  ∧ str_truthy (str_of_int n) = true
  ∧ ∀ later, (∃ p, p ∈ later ∧ p_id p = n) →
             ∃ wp, find_watched (str_of_int n) later = Some wp
                   ∧ wp ∈ later ∧ p_id wp = n.
Proof.
  intros Hauth Hdel Hmode Hint Hapi Hfetch Hp w'. subst w'. unfold after.
  rewrite (watch_reply_run uid name text n products w) by assumption.
  cbv zeta. simpl. split; [reflexivity|]. split; [apply last_snoc|].
  split; [apply str_of_int_truthy|]. apply find_watched_by_id.
Qed.

(** X12: a currency code is stored in upper case, whatever the case it was
    sent in; it is saved, confirmed and the prompt closed when the
    confirmation is delivered. *)
Lemma currency_reply_effects (uid : Z) (name text : string) (w : world) :
  authorized env uid →
  active_mode (flags_of w uid) = AwaitingCurrency →
  py_upper text ∈ ["USD"; "EUR"; "IRR"; "IRT"] →
  let bd := with_currency (py_upper text) (bot_data w) in
  let confirmed :=
    log_chat (ReplyText (msg_currency_set (get_language (bot_data w)) (py_upper text))
                false None)
      (put_bot_data bd w) in
  dispatch env ucmd ucb (OnText uid name text) w
  = if delivered env (length (chat_log w))
    then (Ok tt,
          put_user_data uid (with_awaiting_currency false (flags_of w uid))
            (write_settings_file (settings_dump bd) confirmed))
    else (Raise TelegramError, confirmed).
Proof.
  intros Hauth Hmode Hcode bd confirmed. subst bd confirmed.
  assert (dict_mem CURRENCY_SYMBOLS (py_upper text) = true) as Hmem.
  { repeat (apply elem_of_cons in Hcode as [->|Hcode]; [reflexivity|]).
    inversion Hcode. }
  destruct (active_currency _ Hmode) as (Ht & Hw & Hc).
  rewrite handle_text_run by exact Hauth. cbv zeta. rewrite Ht, Hw, Hc, Hmem.
  step_read. step_write. rewrite bind_run, chat_run. simpl chat_log.
  destruct (delivered env (length (chat_log w))); cbv beta iota; [|reflexivity].
  step_save. step_flags. reflexivity.
Qed.

(** X13: free text from an administrator outside any prompt is ignored:
    nothing is shown and nothing changes. *)
Lemma text_outside_prompt_ignored (uid : Z) (name text : string) (w : world) :
  authorized env uid →
  active_mode (flags_of w uid) = NoMode →
  dispatch env ucmd ucb (OnText uid name text) w = (Ok tt, w).
Proof.
  intros Hauth Hmode. rewrite handle_text_run by exact Hauth. cbv zeta.
  unfold active_mode in Hmode.
  destruct (awaiting_threshold _); [discriminate|].
  destruct (awaiting_watch_product _); [discriminate|].
  destruct (awaiting_currency _); [discriminate|]. reflexivity.
Qed.

End Replies.
(** ** The settings in memory and in the file *)

Section Persistence.
Context `{PyStr} (env : environment).
Context (ucmd : command → update → M unit) (ucb : string → M unit).

(** The authorization check changes neither the settings nor the file. *)
Lemma check_admin_keeps (u : update) (w : world) :
  ∃ r w', check_admin env u w = (r, w')
          ∧ bot_data w' = bot_data w ∧ settings_file w' = settings_file w
          ∧ (r = Ok true → w' = w).
Proof.
  destruct (check_admin_cases env u w) as [-> | (r & w' & Hrun & Hr & _ & Hbd)].
  - by eexists _, _.
  - exists r, w'. split; [exact Hrun|]. split; [exact Hbd|]. split; [|done].
    unfold check_admin, mbind, M_bind, lift in Hrun.
    destruct (admin_ids env) as [ids|e]; [|by inversion Hrun].
    unfold get_bot_data in Hrun.
    destruct (_ || _); [|by inversion Hrun].
    destruct u; rewrite chat_run in Hrun;
      destruct (delivered env _); by inversion Hrun.
Qed.

Lemma fetch_products_keeps (w : world) :
  ∃ r w', fetch_products env w = (Ok r, w')
          ∧ bot_data w' = bot_data w ∧ settings_file w' = settings_file w
          ∧ chat_log w' = chat_log w.
Proof.
  unfold fetch_products. destruct (get_woocommerce_api env); by eexists _, _.
Qed.

(** What an event of the settings does to the settings and to the file,
    when the chat takes every call: it leaves both, or it appends to the
    file the settings it leaves in memory. *)
Lemma settings_event_cases (e : event) (w : world) (Q : world → Prop) :
  (∀ n, delivered env n = true) →
  settings_event e →
  (∀ w', bot_data w' = bot_data w → settings_file w' = settings_file w → Q w') →
  (∀ w', is_running (bot_data w') = is_running (bot_data w) →
         settings_file w' = settings_file w ++ [settings_dump (bot_data w')] →
         Q w') →
  Q (after env ucmd ucb e w).
Proof.
  intros Hdel He Hkeep Hsave. unfold after, dispatch.
  destruct e as [c uid name text args | uid name text | uid data]; [done| |].
  - unfold handle_text. rewrite bind_run.
    destruct (check_admin_keeps (Message uid name text []) w)
      as (r & w0 & -> & Hbd & Hfile & Hok).
    destruct r as [[|]|e]; cbv beta iota; [|by apply Hkeep..].
    rewrite Hok by reflexivity. clear w0 Hbd Hfile Hok.
    step_if_not_ok. step_read. step_flags.
    destruct (awaiting_threshold (flags_of w uid)).
    { unfold try_ValueError. rewrite bind_run. unfold int_of.
      destruct (py_int text) as [n|]; unfold mret, M_ret, raise; cbv beta iota.
      2: { rewrite chat_run. by apply Hkeep. }
      destruct (n <? 0); cbv beta iota.
      { rewrite chat_run. by apply Hkeep. }
      step_read. step_write. rewrite bind_run, chat_run, Hdel. cbv beta iota.
      step_save. step_flags. by apply Hsave. }
    destruct (awaiting_watch_product (flags_of w uid)).
    { unfold try_ValueError. rewrite bind_run. unfold int_of.
      destruct (py_int text) as [n|]; unfold mret, M_ret, raise; cbv beta iota.
      2: { rewrite chat_run. by apply Hkeep. }
      rewrite bind_run.
      destruct (fetch_products_keeps w) as (ps & w1 & -> & Hbd & Hfile & _).
      cbv beta iota. rewrite bind_run.
      destruct (has_product ps n); cbv beta iota.
      2: { rewrite chat_run. by apply Hkeep. }
      step_read. step_write. rewrite bind_run, chat_run, Hdel. cbv beta iota.
      unfold save_settings at 1. cbv beta iota.
      step_flags. apply Hsave; simpl; [by rewrite Hbd | by rewrite Hfile]. }
    destruct (awaiting_currency (flags_of w uid)); [|by apply Hkeep].
    destruct (dict_mem CURRENCY_SYMBOLS (py_upper text)).
    2: { rewrite chat_run. by apply Hkeep. }
    step_read. step_write. rewrite bind_run, chat_run, Hdel. cbv beta iota.
    step_save. step_flags. by apply Hsave.
  - unfold button. rewrite bind_run, chat_run, Hdel. cbv beta iota.
    rewrite bind_run.
    destruct (check_admin_keeps (CallbackQuery uid data) (log_chat AnswerCallback w))
      as (r & w0 & -> & Hbd & Hfile & Hok).
    destruct r as [[|]|e]; cbv beta iota; [|by apply Hkeep..].
    rewrite Hok by reflexivity. clear w0 Hbd Hfile Hok.
    step_if_not_ok. step_read.
    simpl in He. unfold settings_tokens in He.
    repeat (apply elem_of_cons in He as [->|He]); [..|by apply elem_of_nil in He];
      simpl (String.eqb _ _); cbv beta iota zeta.
    + step_write. rewrite bind_run, chat_run, Hdel. cbv beta iota.
      by apply Hsave.
    + step_write. rewrite bind_run, chat_run, Hdel. cbv beta iota.
      by apply Hsave.
    + rewrite bind_run, chat_run, Hdel. cbv beta iota. step_flags. by apply Hkeep.
    + rewrite bind_run, chat_run, Hdel. cbv beta iota. step_flags. by apply Hkeep.
    + rewrite bind_run, chat_run, Hdel. cbv beta iota. step_flags. by apply Hkeep.
    + step_write. rewrite bind_run, chat_run, Hdel. cbv beta iota.
      by apply Hsave.
Qed.

(** The same over a sequence of such events: the file is only appended to;
    nothing appended, nothing changed; and the last dump appended is that
    of the settings in memory. *)
Lemma run_settings_events (es : list event) (w : world) :
  (∀ n, delivered env n = true) →
  Forall settings_event es →
  let w' := run_events env ucmd ucb es w in
  is_running (bot_data w') = is_running (bot_data w)
  ∧ ∃ added,
      settings_file w' = settings_file w ++ added
      ∧ (added = [] → bot_data w' = bot_data w)
      ∧ (∀ j, last added = Some j → j = settings_dump (bot_data w')).
Proof.
  intros Hdel Hes. revert w. induction Hes as [|e es He _ IH]; intros w.
  - simpl. split; [reflexivity|]. exists []. by rewrite app_nil_r.
  - simpl run_events. cbv zeta in *.
    apply (settings_event_cases e w); [exact Hdel | exact He | |].
    + intros w1 Hbd Hfile.
      destruct (IH w1) as (Hrun & added & Hadded & Hnone & Hlast).
      rewrite Hrun, Hbd. split; [reflexivity|]. exists added.
      rewrite Hadded, Hfile. split; [reflexivity|]. split; [|exact Hlast].
      intros Hempty. by rewrite Hnone.
    + intros w1 Hrun1 Hfile.
      destruct (IH w1) as (Hrun & added & Hadded & Hnone & Hlast).
      rewrite Hrun, Hrun1. split; [reflexivity|].
      exists (settings_dump (bot_data w1) :: added).
      rewrite Hadded, Hfile, <- app_assoc. split; [reflexivity|].
      split; [discriminate|].
      intros j. destruct added as [|j0 added].
      * simpl. intros [= <-]. by rewrite Hnone.
      * intros Hj. apply Hlast. by rewrite last_cons_cons in Hj.
Qed.

(** X14: the settings file is kept in step with the settings in memory.
    When the chat takes every call, an event of the settings (free text, a
    press on a button of the settings keyboard), from whomever, either
    leaves the settings and the file as they were, or changes settings and
    appends to the file the dump of the settings as they now are; it never
    touches [is_running]. *)
Lemma settings_file_in_step (e : event) (w : world) :
  (∀ n, delivered env n = true) →
  settings_event e →
  let w' := after env ucmd ucb e w in
  is_running (bot_data w') = is_running (bot_data w)
  ∧ ((bot_data w' = bot_data w ∧ settings_file w' = settings_file w)
     ∨ settings_file w' = settings_file w ++ [settings_dump (bot_data w')]).
Proof.
  intros Hdel He.
  apply (settings_event_cases e w); [exact Hdel | exact He | |].
  - intros w' Hbd Hfile. split; [by rewrite Hbd | by left].
  - intros w' Hrun Hfile. split; [exact Hrun | by right].
Qed.

(** Whether [main] schedules the monitor: it does when, once the file is
    loaded, [is_running] is not set. *)
Lemma main_scheduled (w : world) :
  opt_truthy (getenv env "TELEGRAM_BOT_TOKEN") = true →
  fst (main env w)
  = Ok (negb (default false
                (is_running (bot_data_update (last (settings_file w)) (bot_data w))))).
Proof.
  intros Htoken. unfold main. rewrite Htoken.
  change (negb true) with false. cbv beta iota.
  rewrite bind_run. unfold load_settings at 1. cbv beta iota.
  step_read. step_write. step_read. cbn [bot_data put_bot_data].
  rewrite bind_run.
  destruct (default false (is_running (bot_data_update _ _)));
    cbn [negb]; cbv beta iota.
  - unfold mret at 1, M_ret at 1. cbv beta iota. rewrite bind_run.
    destruct (fetch_products_keeps (put_bot_data
                (bot_data_update (last (settings_file w)) (bot_data w)) w))
      as (r & w1 & -> & _).
    reflexivity.
  - step_write. unfold mret at 1, M_ret at 1. cbv beta iota. rewrite bind_run.
    match goal with
    | |- context [fetch_products env ?w0] =>
        destruct (fetch_products_keeps w0) as (r & w1 & -> & _)
    end.
    reflexivity.
Qed.

(** X16: the monitor is scheduled by the first start only.  [main]
    schedules [check_low_stock] when it finds no settings file, and sets
    [is_running]; every dump the handlers write from then on carries
    [is_running] true, so once a setting was saved, the next start of the
    process reads [is_running] true from the file and schedules nothing. *)
Lemma restart_not_scheduled (es : list event) (w : world) :
  opt_truthy (getenv env "TELEGRAM_BOT_TOKEN") = true →
  fst (main env (process_start [])) = Ok true
  ∧ ((∀ n, delivered env n = true) →
     Forall settings_event es →
     is_running (bot_data w) = Some true →
     let w' := run_events env ucmd ucb es w in
     settings_file w' ≠ settings_file w →
     fst (main env (process_start (settings_file w'))) = Ok false).
Proof.
  intros Htoken. split.
  - by rewrite main_scheduled.
  - intros Hdel Hes Hrun w' Hsaved. subst w'.
    destruct (run_settings_events es w Hdel Hes) as (Hrun' & added & Hfile & _ & Hlast).
    rewrite main_scheduled by exact Htoken. simpl settings_file.
    rewrite Hfile in *.
    destruct added as [|j0 added _] using rev_ind.
    { by rewrite app_nil_r in Hsaved. }
    rewrite app_assoc, last_snoc. simpl.
    rewrite (Hlast j0) by apply last_snoc. simpl.
    by rewrite Hrun', Hrun.
Qed.

End Persistence.
(** ** The allow-list *)

Section AllowList.
Context `{PyStr}.

(** The entries of [ADMIN_IDS] that count: those that are not blank. *)
Lemma parse_ids_ok (parts : list string) (ids : list Z) :
  parse_ids parts = Ok ids →
  Forall2 (λ id n, py_int (py_strip id) = Some n)
    (List.filter (λ id, str_truthy (py_strip id)) parts) ids.
Proof.
  revert ids. induction parts as [|id parts IH]; intros ids; simpl.
  - intros [= <-]. constructor.
  - destruct (str_truthy (py_strip id)); [|apply IH].
    destruct (py_int (py_strip id)) as [n|] eqn:Hint; [|discriminate].
    destruct (parse_ids parts) as [ns|e]; [|discriminate].
    intros [= <-]. constructor; [exact Hint | by apply IH].
Qed.

Lemma parse_ids_raise (parts : list string) (e : exn) :
  parse_ids parts = Raise e →
  e = ValueError int_error
  ∧ ∃ id, id ∈ parts ∧ str_truthy (py_strip id) = true
          ∧ py_int (py_strip id) = None.
Proof.
  induction parts as [|id parts IH]; simpl; [discriminate|].
  destruct (str_truthy (py_strip id)) eqn:Hid.
  - destruct (py_int (py_strip id)) as [n|] eqn:Hint.
    + destruct (parse_ids parts) as [ns|e']; [discriminate|].
      intros [= <-]. destruct IH as (-> & id' & Hin & Hrest); [reflexivity|].
      split; [reflexivity|]. exists id'. split; [by right | exact Hrest].
    + intros [= <-]. split; [reflexivity|]. exists id. split; [left | done].
  - intros Hraise. destruct (IH Hraise) as (-> & id' & Hin & Hrest).
    split; [reflexivity|]. exists id'. split; [by right | exact Hrest].
Qed.

(** X17: how the allow-list is read from [ADMIN_IDS].  The entries between
    the commas that are blank once stripped are skipped; when [int] reads
    every other entry (stripped), the list is their numbers, in order, and
    as soon as one of them is no number, reading the list raises the
    [ValueError] of [int]. *)
Lemma parse_ids_spec (parts : list string) :
  let entries := List.filter (λ id, str_truthy (py_strip id)) parts in
  match parse_ids parts with
  | Ok ids => Forall2 (λ id n, py_int (py_strip id) = Some n) entries ids
  | Raise e => e = ValueError int_error
               ∧ ∃ id, id ∈ entries ∧ py_int (py_strip id) = None
  end
  ∧ (Forall (λ id, is_Some (py_int (py_strip id))) entries →
     ∃ ids, parse_ids parts = Ok ids ∧ length ids = length entries).
Proof.
  intros entries. subst entries. split.
  - destruct (parse_ids parts) as [ids|e] eqn:Hparse.
    + by apply parse_ids_ok.
    + destruct (parse_ids_raise _ _ Hparse) as (-> & id & Hin & Hid & Hint).
      split; [reflexivity|]. exists id. split; [|exact Hint].
      apply list_elem_of_In, filter_In. split; [by apply list_elem_of_In | exact Hid].
  - intros Hall. destruct (parse_ids parts) as [ids|e] eqn:Hparse.
    + exists ids. split; [reflexivity|].
      apply parse_ids_ok in Hparse. symmetry. by eapply Forall2_length.
    + destruct (parse_ids_raise _ _ Hparse) as (_ & id & Hin & Hid & Hint).
      rewrite Forall_forall in Hall.
      destruct (Hall id) as [n Hn]; [|congruence].
      apply list_elem_of_In, filter_In. split; [by apply list_elem_of_In | exact Hid].
Qed.

(** An entry that is no number makes the reading raise, wherever it
    stands. *)
Lemma parse_ids_bad (parts : list string) (bad : string) :
  bad ∈ parts → str_truthy (py_strip bad) = true → py_int (py_strip bad) = None →
  parse_ids parts = Raise (ValueError int_error).
Proof.
  intros Hin Hbad Hint. induction parts as [|id parts IH]; [by inversion Hin|].
  simpl. apply elem_of_cons in Hin as [<- | Hin].
  - by rewrite Hbad, Hint.
  - rewrite (IH Hin).
    destruct (str_truthy (py_strip id)); [|reflexivity].
    by destruct (py_int (py_strip id)).
Qed.

Context (env : environment).
Context (ucmd : command → update → M unit) (ucb : string → M unit).

(** X18: one entry of [ADMIN_IDS] that is no number locks everyone out,
    the administrators listed beside it included: every handler ends on
    the [ValueError] of the authorization check, with nothing shown and
    nothing changed (a press on a button is acknowledged first). *)
Lemma malformed_admin_ids_lock_out (bad : string) (e : event) (w : world) :
  bad ∈ split_on "," (default EmptyString (getenv env "ADMIN_IDS")) →
  str_truthy (py_strip bad) = true →
  py_int (py_strip bad) = None →
  match e with
  | OnButton _ _ =>
      dispatch env ucmd ucb e w
      = (Raise (if delivered env (length (chat_log w))
                then ValueError int_error else TelegramError),
         log_chat AnswerCallback w)
  | _ => dispatch env ucmd ucb e w = (Raise (ValueError int_error), w)
  end.
Proof.
  intros Hin Hbad Hint.
  pose proof (parse_ids_bad _ _ Hin Hbad Hint : admin_ids env = _) as Hids.
  destruct e as [c uid name text args | uid name text | uid data]; unfold dispatch.
  - destruct c;
      unfold command_handler, start, settings, help_command, products, orders;
      by rewrite bind_run, (check_admin_invalid env _ _ _ Hids).
  - unfold handle_text. by rewrite bind_run, (check_admin_invalid env _ _ _ Hids).
  - unfold button. rewrite bind_run, chat_run.
    destruct (delivered env _); cbv beta iota; [|reflexivity].
    by rewrite bind_run, (check_admin_invalid env _ _ _ Hids).
Qed.

End AllowList.
(** ** From a page to its neighbours *)

(** A text without the separator is one part, and so is each side of the
    one separator between two such texts. *)
Lemma split_on_without (sep : ascii) (s : string) :
  without sep s → split_on sep s = [s].
Proof.
  induction s as [|c rest IH]; simpl; [done|].
  intros [Hc Hrest]. rewrite IH by exact Hrest.
  by rewrite (proj2 (Ascii.eqb_neq c sep) Hc).
Qed.

Lemma split_on_two (sep : ascii) (word s : string) :
  without sep word → without sep s →
  split_on sep (word +:+ String sep s) = [word; s].
Proof.
  intros Hword Hs. induction word as [|c rest IH]; simpl.
  - by rewrite Ascii.eqb_refl, split_on_without.
  - destruct Hword as [Hc Hrest]. rewrite IH by exact Hrest.
    by rewrite (proj2 (Ascii.eqb_neq c sep) Hc).
Qed.

(** [str(n)] is written with digits and a sign. *)
Lemma pretty_N_go_without (x : N) (s : string) :
  without "_" s → without "_" (pretty_N_go x s).
Proof.
  revert s. induction (N.lt_wf_0 x) as [x _ IH]; intros s Hs.
  destruct (decide (0 < x)%N) as [Hx|Hx].
  - rewrite pretty_N_go_step by done. apply IH; [apply N.div_lt; lia|].
    split; [|exact Hs]. unfold pretty_N_char. by repeat case_match.
  - assert (x = 0%N) as -> by lia. by rewrite pretty_N_go_0.
Qed.

Lemma str_of_int_without (n : Z) : without "_" (str_of_int n).
Proof.
  assert (∀ x : N, without "_" (pretty x)) as HN.
  { intros x. unfold pretty, pretty_N. case_decide; [by split|].
    by apply pretty_N_go_without. }
  destruct n as [|p|p]; [by split | apply (HN (Npos p)) |].
  split; [done | apply (HN (Npos p))].
Qed.

(** The token of a button of the pagination is read back as its page. *)
Lemma page_of_token `{PyStr} (word : string) (q : Z) (w : world) :
  without "_" word →
  py_int (str_of_int q) = Some q →
  page_of (word +:+ "_" +:+ str_of_int q) w = (Ok q, w).
Proof.
  intros Hword Hint. unfold page_of.
  change ("_" +:+ str_of_int q) with (String "_"%char (str_of_int q)).
  rewrite (split_on_two "_" word (str_of_int q) Hword (str_of_int_without q)).
  simpl nth. unfold int_of. by rewrite Hint.
Qed.

Lemma next_page_exists (n p t : Z) :
  is_ceil_div5 n t → 0 ≤ p < t → (p * 5 + 5 <? n) = (p + 1 <? t).
Proof.
  unfold is_ceil_div5. intros Ht Hp.
  destruct (Z.ltb_spec (p * 5 + 5) n), (Z.ltb_spec (p + 1) t); (reflexivity || lia).
Qed.

Lemma pagination_row_neighbours (prefix : string) (n p t : Z) :
  is_ceil_div5 n t → 0 ≤ p < t →
  pagination_row prefix p (p * 5 + 5) n = neighbours prefix p t.
Proof.
  intros Ht Hp. unfold pagination_row, neighbours.
  by rewrite (next_page_exists n p t Ht Hp).
Qed.

(** X19: the buttons under a page of the orders lead to its neighbours and
    nowhere else.  Page p of t (from 0) carries Previous exactly when it is
    not the first and Next exactly when it is not the last, and no keyboard
    when it is the only page; the token of each is the one [button] reads
    back as page p - 1 and page p + 1 (for the numbers that [int] reads
    back from the text [str] gives). *)
Lemma orders_page_buttons `{PyStr} (orders : list order) (p t : Z)
    (currency : string) (w : world) :
  orders ≠ [] →
  is_ceil_div5 (Z.of_nat (length orders)) t →
  0 ≤ p < t →
  let row := neighbours "orders_" p t in
  (∃ message,
     format_orders orders p 5 currency
     = Ok (message, match row with [] => None | _ => Some [row] end))
  ∧ (0 < p → py_int (str_of_int (p - 1)) = Some (p - 1) →
     previous_button "orders_" p ∈ row
     ∧ page_of (btn_callback_data (previous_button "orders_" p)) w = (Ok (p - 1), w))
  ∧ (p + 1 < t → py_int (str_of_int (p + 1)) = Some (p + 1) →
     next_button "orders_" p ∈ row
     ∧ page_of (btn_callback_data (next_button "orders_" p)) w = (Ok (p + 1), w)).
Proof.
  intros Hne Ht Hp row. subst row. split; [|split].
  - destruct orders as [|o0 os]; [done|].
    unfold format_orders. cbv beta iota.
    remember (o0 :: os) as orders eqn:Hos.
    change (5 =? 0) with false. cbv iota.
    unfold is_ceil_div5 in Ht.
    destruct (Z.geb_spec (p * 5) (Z.of_nat (length orders))) as [?|_]; [lia|].
    rewrite (pagination_row_neighbours "orders_" _ p t) by done.
    eexists. unfold markup_of. reflexivity.
  - intros Hfirst Hint. split.
    + unfold neighbours. destruct (Z.ltb_spec 0 p) as [_|?]; [|lia].
      apply elem_of_app. left. apply list_elem_of_here.
    + apply (page_of_token "orders" (p - 1) w); [by repeat split | exact Hint].
  - intros Hlast Hint. split.
    + unfold neighbours. destruct (Z.ltb_spec (p + 1) t) as [_|?]; [|lia].
      apply elem_of_app. right. apply list_elem_of_here.
    + apply (page_of_token "orders" (p + 1) w); [by repeat split | exact Hint].
Qed.
(** ** What a page of the products costs *)

Lemma product_entry_calls (env : environment) (symbol : string) (p : product)
    (w : world) :
  configured env →
  ∃ s, product_entry env symbol p w
       = (Ok s, if bool_decide (p_type p = Some "variable")
                then log_http (variations_request p) w else w).
Proof.
  intros Hapi. unfold product_entry, fetch_variations. rewrite Hapi.
  destruct (p_type p) as [ty|]; simpl default.
  - destruct (String.eqb_spec ty "variable") as [->|Hty].
    + rewrite bool_decide_eq_true_2 by reflexivity.
      rewrite !bind_run. unfold http at 1. cbv beta iota.
      unfold mret at 1, M_ret at 1. cbv beta iota.
      destruct (variations_response env _) as [[|v vs]|]; by eexists.
    + rewrite bool_decide_eq_false_2 by congruence. by eexists.
  - rewrite bool_decide_eq_false_2 by discriminate. by eexists.
Qed.

Lemma mapM_product_entry_calls (env : environment) (symbol : string)
    (l : list product) (w : world) :
  configured env →
  ∃ entries w',
    mapM (product_entry env symbol) l w = (Ok entries, w')
    ∧ http_log w' = http_log w ++ map variations_request (variable_products l)
    ∧ bot_data w' = bot_data w ∧ user_data w' = user_data w
    ∧ chat_log w' = chat_log w ∧ settings_file w' = settings_file w.
Proof.
  intros Hapi. revert w. induction l as [|p l IH]; intros w.
  - exists [], w. simpl. by rewrite app_nil_r.
  - destruct (product_entry_calls env symbol p w Hapi) as (s & Hs).
    simpl mapM. rewrite bind_run, Hs. cbv beta iota. rewrite bind_run.
    unfold variable_products. simpl List.filter.
    destruct (bool_decide (p_type p = Some "variable")).
    + destruct (IH (log_http (variations_request p) w))
        as (entries & w' & -> & Hhttp & Hbd & Hud & Hchat & Hfile).
      exists (s :: entries), w'. split; [reflexivity|].
      rewrite Hhttp. simpl. by rewrite <- app_assoc.
    + destruct (IH w) as (entries & w' & -> & Hhttp & Hrest).
      exists (s :: entries), w'. split; [reflexivity|]. by rewrite Hhttp.
Qed.

(** X20: what a page of the product list costs and offers.  With the
    store credentials set, formatting page p of t issues one remote call
    for each product of type variable on the page, the listing of its
    variations, in the order of the page, and nothing else; the keyboard
    holds one Variations button for each of them, then the row that leads
    to the neighbouring pages. *)
Lemma products_page_calls (env : environment) (products : list product) (p t : Z)
    (currency : string) (w : world) :
  configured env →
  products ≠ [] →
  is_ceil_div5 (Z.of_nat (length products)) t →
  0 ≤ p < t →
  let page := page_records products p in
  let rows :=
    variation_rows page
    ++ match neighbours "products_" p t with [] => [] | row => [row] end in
  ∃ message w',
    format_products env products p 5 currency w
    = (Ok (message, match rows with [] => None | _ => Some rows end), w')
    ∧ http_log w' = http_log w ++ map variations_request (variable_products page)
    ∧ length (variation_rows page) = length (variable_products page)
    ∧ bot_data w' = bot_data w ∧ user_data w' = user_data w
    ∧ chat_log w' = chat_log w ∧ settings_file w' = settings_file w.
Proof.
  intros Hapi Hne Ht Hp page rows. subst page rows.
  destruct products as [|p0 ps]; [done|].
  unfold format_products. cbv beta iota.
  remember (p0 :: ps) as products eqn:Hps.
  change (5 =? 0) with false. cbv iota.
  pose proof Ht as Hceil. unfold is_ceil_div5 in Hceil.
  destruct (Z.geb_spec (p * 5) (Z.of_nat (length products))) as [?|_]; [lia|].
  rewrite py_slice_page by lia.
  destruct (mapM_product_entry_calls env (currency_symbol currency)
              (page_records products p) w Hapi)
    as (entries & w' & Hrun & Hhttp & Hrest).
  rewrite bind_run, Hrun. cbv beta iota.
  rewrite (pagination_row_neighbours "products_" _ p t) by done.
  eexists _, w'. split; [|split; [exact Hhttp|split; [|exact Hrest]]].
  - unfold mret, M_ret, markup_of.
    by destruct (neighbours "products_" p t).
  - unfold variation_rows, variable_products. by rewrite length_map.
Qed.

(** ** An empty store *)

Section EmptyStore.
Context `{PyStr} (env : environment).
Context (ucmd : command → update → M unit) (ucb : string → M unit).

Lemma prefix_empty (s : string) : String.prefix EmptyString s = true.
Proof. by destruct s. Qed.

(** The first steps of [button] on a token of the pages of the products. *)
Lemma button_products_run (uid : Z) (suffix : string) (w : world) :
  authorized env uid →
  delivered env (length (chat_log w)) = true →
  dispatch env ucmd ucb (OnButton uid ("products_" +:+ suffix)) w
  = (page ← page_of ("products_" +:+ suffix);
     products_list ← fetch_products env;
     match products_list with
     | None => chat env (EditMessageText "⚠️ Failed to fetch products." false None)
     | Some ps =>
         r ← format_products env ps page 5 (get_currency (bot_data w));
         chat env (EditMessageText (fst r) true (snd r))
     end) (log_chat AnswerCallback w).
Proof.
  intros Hauth Hdel. unfold dispatch, button.
  rewrite bind_run, chat_run, Hdel. cbv beta iota.
  rewrite bind_run, check_admin_allowed by exact Hauth.
  step_if_not_ok. step_read. unfold startswith.
  simpl (String.eqb _ _). simpl (String.prefix _ _). cbv beta iota.
  by rewrite prefix_empty.
Qed.

(** X21: an empty store is reported in two ways.  The command /products
    answers in the language of the settings; a press on a page button of
    the product list, when the store has become empty, is answered by
    [format_products], whose text for an empty list is the English one
    whatever the language. *)
Lemma empty_store_language (uid : Z) (name text : string) (args : list string)
    (suffix : string) (page : Z) (w : world) :
  authorized env uid →
  configured env →
  (products_response env (length (http_log w)) = Some [] →
   after env ucmd ucb (OnCommand Products uid name text args) w
   = log_chat (ReplyText (msg_products_no_results (get_language (bot_data w)))
                 false None)
       (log_http products_request w))
  ∧ (delivered env (length (chat_log w)) = true →
     products_response env (length (http_log w)) = Some [] →
     py_int (nth 1 (split_on "_" ("products_" +:+ suffix)) EmptyString) = Some page →
     after env ucmd ucb (OnButton uid ("products_" +:+ suffix)) w
     = log_chat (EditMessageText (msg_products_no_results En) true None)
         (log_http products_request (log_chat AnswerCallback w))).
Proof.
  intros Hauth Hapi. split.
  - intros Hempty. unfold after, dispatch, command_handler, products.
    rewrite bind_run, check_admin_allowed by exact Hauth.
    step_if_not_ok. step_read.
    rewrite bind_run, fetch_products_run by exact Hapi.
    rewrite Hempty. cbv beta iota. by rewrite chat_run.
  - intros Hdel Hempty Hpage. unfold after.
    rewrite button_products_run by assumption.
    rewrite bind_run. unfold page_of, int_of. rewrite Hpage.
    unfold mret at 1, M_ret at 1. cbv beta iota.
    rewrite bind_run, fetch_products_run by exact Hapi.
    change (http_log (log_chat AnswerCallback w)) with (http_log w).
    rewrite Hempty. cbv beta iota.
    rewrite bind_run. unfold format_products.
    unfold mret at 1, M_ret at 1. cbv beta iota.
    by rewrite chat_run.
Qed.

End EmptyStore.
(** ** Bulk updates *)

Section Bulk.
Context `{PyStr} `{PyConv} (env : environment).

Lemma bulkupdate_run (uid : Z) (name text : string) (args : list string) (w : world) :
  authorized env uid →
  bulkupdate env (Message uid name text args) w
  = bulkupdate_body env (Message uid name text args) w.
Proof.
  intros Hauth. unfold bulkupdate.
  by rewrite bind_run, check_admin_allowed by exact Hauth.
Qed.

(** X22: what [bulkupdate] turns down, it turns down with one answer and
    without a remote call: fewer than three arguments, a status that is
    none of the four (in any case of letters), a stock that [int] does not
    read, a price that [float] does not read, and a type that is none of
    the three. *)
Lemma bulkupdate_rejected (uid : Z) (name text : string) (args : list string)
    (w : world) :
  authorized env uid →
  let answered t :=
    snd (bulkupdate env (Message uid name text args) w)
    = log_chat (ReplyText t false None) w in
  ((length args < 3)%nat → answered bulkupdate_usage)
  ∧ (∀ ty v ids, args = ty :: v :: ids → ids ≠ [] →
       (ty = "order_status" → py_lower v ∉ valid_statuses → answered invalid_status)
       ∧ (ty = "product_stock" → py_int v = None → answered invalid_value)
       ∧ (ty = "product_price" → py_float v = None → answered invalid_value)
       ∧ (ty ∉ ["order_status"; "product_price"; "product_stock"] →
          answered invalid_type)).
Proof.
  intros Hauth answered. subst answered. cbv beta.
  rewrite bulkupdate_run by exact Hauth. unfold bulkupdate_body. split.
  - intros Hlen. destruct args as [|ty [|v [|id ids]]]; simpl in Hlen;
      try lia; cbv beta iota; by rewrite chat_run.
  - intros ty v ids -> Hids. destruct ids as [|id ids]; [done|].
    split; [|split; [|split]].
    + intros -> Hstatus. simpl (String.eqb _ _). cbv iota.
      rewrite bool_decide_eq_false_2 by exact Hstatus. cbn [negb]. cbv iota.
      by rewrite chat_run.
    + intros -> Hint. simpl (String.eqb _ _). cbn [orb]. cbv iota.
      unfold try_ValueError. rewrite bind_run, bind_run. unfold int_of.
      rewrite Hint. unfold raise. cbv beta iota. by rewrite chat_run.
    + intros -> Hfloat. simpl (String.eqb _ _). cbn [orb]. cbv iota.
      unfold try_ValueError. rewrite bind_run, bind_run. unfold float_of.
      rewrite Hfloat. unfold raise. cbv beta iota. by rewrite chat_run.
    + intros Hty.
      destruct (String.eqb_spec ty "order_status") as [->|_].
      { destruct Hty. apply list_elem_of_here. }
      destruct (String.eqb_spec ty "product_price") as [->|_].
      { destruct Hty. apply list_elem_of_further, list_elem_of_here. }
      destruct (String.eqb_spec ty "product_stock") as [->|_].
      { destruct Hty. do 2 apply list_elem_of_further. apply list_elem_of_here. }
      cbn [orb]. cbv iota. by rewrite chat_run.
Qed.

Lemma bulk_order_run (v id : string) (w : world) :
  configured env → delivered env (length (chat_log w)) = true →
  bulk_order env v id w
  = (Ok tt,
     log_chat (order_line v id (put_response env (length (http_log w))))
       (log_http (status_request v id) w)).
Proof.
  intros Hapi Hdel. unfold bulk_order, update_order_status. rewrite Hapi.
  rewrite !bind_run. unfold http at 1. cbv beta iota.
  destruct (put_response env (length (http_log w))) as [e|];
    unfold mret at 1, M_ret at 1; cbv beta iota;
    rewrite chat_run; simpl chat_log; by rewrite Hdel.
Qed.


(** A loop whose every turn is one remote call and one answer. *)
Lemma for_each_call_and_line (turn : string → M unit) (call : string → request)
    (line : string → option string → chat_call) (ids : list string) (w : world) :
  (∀ id w0,
     turn id w0
     = (Ok tt,
        log_chat (line id (put_response env (length (http_log w0))))
          (log_http (call id) w0))) →
  ∃ w',
    for_each turn ids w = (Ok tt, w')
    ∧ http_log w' = http_log w ++ map call ids
    ∧ chat_log w'
      = chat_log w
        ++ imap (λ i id, line id (put_response env (length (http_log w) + i))) ids
    ∧ bot_data w' = bot_data w ∧ user_data w' = user_data w
    ∧ settings_file w' = settings_file w.
Proof.
  intros Hturn. revert w. induction ids as [|id ids IH]; intros w.
  - exists w. simpl. by rewrite !app_nil_r.
  - simpl for_each. rewrite bind_run, Hturn. cbv beta iota.
    destruct (IH (log_chat (line id (put_response env (length (http_log w))))
                    (log_http (call id) w)))
      as (w' & -> & Hhttp & Hchat & Hbd & Hud & Hfile).
    exists w'. split; [reflexivity|].
    simpl in Hhttp, Hchat, Hbd, Hud, Hfile.
    rewrite Hhttp, Hchat, Hbd, Hud, Hfile, <- !app_assoc. simpl.
    rewrite Nat.add_0_r. repeat split.
    do 2 f_equal. apply imap_ext. intros i x _. simpl.
    rewrite length_app. simpl. do 2 f_equal. lia.
Qed.

(** X23: a bulk update of the status of orders takes the ids one by one, in
    the order given: one remote call for each, with the status in lower
    case, and one line of answer for each, which tells whether the store
    took it; an order the store turns down does not stop the ones after
    it.  (The ids are passed on as they are; none is checked to be a
    number.) *)
Lemma bulkupdate_orders (uid : Z) (name text v : string) (ids : list string)
    (w : world) :
  authorized env uid →
  configured env →
  (∀ n, delivered env n = true) →
  py_lower v ∈ valid_statuses →
  ids ≠ [] →
  ∃ w',
    bulkupdate env (Message uid name text ("order_status" :: v :: ids)) w = (Ok tt, w')
    ∧ http_log w' = http_log w ++ map (status_request v) ids
    ∧ chat_log w'
      = chat_log w
        ++ imap (λ i id, order_line v id (put_response env (length (http_log w) + i)))
             ids
    ∧ bot_data w' = bot_data w ∧ user_data w' = user_data w
    ∧ settings_file w' = settings_file w.
Proof.
  intros Hauth Hapi Hdel Hstatus Hids.
  rewrite bulkupdate_run by exact Hauth. unfold bulkupdate_body.
  destruct ids as [|id ids]; [done|].
  simpl (String.eqb _ _). cbv iota.
  rewrite bool_decide_eq_true_2 by exact Hstatus. cbn [negb]. cbv iota.
  apply for_each_call_and_line.
  intros id0 w0. by apply bulk_order_run.
Qed.


End Bulk.
(** ** The update buttons *)

Lemma split_on_word (sep : ascii) (word s : string) :
  without sep word →
  split_on sep (word +:+ String sep s) = word :: split_on sep s.
Proof.
  intros Hword. induction word as [|c rest IH]; simpl.
  - by rewrite Ascii.eqb_refl.
  - destruct Hword as [Hc Hrest]. rewrite IH by exact Hrest.
    by rewrite (proj2 (Ascii.eqb_neq c sep) Hc).
Qed.

Section UpdateButton.
Context `{PyStr} `{PyConv} (env : environment).
Context (customers_response : nat → option (list customer)).
Context (ucmd : command → update → M unit) (other : string → M unit).

Lemma unless_None_float (s : string) (price : option string) (w : world) :
  token_value py_float s = Some price →
  unless_None float_of s w = (Ok price, w).
Proof.
  unfold token_value, unless_None, float_of.
  destruct (String.eqb s "None"); simpl.
  - by intros [= <-].
  - rewrite bind_run. destruct (py_float s) as [t|]; simpl; [|discriminate].
    by intros [= <-].
Qed.

Lemma unless_None_int (s : string) (stock : option Z) (w : world) :
  token_value py_int s = Some stock →
  unless_None (int_of (H := H)) s w = (Ok stock, w).
Proof.
  unfold token_value, unless_None, int_of.
  destruct (String.eqb s "None"); simpl.
  - by intros [= <-].
  - rewrite bind_run. destruct (py_int s) as [t|]; simpl; [|discriminate].
    by intros [= <-].
Qed.

(** The first steps of [button] on the token of an update button. *)
Lemma button_update_run (uid : Z) (rest : string) (w : world) :
  authorized env uid →
  delivered env (length (chat_log w)) = true →
  dispatch env ucmd (callback_body env customers_response other)
    (OnButton uid ("update_" +:+ rest)) w
  = update_callback env ("update_" +:+ rest) (log_chat AnswerCallback w).
Proof.
  intros Hauth Hdel. unfold dispatch, button.
  rewrite bind_run, chat_run, Hdel. cbv beta iota.
  rewrite bind_run, check_admin_allowed by exact Hauth.
  step_if_not_ok. step_read. unfold callback_body, startswith.
  simpl (String.eqb _ _). simpl (String.prefix _ _). cbv beta iota.
  rewrite prefix_empty. reflexivity.
Qed.

(** X25: a press on an update button.  Its token is update, the product,
    the variation, the price and the stock, joined by underscores, with
    None for a value left out.  A token of another number of parts ends
    the handler on a [ValueError] with nothing shown; otherwise the
    values are read and handed to [update_product] for that variation,
    and its message is shown; in particular a token with None for both
    values is answered with No updates provided, without a remote call. *)
Lemma update_button (uid : Z) (rest : string) (w : world) :
  authorized env uid →
  delivered env (length (chat_log w)) = true →
  let pressed :=
    dispatch env ucmd (callback_body env customers_response other)
      (OnButton uid ("update_" +:+ rest)) w in
  let acknowledged := log_chat AnswerCallback w in
  (length (split_on "_" rest) ≠ 4%nat →
   pressed = (Raise (ValueError unpack_error), acknowledged))
  ∧ (∀ product_id variation_id price_text stock_text price stock,
       split_on "_" rest = [product_id; variation_id; price_text; stock_text] →
       token_value py_float price_text = Some price →
       token_value py_int stock_text = Some stock →
       ∃ success message w1,
         update_product env product_id price stock (Some variation_id) acknowledged
         = (Ok (success, message), w1)
         ∧ snd pressed
           = log_chat (EditMessageText
                         ("📦 Variation " +:+ variation_id +:+ ": " +:+ message)
                         false None) w1
         ∧ (configured env → price = None → stock = None →
            message = "No updates provided." ∧ w1 = acknowledged)).
Proof.
  intros Hauth Hdel pressed acknowledged. subst pressed acknowledged.
  rewrite button_update_run by assumption. unfold update_callback.
  change ("update_" +:+ rest) with ("update" +:+ String "_"%char rest).
  rewrite split_on_word by (by repeat split).
  split.
  - intros Hlen.
    destruct (split_on "_" rest) as [|a [|b [|c [|d [|e l]]]]]; try reflexivity.
    by destruct Hlen.
  - intros product_id variation_id price_text stock_text price stock -> Hprice Hstock.
    rewrite bind_run, (unless_None_float _ _ _ Hprice). cbv beta iota.
    rewrite bind_run, (unless_None_int _ _ _ Hstock). cbv beta iota.
    rewrite bind_run.
    destruct (update_product env product_id price stock (Some variation_id)
                (log_chat AnswerCallback w)) as [[[success message]|e] w1] eqn:Hupdate.
    + exists success, message, w1. split; [reflexivity|]. split.
      * cbv beta iota. by rewrite chat_run.
      * intros Hapi -> ->. unfold update_product in Hupdate.
        rewrite Hapi in Hupdate. simpl in Hupdate. by inversion Hupdate.
    + exfalso. unfold update_product in Hupdate.
      destruct (get_woocommerce_api env); [|by inversion Hupdate].
      destruct (update_data price stock); [by inversion Hupdate|].
      rewrite bind_run in Hupdate. unfold http at 1 in Hupdate.
      cbv beta iota in Hupdate.
      destruct (put_response env _); by inversion Hupdate.
Qed.

End UpdateButton.
(** ** The pages of the customers *)

(** A loop whose every turn is one remote call, and whose result is read
    from the store's answer to it. *)
Lemma mapM_call_each {A B} (f : A → M B) (call : A → request)
    (read : A → nat → B) (l : list A) (w : world) :
  (∀ a w0, f a w0 = (Ok (read a (length (http_log w0))), log_http (call a) w0)) →
  ∃ w',
    mapM f l w = (Ok (imap (λ i a, read a (length (http_log w) + i)%nat) l), w')
    ∧ http_log w' = http_log w ++ map call l
    ∧ bot_data w' = bot_data w ∧ user_data w' = user_data w
    ∧ chat_log w' = chat_log w ∧ settings_file w' = settings_file w.
Proof.
  intros Hf. revert w. induction l as [|a l IH]; intros w.
  - exists w. simpl. by rewrite app_nil_r.
  - simpl mapM. rewrite bind_run, Hf. cbv beta iota. rewrite bind_run.
    destruct (IH (log_http (call a) w)) as (w' & -> & Hhttp & Hbd & Hud & Hchat & Hfile).
    exists w'. simpl in Hhttp, Hbd, Hud, Hchat, Hfile.
    rewrite Hhttp, Hbd, Hud, Hchat, Hfile, <- app_assoc. simpl.
    rewrite Nat.add_0_r. repeat split.
    unfold mret, M_ret. do 3 f_equal. apply imap_ext. intros i x _. simpl.
    rewrite length_app. simpl. f_equal. lia.
Qed.

Section Customers.
Context `{PyStr} (env : environment).

Lemma customer_entry_run (symbol : string) (c : customer) (w : world) :
  configured env →
  customer_entry env symbol c w
  = (Ok (customer_lines symbol c
           (order_count_of (orders_response env (length (http_log w))))),
     log_http (customer_orders_request c) w).
Proof.
  intros Hapi. unfold customer_entry, fetch_customer_orders. by rewrite Hapi.
Qed.

(** The entry the loop of [format_customers] writes for a customer. *)
Lemma customer_lines_shown (symbol : string) (c : customer)
    (orders : option (list order)) :
  customer_lines symbol c (order_count_of orders) = customer_shown symbol c orders.
Proof.
  unfold customer_lines, customer_shown, order_count_of. cbv zeta.
  by rewrite shown_name_code.
Qed.

(** X26: the pages of the customers, five to a page.  Of a list of n
    customers, n at least 1, with t the ceiling of n / 5, page p with
    0 <= p < t costs one remote call for each of its min(5, n - 5p)
    customers, the listing of that customer's orders, and is written from
    one entry for each, in their order, which tells the customer's id,
    name, email and total spent and how many orders the listing holds (0
    when the call fails), with the footer Page p+1 of t and the row that
    leads to the neighbouring pages; a page p with p >= t is the no-more
    sentence, at no cost. *)
Lemma customers_pages (customers : list customer) (p t : Z) (currency : string)
    (w : world) :
  configured env →
  customers ≠ [] →
  is_ceil_div5 (Z.of_nat (length customers)) t →
  (0 ≤ p < t →
   let page := page_records customers p in
   let entries :=
     imap (λ i c, customer_shown (currency_symbol currency) c
                    (orders_response env (length (http_log w) + i)%nat))
       page in
   ∃ w',
     format_customers env customers p 5 currency w
     = (Ok ("👥 **Customer List**" +:+ nl +:+ nl
            +:+ String.concat EmptyString entries
            +:+ "Page " +:+ str_of_int (p + 1) +:+ " of " +:+ str_of_int t,
            match neighbours "customers_" p t with
            | [] => None
            | row => Some [row]
            end), w')
     ∧ Z.of_nat (length entries) = Z.min 5 (Z.of_nat (length customers) - 5 * p)
     ∧ http_log w' = http_log w ++ map customer_orders_request page
     ∧ bot_data w' = bot_data w ∧ user_data w' = user_data w
     ∧ chat_log w' = chat_log w ∧ settings_file w' = settings_file w)
  ∧ (t ≤ p →
     format_customers env customers p 5 currency w
     = (Ok ("No more customers to show.", None), w)).
Proof.
  intros Hapi Hne Ht.
  pose proof (total_pages_ceiling _ _ Ht) as Htotal.
  pose proof Ht as Hceil. unfold is_ceil_div5 in Hceil.
  destruct customers as [|c0 cs]; [done|].
  unfold format_customers. cbv beta iota.
  remember (c0 :: cs) as customers eqn:Hcs.
  change (5 =? 0) with false. cbv iota.
  split.
  - intros Hp. cbv zeta.
    destruct (Z.geb_spec (p * 5) (Z.of_nat (length customers))) as [?|_]; [lia|].
    rewrite py_slice_page by lia.
    destruct (mapM_call_each (customer_entry env (currency_symbol currency))
                customer_orders_request
                (λ c n, customer_shown (currency_symbol currency) c
                          (orders_response env n))
                (page_records customers p) w)
      as (w' & Hrun & Hhttp & Hrest).
    { intros c w0. rewrite <- customer_lines_shown. by apply customer_entry_run. }
    rewrite bind_run, Hrun. cbv beta iota.
    rewrite (pagination_row_neighbours "customers_" _ p t) by done.
    exists w'. split; [|split; [|split; [exact Hhttp | exact Hrest]]].
    + unfold mret, M_ret, markup_of, page_footer. rewrite Htotal.
      by destruct (neighbours "customers_" p t).
    + rewrite length_imap. apply length_page_records; lia.
  - intros Hp.
    destruct (Z.geb_spec (p * 5) (Z.of_nat (length customers))) as [_|?]; [|lia].
    reflexivity.
Qed.

Context (customers_response : nat → option (list customer)).

(** The handlers embedded after the others are the ones the application
    runs for their commands. *)
Lemma dispatch_embedded `{PyConv} (other : command → update → M unit)
    (ucb : string → M unit) (uid : Z) (name text : string) (args : list string) :
  dispatch env (command_body env customers_response other) ucb
    (OnCommand Bulkupdate uid name text args)
  = bulkupdate env (Message uid name text args)
  ∧ dispatch env (command_body env customers_response other) ucb
      (OnCommand Customers uid name text args)
    = customers env customers_response (Message uid name text args).
Proof. split; reflexivity. Qed.

(** X27: what the command /customers costs.  For an administrator, with
    the store credentials set and a store that lists its customers, the
    command issues the listing of the customers and then one listing of
    orders for each of the first five of them, and answers with one
    message; nothing else changes. *)
Lemma customers_command_calls (uid : Z) (name text : string) (args : list string)
    (cs : list customer) (w : world) :
  authorized env uid →
  configured env →
  customers_response (length (http_log w)) = Some cs →
  cs ≠ [] →
  ∃ message markup w1,
    snd (customers env customers_response (Message uid name text args) w)
    = log_chat (ReplyText message true markup) w1
    ∧ http_log w1
      = http_log w ++ customers_request :: map customer_orders_request (firstn 5 cs)
    ∧ bot_data w1 = bot_data w ∧ user_data w1 = user_data w
    ∧ chat_log w1 = chat_log w ∧ settings_file w1 = settings_file w.
Proof.
  intros Hauth Hapi Hfetch Hne. unfold customers.
  rewrite bind_run, check_admin_allowed by exact Hauth.
  step_if_not_ok. unfold customers_body. step_read.
  rewrite bind_run. unfold fetch_customers. rewrite Hapi.
  rewrite bind_run. unfold http at 1. cbv beta iota.
  unfold mret at 1, M_ret at 1. cbv beta iota. rewrite Hfetch.
  rewrite bind_run. destruct cs as [|c0 cs]; [done|].
  unfold format_customers. cbv beta iota.
  remember (c0 :: cs) as customers eqn:Hcs.
  change (5 =? 0) with false. cbv iota.
  assert (0 < Z.of_nat (length customers)) as Hlen by (subst; simpl; lia).
  destruct (Z.geb_spec (0 * 5) (Z.of_nat (length customers))) as [?|_]; [lia|].
  rewrite (py_slice_page customers 0) by lia.
  destruct (mapM_call_each
              (customer_entry env (currency_symbol (get_currency (bot_data w))))
              customer_orders_request
              (λ c n, customer_lines (currency_symbol (get_currency (bot_data w))) c
                        (order_count_of (orders_response env n)))
              (page_records customers 0) (log_http customers_request w))
    as (w1 & Hrun & Hhttp & Hbd & Hud & Hchat & Hfile).
  { intros c w0. by apply customer_entry_run. }
  fold customers_request. rewrite bind_run, Hrun. cbv beta iota.
  unfold mret at 1, M_ret at 1. cbv beta iota. rewrite chat_run.
  eexists _, _, w1. split; [reflexivity|].
  rewrite Hhttp. simpl. rewrite <- app_assoc. by repeat split.
Qed.

End Customers.
(** ** What an update sends *)


(** ** One conversation and the others *)

Section Conversations.
Context `{PyStr} (env : environment).
Context (ucmd : command → update → M unit) (ucb : string → M unit).

(** An event of the settings leaves the flags of every user, or writes
    those of its sender. *)
Lemma settings_event_user_data (e : event) (w : world) (Q : world → Prop) :
  settings_event e →
  (∀ w', user_data w' = user_data w → Q w') →
  (∀ w' f, user_data w' = <[event_sender e := f]> (user_data w) → Q w') →
  Q (after env ucmd ucb e w).
Proof.
  intros He Hkeep Hput. unfold after, dispatch.
  destruct e as [c uid name text args | uid name text | uid data]; [done| |];
    simpl event_sender in Hput.
  - unfold handle_text. rewrite bind_run.
    destruct (check_admin_cases env (Message uid name text []) w)
      as [-> | (r & w0 & -> & Hr & Hud & _)].
    2: { destruct r as [[|]|e]; try done; by apply Hkeep. }
    step_if_not_ok. step_read. step_flags.
    destruct (awaiting_threshold (flags_of w uid)).
    { unfold try_ValueError. rewrite bind_run. unfold int_of.
      destruct (py_int text) as [n|]; unfold mret, M_ret, raise; cbv beta iota.
      2: { rewrite chat_run. by apply Hkeep. }
      destruct (n <? 0); cbv beta iota.
      { rewrite chat_run. by apply Hkeep. }
      step_read. step_write. rewrite bind_run, chat_run.
      destruct (delivered env _); cbv beta iota; [|by apply Hkeep].
      step_save. step_flags. by eapply Hput. }
    destruct (awaiting_watch_product (flags_of w uid)).
    { unfold try_ValueError. rewrite bind_run. unfold int_of.
      destruct (py_int text) as [n|]; unfold mret, M_ret, raise; cbv beta iota.
      2: { rewrite chat_run. by apply Hkeep. }
      rewrite bind_run.
      destruct (fetch_products_frame env w) as (ps & w1 & -> & Hud & _).
      cbv beta iota. rewrite bind_run.
      destruct (has_product ps n); cbv beta iota.
      2: { rewrite chat_run. by apply Hkeep. }
      step_read. step_write. rewrite bind_run, chat_run.
      destruct (delivered env _); cbv beta iota; [|by apply Hkeep].
      unfold save_settings at 1. cbv beta iota.
      step_flags. eapply Hput. simpl. by rewrite Hud. }
    destruct (awaiting_currency (flags_of w uid)); [|by apply Hkeep].
    destruct (dict_mem CURRENCY_SYMBOLS (py_upper text)).
    2: { rewrite chat_run. by apply Hkeep. }
    step_read. step_write. rewrite bind_run, chat_run.
    destruct (delivered env _); cbv beta iota; [|by apply Hkeep].
    step_save. step_flags. by eapply Hput.
  - unfold button. rewrite bind_run, chat_run.
    destruct (delivered env (length (chat_log w))); cbv beta iota;
      [|by apply Hkeep].
    rewrite bind_run.
    destruct (check_admin_cases env (CallbackQuery uid data) (log_chat AnswerCallback w))
      as [-> | (r & w0 & -> & Hr & Hud & _)].
    2: { destruct r as [[|]|e]; try done; by apply Hkeep. }
    step_if_not_ok. step_read.
    simpl in He. unfold settings_tokens in He.
    repeat (apply elem_of_cons in He as [->|He]); [..|by apply elem_of_nil in He];
      simpl (String.eqb _ _); cbv beta iota zeta.
    + step_write. rewrite bind_run, chat_run.
      destruct (delivered env _); cbv beta iota; by apply Hkeep.
    + step_write. rewrite bind_run, chat_run.
      destruct (delivered env _); cbv beta iota; by apply Hkeep.
    + rewrite bind_run, chat_run.
      destruct (delivered env _); cbv beta iota; [|by apply Hkeep].
      step_flags. by eapply Hput.
    + rewrite bind_run, chat_run.
      destruct (delivered env _); cbv beta iota; [|by apply Hkeep].
      step_flags. by eapply Hput.
    + rewrite bind_run, chat_run.
      destruct (delivered env _); cbv beta iota; [|by apply Hkeep].
      step_flags. by eapply Hput.
    + step_write. rewrite bind_run, chat_run.
      destruct (delivered env _); cbv beta iota; by apply Hkeep.
Qed.

(** X29: the input flags are kept apart by user.  Whatever the chat does,
    a sequence of free texts and of presses on the buttons of the settings
    keyboard leaves the flags of every user who sent none of them as they
    were. *)
Lemma other_conversations_untouched (es : list event) (uid : Z) (w : world) :
  Forall settings_event es →
  Forall (λ e, event_sender e ≠ uid) es →
  flags_of (run_events env ucmd ucb es w) uid = flags_of w uid.
Proof.
  intros Hes Hothers. revert w.
  induction es as [|e es IH]; intros w; [reflexivity|].
  apply Forall_cons in Hes as [He Hes]. apply Forall_cons in Hothers as [Hother Hothers].
  simpl run_events. rewrite IH by assumption.
  apply (settings_event_user_data e w); [exact He | |].
  - intros w' Hud. unfold flags_of. by rewrite Hud.
  - intros w' f Hud. unfold flags_of. rewrite Hud.
    by rewrite lookup_insert_ne.
Qed.

End Conversations.
(** ** The further statements at concrete inputs *)

Lemma authorized_deployment (answers : nat → option (list product))
    (puts : nat → option string) (chat_up : nat → bool) :
  authorized (H := ascii_text) (deployment sample_getenv answers puts chat_up) 1.
Proof. exists [1]. split; [reflexivity | apply list_elem_of_here]. Defined.

Lemma monitor_switched_off_witness :
  check_low_stock store_down world_alerts_off = (Ok tt, world_alerts_off).
Proof.
  apply (monitor_switched_off store_down world_alerts_off).
  right. left. reflexivity.
Defined.

Lemma undelivered_alerts_witness :
  fst (check_low_stock store_and_chat_down initial_world) = Raise TelegramError.
Proof.
  destruct (undelivered_alerts store_and_chat_down initial_world "77")
    as (_ & Hfailure & _).
  - repeat split; reflexivity.
  - reflexivity.
  - apply Hfailure; [intros i _|]; reflexivity.
Defined.

Lemma threshold_reply_effects_witness :
  dispatch (H := ascii_text) store_down no_command no_callback
    (OnText 1 "Ann" "10") world_awaiting_threshold
  = (Ok tt,
     put_user_data 1 (with_awaiting_threshold false (flags_of world_awaiting_threshold 1))
       (write_settings_file
          (settings_dump (with_low_stock_threshold 10 (bot_data world_awaiting_threshold)))
          (log_chat
             (ReplyText (msg_threshold_set En (str_of_int 10)) false None)
             (put_bot_data
                (with_low_stock_threshold 10 (bot_data world_awaiting_threshold))
                world_awaiting_threshold)))).
Proof.
  apply (threshold_reply_effects (H := ascii_text) store_down no_command no_callback
           1 "Ann" "10" 10 world_awaiting_threshold).
  - apply authorized_sample.
  - reflexivity.
  - reflexivity.
  - lia.
Defined.

Lemma threshold_rejected_witness :
  after (H := ascii_text) store_down no_command no_callback
    (OnText 1 "Ann" "-3") world_awaiting_threshold
  = log_chat (ReplyText (msg_threshold_error En) false None) world_awaiting_threshold.
Proof.
  apply (threshold_rejected (H := ascii_text) store_down no_command no_callback
           1 "Ann" "-3" world_awaiting_threshold).
  - apply authorized_sample.
  - reflexivity.
  - right. exists (-3). split; [reflexivity | lia].
Defined.


Lemma watched_set_then_found_witness :
  let w' := after (H := ascii_text) (store_of [product_1; product_2]) no_command
              no_callback (OnText 1 "Ann" " 2 ") world_awaiting_watch in
  watched_product_id (bot_data w') = Some (str_of_int 2)
  ∧ last (settings_file w') = Some (settings_dump (bot_data w'))
  ∧ str_truthy (str_of_int 2) = true
  ∧ ∀ later, (∃ p, p ∈ later ∧ p_id p = 2) →
             ∃ wp, find_watched (str_of_int 2) later = Some wp
                   ∧ wp ∈ later ∧ p_id wp = 2.
Proof.
  apply (watched_set_then_found (H := ascii_text) (store_of [product_1; product_2])
           no_command no_callback 1 "Ann" " 2 " 2 [product_1; product_2]
           world_awaiting_watch).
  - apply authorized_sample.
  - reflexivity.
  - reflexivity.
  - reflexivity.
  - reflexivity.
  - reflexivity.
  - exists product_2. split; [|reflexivity].
    apply list_elem_of_further, list_elem_of_here.
Defined.

Lemma currency_reply_effects_witness :
  dispatch (H := ascii_text) store_down no_command no_callback
    (OnText 1 "Ann" "eur") world_awaiting_currency
  = (Ok tt,
     put_user_data 1 (with_awaiting_currency false (flags_of world_awaiting_currency 1))
       (write_settings_file
          (settings_dump (with_currency "EUR" (bot_data world_awaiting_currency)))
          (log_chat (ReplyText (msg_currency_set En "EUR") false None)
             (put_bot_data (with_currency "EUR" (bot_data world_awaiting_currency))
                world_awaiting_currency)))).
Proof.
  apply (currency_reply_effects (H := ascii_text) store_down no_command no_callback
           1 "Ann" "eur" world_awaiting_currency).
  - apply authorized_sample.
  - reflexivity.
  - apply (bool_decide_unpack _). vm_compute. exact I.
Defined.

Lemma text_outside_prompt_ignored_witness :
  dispatch (H := ascii_text) store_down no_command no_callback
    (OnText 1 "Ann" "hello") initial_world
  = (Ok tt, initial_world).
Proof.
  apply (text_outside_prompt_ignored (H := ascii_text) store_down no_command
           no_callback 1 "Ann" "hello" initial_world).
  - apply authorized_sample.
  - reflexivity.
Defined.

Lemma settings_file_in_step_witness :
  let w' := after (H := ascii_text) store_down no_command no_callback
              (OnButton 1 "toggle_lang") initial_world in
  is_running (bot_data w') = is_running (bot_data initial_world)
  ∧ ((bot_data w' = bot_data initial_world
      ∧ settings_file w' = settings_file initial_world)
     ∨ settings_file w'
       = settings_file initial_world ++ [settings_dump (bot_data w')]).
Proof.
  apply (settings_file_in_step (H := ascii_text) store_down no_command no_callback
           (OnButton 1 "toggle_lang") initial_world).
  - reflexivity.
  - apply (bool_decide_unpack _). vm_compute. exact I.
Defined.

Lemma restart_not_scheduled_witness :
  fst (main store_with_token
         (process_start
            (settings_file
               (run_events (H := ascii_text) store_with_token no_command no_callback
                  [OnButton 1 "toggle_low_stock"] initial_world))))
  = Ok false.
Proof.
  destruct (restart_not_scheduled (H := ascii_text) store_with_token no_command
              no_callback [OnButton 1 "toggle_low_stock"] initial_world)
    as (_ & Hrestart).
  - reflexivity.
  - apply Hrestart.
    + reflexivity.
    + constructor; [|constructor].
      apply (bool_decide_unpack _). vm_compute. exact I.
    + reflexivity.
    + vm_compute. discriminate.
Defined.

Lemma parse_ids_spec_witness :
  ∃ ids, parse_ids (H := ascii_text) ["1"; " "; " 2"] = Ok ids
         ∧ length ids = length (List.filter (λ id, str_truthy (ascii_strip id))
                                  ["1"; " "; " 2"]).
Proof.
  destruct (parse_ids_spec (H := ascii_text) ["1"; " "; " 2"]) as (_ & Hall).
  apply Hall. simpl. repeat constructor; by eexists.
Defined.

Lemma malformed_admin_ids_lock_out_witness :
  dispatch (H := ascii_text) store_bad_ids no_command no_callback
    (OnCommand Help 1 "Ann" "/help" []) initial_world
  = (Raise (ValueError int_error), initial_world).
Proof.
  apply (malformed_admin_ids_lock_out (H := ascii_text) store_bad_ids no_command
           no_callback "x7" (OnCommand Help 1 "Ann" "/help" []) initial_world).
  - apply (bool_decide_unpack _). vm_compute. exact I.
  - reflexivity.
  - reflexivity.
Defined.

Lemma orders_page_buttons_witness :
  next_button "orders_" 0 ∈ neighbours "orders_" 0 2
  ∧ page_of (H := ascii_text) (btn_callback_data (next_button "orders_" 0)) initial_world
    = (Ok (0 + 1), initial_world).
Proof.
  destruct (orders_page_buttons (H := ascii_text) seven_orders 0 2 "USD" initial_world)
    as (_ & _ & Hnext).
  - discriminate.
  - unfold is_ceil_div5. simpl. lia.
  - lia.
  - apply Hnext; [lia | reflexivity].
Defined.

Lemma products_page_calls_witness :
  ∃ message w',
    format_products (store_of [product_1; product_variable])
      [product_1; product_variable] 0 5 "USD" initial_world
    = (Ok (message,
           match variation_rows (page_records [product_1; product_variable] 0)
                 ++ match neighbours "products_" 0 1 with
                    | [] => []
                    | row => [row]
                    end
           with
           | [] => None
           | rows => Some rows
           end), w')
    ∧ http_log w'
      = http_log initial_world
        ++ map variations_request
             (variable_products (page_records [product_1; product_variable] 0)).
Proof.
  destruct (products_page_calls (store_of [product_1; product_variable])
              [product_1; product_variable] 0 1 "USD" initial_world)
    as (message & w' & Hrun & Hhttp & _).
  - reflexivity.
  - discriminate.
  - unfold is_ceil_div5. simpl. lia.
  - lia.
  - exists message, w'. split; [exact Hrun | exact Hhttp].
Defined.

Lemma empty_store_language_witness :
  after (H := ascii_text) store_empty no_command no_callback
    (OnButton 1 ("products_" +:+ "1"))
    (put_bot_data (with_language Fa (bot_data initial_world)) initial_world)
  = log_chat (EditMessageText (msg_products_no_results En) true None)
      (log_http products_request
         (log_chat AnswerCallback
            (put_bot_data (with_language Fa (bot_data initial_world)) initial_world))).
Proof.
  destruct (empty_store_language (H := ascii_text) store_empty no_command no_callback
              1 "Ann" "/products" [] "1" 1
              (put_bot_data (with_language Fa (bot_data initial_world)) initial_world))
    as (_ & Hbutton).
  - apply authorized_deployment.
  - reflexivity.
  - apply Hbutton; reflexivity.
Defined.

Lemma bulkupdate_rejected_witness :
  snd (bulkupdate (H := ascii_text) (H0 := ascii_conv) store_down
         (Message 1 "Ann" "/bulkupdate" ["order_status"; "shipped"; "12"]) initial_world)
  = log_chat (ReplyText invalid_status false None) initial_world.
Proof.
  destruct (bulkupdate_rejected (H := ascii_text) (H0 := ascii_conv) store_down
              1 "Ann" "/bulkupdate" ["order_status"; "shipped"; "12"] initial_world)
    as (_ & Hrest).
  - apply authorized_sample.
  - destruct (Hrest "order_status" "shipped" ["12"]) as (Hstatus & _).
    + reflexivity.
    + discriminate.
    + apply Hstatus; [reflexivity|].
      apply (bool_decide_unpack _). vm_compute. exact I.
Defined.

Lemma bulkupdate_orders_witness :
  ∃ w',
    bulkupdate (H := ascii_text) (H0 := ascii_conv) store_refusing_second
      (Message 1 "Ann" "/bulkupdate" ["order_status"; "Completed"; "12"; "13"; "14"])
      initial_world
    = (Ok tt, w')
    ∧ http_log w'
      = http_log initial_world
        ++ map (status_request (H := ascii_conv) "Completed") ["12"; "13"; "14"]
    ∧ chat_log w'
      = chat_log initial_world
        ++ imap (λ i id, order_line "Completed" id
                           (put_response store_refusing_second
                              (length (http_log initial_world) + i)))
             ["12"; "13"; "14"].
Proof.
  destruct (bulkupdate_orders (H := ascii_text) (H0 := ascii_conv)
              store_refusing_second 1 "Ann" "/bulkupdate" "Completed"
              ["12"; "13"; "14"] initial_world)
    as (w' & Hrun & Hhttp & Hchat & _).
  - apply authorized_deployment.
  - reflexivity.
  - reflexivity.
  - apply (bool_decide_unpack _). vm_compute. exact I.
  - discriminate.
  - exists w'. split; [exact Hrun|]. split; [exact Hhttp | exact Hchat].
Defined.


Lemma update_button_witness :
  snd (dispatch (H := ascii_text) store_down no_command
         (callback_body (H := ascii_text) (H0 := ascii_conv) store_down
            (fun _ => None) no_callback)
         (OnButton 1 ("update_" +:+ "42_7_None_None")) initial_world)
  = log_chat (EditMessageText
                ("📦 Variation " +:+ "7" +:+ ": " +:+ "No updates provided.")
                false None)
      (log_chat AnswerCallback initial_world).
Proof.
  destruct (update_button (H := ascii_text) (H0 := ascii_conv) store_down
              (fun _ => None) no_command no_callback 1 "42_7_None_None" initial_world)
    as (_ & Hparts).
  - apply authorized_sample.
  - reflexivity.
  - destruct (Hparts "42" "7" "None" "None" None None eq_refl eq_refl eq_refl)
      as (success & message & w1 & _ & Hshown & Hnone).
    destruct (Hnone eq_refl eq_refl eq_refl) as [-> ->]. exact Hshown.
Defined.

Lemma customers_pages_witness :
  ∃ w',
    format_customers (H := ascii_text) store_empty two_customers 0 5 "USD" initial_world
    = (Ok ("👥 **Customer List**" +:+ nl +:+ nl
           +:+ "ID: 8 | Ann Lee" +:+ nl
           +:+ "Email: ann@example.org | Total Spent: $84.00 | Orders: 0" +:+ nl +:+ nl
           +:+ "ID: 9 | Unknown" +:+ nl
           +:+ "Email: N/A | Total Spent: $0.00 | Orders: 7" +:+ nl +:+ nl
           +:+ "Page 1 of 1",
           None), w')
    ∧ http_log w' = map customer_orders_request two_customers.
Proof.
  destruct (customers_pages (H := ascii_text) store_empty two_customers 0 1 "USD"
              initial_world) as (Hpage & _).
  - reflexivity.
  - discriminate.
  - unfold is_ceil_div5. simpl. lia.
  - destruct Hpage as (w' & Hrun & _ & Hhttp & _); [lia|].
    exists w'. split; [exact Hrun | exact Hhttp].
Defined.

Lemma customers_command_calls_witness :
  ∃ message markup w1,
    snd (customers (H := ascii_text) (store_of []) (fun _ => Some two_customers)
           (Message 1 "Ann" "/customers" []) initial_world)
    = log_chat (ReplyText message true markup) w1
    ∧ http_log w1
      = http_log initial_world
        ++ customers_request :: map customer_orders_request (firstn 5 two_customers).
Proof.
  destruct (customers_command_calls (H := ascii_text) (store_of [])
              (fun _ => Some two_customers) 1 "Ann" "/customers" [] two_customers
              initial_world)
    as (message & markup & w1 & Hrun & Hhttp & _).
  - apply authorized_sample.
  - reflexivity.
  - reflexivity.
  - discriminate.
  - exists message, markup, w1. split; [exact Hrun | exact Hhttp].
Defined.


Lemma other_conversations_untouched_witness :
  flags_of
    (run_events (H := ascii_text) store_down no_command no_callback
       [OnButton 1 "set_threshold"; OnText 1 "Ann" "10"]
       (put_user_data 2 (with_awaiting_currency true no_flags) initial_world)) 2
  = flags_of (put_user_data 2 (with_awaiting_currency true no_flags) initial_world) 2.
Proof.
  apply (other_conversations_untouched (H := ascii_text) store_down no_command
           no_callback [OnButton 1 "set_threshold"; OnText 1 "Ann" "10"] 2).
  - constructor; [|constructor; [exact I | constructor]].
    apply (bool_decide_unpack _). vm_compute. exact I.
  - repeat constructor; discriminate.
Defined.
